(** * Levelling cog: XP curves, progress store, rewards and leaderboards

    A shallow embedding of [cogs/Levelling.py].  Python integers are
    unbounded and are modelled by [Z]; the SQLite tables are finite maps
    keyed as their primary keys are; the Discord objects the cog talks to
    (guild, member cache, role API) are explicit records and state.

    Three idealisations are made and used consistently:
    - binary64 values ([multiplier], [threads_multiplier] and the
      exponential curve's [math.pow]) are exact rationals ([Q]), so there
      is neither rounding error nor [OverflowError]; Python's [round]
      keeps its round-half-to-even rule;
    - the coroutines run to completion one after the other (the module
      serialises its database accesses with a single lock);
    - the role cache of a member is up to date as soon as [add_roles]
      has succeeded. *)

From Stdlib Require Import ZArith QArith Qround Qpower Qminmax Lqa Lia Bool Ascii String.
From stdpp Require Import base decidable option list sorting gmap strings pretty.

Local Open Scope Z_scope.

(** ** Python primitives *)

Module Py.

(** [round(x)] on a float: nearest integer, ties to the even one. *)
Definition round (x : Q) : Z :=
  let f := Qfloor x in
  match Qcompare (x - inject_Z f) (1 # 2) with
  | Lt => f
  | Gt => f + 1
  | Eq => if Z.even f then f else f + 1
  end.

(** [str.lower()] on the ASCII range. *)
Definition lower_ascii (c : ascii) : ascii :=
  let n := Ascii.N_of_ascii c in
  if ((65 <=? n) && (n <=? 90))%N then Ascii.ascii_of_N (n + 32) else c.

Fixpoint lower (s : string) : string :=
  match s with
  | EmptyString => EmptyString
  | String c r => String (lower_ascii c) (lower r)
  end.

(** The characters [str.strip()] removes, on the ASCII range. *)
Definition is_space (c : ascii) : bool :=
  let n := Ascii.N_of_ascii c in
  (((9 <=? n) && (n <=? 13)) || ((28 <=? n) && (n <=? 32)))%N.

Fixpoint lstrip (s : string) : string :=
  match s with
  | EmptyString => EmptyString
  | String c r => if is_space c then lstrip r else s
  end.

Fixpoint rstrip (s : string) : string :=
  match s with
  | EmptyString => EmptyString
  | String c r =>
      match rstrip r with
      | EmptyString => if is_space c then EmptyString else String c EmptyString
      | r' => String c r'
      end
  end.

Definition strip (s : string) : string := rstrip (lstrip s).

Definition len (s : string) : Z := Z.of_nat (String.length s).

(** [random.randint(lo, hi)]: raises [ValueError] on an empty range
    ([None]); otherwise some integer of [lo..hi], picked here by the
    entropy [r] handed in by the caller. *)
Definition randint (lo hi r : Z) : option Z :=
  if hi <? lo then None else Some (lo + r mod (hi - lo + 1)).

End Py.

(** ** Core maths for level curves *)

Inductive curve_kind := Linear | Quadratic | Exponential.

(** The dispatch of [xp_required_for_level] on the lower-cased name:
    anything that is neither "linear" nor "exponential" is quadratic. *)
Definition curve_of (curve : string) : curve_kind :=
  let c := Py.lower (if String.eqb curve "" then "quadratic" else curve) in
  if String.eqb c "linear" then Linear
  else if String.eqb c "exponential" then Exponential
  else Quadratic.

(** [int(round(max(0, xp)))]: on the integer curves [round] is the
    identity; on the exponential one [max] hands back the integer 0 for
    a negative [xp]. *)
Definition xp_required_for_level (curve : string) (base_xp a b level : Z) : Z :=
  let level := Z.max 0 level in
  if level =? 0 then 0
  else
    match curve_of curve with
    | Linear => Z.max 0 ((base_xp + a) * level)
    | Exponential =>
        let xp := (inject_Z base_xp * (Qpower (115 # 100) level - 1))%Q in
        if Qle_bool 0 xp then Py.round xp else 0
    | Quadratic => Z.max 0 (base_xp * level ^ 2 + a * level + b)
    end.

(** First loop of [level_from_total_xp]: double [hi] while the threshold
    at [hi] is within [total_xp], leaving as soon as [hi] exceeds 10000. *)
Fixpoint ramp (fuel : nat) (req : Z -> Z) (total_xp hi : Z) : Z :=
  match fuel with
  | O => hi
  | S fuel' =>
      if req hi <=? total_xp then
        let hi := hi * 2 in
        if hi >? 10000 then hi else ramp fuel' req total_xp hi
      else hi
  end.

(** Second loop: binary search for the greatest level within [lo..hi]
    whose threshold is within [total_xp]. *)
Fixpoint bsearch (fuel : nat) (req : Z -> Z) (total_xp lo hi : Z) : Z :=
  match fuel with
  | O => lo
  | S fuel' =>
      if lo <? hi then
        let mid := (lo + hi + 1) / 2 in
        if req mid <=? total_xp then bsearch fuel' req total_xp mid hi
        else bsearch fuel' req total_xp lo (mid - 1)
      else lo
  end.

(** [hi] starts at 1 and doubles, so the first loop runs at most 14
    times; the second one shrinks [hi - lo] at every turn. *)
Definition ramp_fuel : nat := 14.

Definition level_from_total_xp (curve : string) (base_xp a b total_xp : Z) : Z :=
  let total_xp := Z.max 0 total_xp in
  let req := xp_required_for_level curve base_xp a b in
  let hi := ramp ramp_fuel req total_xp 1 in
  bsearch (Z.to_nat hi) req total_xp 0 hi.

Definition xp_between_levels (curve : string) (base_xp a b level : Z) : Z :=
  let needed := xp_required_for_level curve base_xp a b (level + 1)
                - xp_required_for_level curve base_xp a b level in
  Z.max 1 needed.

(** ** Database layer

    One finite map per table, keyed by the table's primary key. *)

Record Settings := mkSettings {
  xp_min : Z;
  xp_max : Z;
  cooldown_seconds : Z;
  multiplier : Q;
  min_chars : Z;
  attachments_bonus : Z;
  mentions_bonus : Z;
  threads_multiplier : Q;
  ignore_bots : Z;
  curve_type : string;
  base_xp : Z;
  curve_a : Z;
  curve_b : Z;
  announce_level_up : Z;
  announce_channel_id : option Z
}.

Definition DEFAULT_SETTINGS : Settings :=
  {| xp_min := 10; xp_max := 20; cooldown_seconds := 60; multiplier := 1;
     min_chars := 5; attachments_bonus := 5; mentions_bonus := 2;
     threads_multiplier := 1; ignore_bots := 1; curve_type := "quadratic";
     base_xp := 100; curve_a := 50; curve_b := 0; announce_level_up := 1;
     announce_channel_id := None |}.

(** A row of [user_xp] without its key columns. *)
Record UserRow := mkUserRow {
  xp : Z;
  level : Z;
  last_message_ts : Z
}.

Record Db := mkDb {
  guild_settings : gmap Z Settings;          (* guild_id *)
  ignored_channels : gset (Z * Z);           (* guild_id, channel_id *)
  blacklisted_roles : gset (Z * Z);          (* guild_id, role_id *)
  user_xp : gmap (Z * Z) UserRow;            (* guild_id, user_id *)
  role_rewards : gmap (Z * Z) Z              (* guild_id, level -> role_id *)
}.

Definition with_guild_settings (f : gmap Z Settings -> gmap Z Settings) (d : Db) : Db :=
  {| guild_settings := f (guild_settings d);
     ignored_channels := ignored_channels d;
     blacklisted_roles := blacklisted_roles d;
     user_xp := user_xp d;
     role_rewards := role_rewards d |}.

Definition with_user_xp (f : gmap (Z * Z) UserRow -> gmap (Z * Z) UserRow) (d : Db) : Db :=
  {| guild_settings := guild_settings d;
     ignored_channels := ignored_channels d;
     blacklisted_roles := blacklisted_roles d;
     user_xp := f (user_xp d);
     role_rewards := role_rewards d |}.

(** [get_settings]: the stored row, after inserting the defaults when the
    guild has none. *)
Definition get_settings (guild_id : Z) (d : Db) : Settings * Db :=
  match guild_settings d !! guild_id with
  | Some row => (row, d)
  | None => (DEFAULT_SETTINGS, with_guild_settings <[guild_id := DEFAULT_SETTINGS]> d)
  end.

(** [UPDATE user_xp SET xp = ?, level = ? WHERE ...]: touches the row if
    it exists and nothing otherwise. *)
Definition update_xp_level (guild_id user_id new_total new_level : Z) (d : Db) : Db :=
  with_user_xp
    (alter (fun r => {| xp := new_total; level := new_level;
                        last_message_ts := last_message_ts r |})
           (guild_id, user_id)) d.

Definition update_level (guild_id user_id new_level : Z) (d : Db) : Db :=
  with_user_xp
    (alter (fun r => {| xp := xp r; level := new_level;
                        last_message_ts := last_message_ts r |})
           (guild_id, user_id)) d.

Definition insert_user_row (guild_id user_id : Z) (d : Db) : Db :=
  with_user_xp <[(guild_id, user_id) := {| xp := 0; level := 0; last_message_ts := 0 |}]> d.

Definition set_last_message_ts (guild_id user_id ts : Z) (d : Db) : Db :=
  with_user_xp
    (alter (fun r => {| xp := xp r; level := level r; last_message_ts := ts |})
           (guild_id, user_id)) d.

Definition get_last_message_ts (guild_id user_id : Z) (d : Db) : Z :=
  match user_xp d !! (guild_id, user_id) with
  | Some row => last_message_ts row
  | None => 0
  end.

Definition is_channel_ignored (guild_id channel_id : Z) (d : Db) : bool :=
  bool_decide ((guild_id, channel_id) ∈ ignored_channels d).

Definition is_role_blacklisted (guild_id role_id : Z) (d : Db) : bool :=
  bool_decide ((guild_id, role_id) ∈ blacklisted_roles d).

(** Rows of one guild, as [(key, value)] pairs without the guild column. *)
Definition rows_of_guild {V} (guild_id : Z) (m : gmap (Z * Z) V) : list (Z * V) :=
  omap (fun kv => if decide (kv.1.1 = guild_id) then Some (kv.1.2, kv.2) else None)
       (map_to_list m).

Definition level_asc (x y : Z * Z) : Prop := x.1 <= y.1.

#[global] Instance level_asc_dec x y : Decision (level_asc x y) := Z_le_dec _ _.

(** [SELECT level, role_id FROM role_rewards WHERE guild_id = ? AND level
    BETWEEN ? AND ? ORDER BY level ASC]. *)
Definition select_role_rewards (guild_id lo hi : Z) (d : Db) : list (Z * Z) :=
  merge_sort level_asc
    (filter (fun lr => lo <= lr.1 <= hi) (rows_of_guild guild_id (role_rewards d))).

(** [SELECT user_id, xp, level FROM user_xp WHERE guild_id = ?]. *)
Definition select_user_rows (guild_id : Z) (d : Db) : list (Z * Z * Z) :=
  (fun ur => (ur.1, xp ur.2, level ur.2)) <$> rows_of_guild guild_id (user_xp d).

(** [ORDER BY xp DESC, user_id ASC] on [(user_id, xp, level)] rows. *)
Definition leaderboard_order (x y : Z * Z * Z) : Prop :=
  y.1.2 < x.1.2 \/ (x.1.2 = y.1.2 /\ x.1.1 <= y.1.1).

#[global] Instance leaderboard_order_dec x y : Decision (leaderboard_order x y).
Proof. unfold leaderboard_order. apply _. Defined.

(** [LIMIT ? OFFSET ?]: a negative limit means no limit, a negative
    offset means none. *)
Definition sql_limit {A} (limit offset : Z) (l : list A) : list A :=
  let l := drop (Z.to_nat offset) l in
  if limit <? 0 then l else take (Z.to_nat limit) l.

Definition top_users (guild_id limit offset : Z) (d : Db) : list (Z * Z * Z) :=
  sql_limit limit offset (merge_sort leaderboard_order (select_user_rows guild_id d)).

(** [SELECT COUNT( * ) ... WHERE guild_id = ? AND xp > (SELECT xp ...)]: a
    comparison with the NULL of an absent subject selects no row. *)
Definition count_better (guild_id user_id : Z) (d : Db) : nat :=
  match user_xp d !! (guild_id, user_id) with
  | Some mine => length (filter (fun r => xp mine < r.1.2) (select_user_rows guild_id d))
  | None => 0%nat
  end.

(** [user_rank]: the count plus one ([COUNT] always yields a row, so the
    [return 0] of the source is never reached). *)
Definition user_rank (guild_id user_id : Z) (d : Db) : Z :=
  Z.of_nat (count_better guild_id user_id d) + 1.

(** ** The Discord side *)

(** What [member.add_roles] can answer. *)
Inductive api_result := ApiOk | ApiForbidden | ApiHTTPException.

Record Guild := mkGuild {
  g_id : Z;
  g_roles : gset Z;                      (* roles [get_role] resolves *)
  g_text_channels : gset Z;              (* text channels and threads [get_channel] resolves *)
  g_add_roles : Z -> Z -> api_result     (* member, role *)
}.

Record Message := mkMessage {
  msg_guild : option Guild;
  author_id : Z;
  author_bot : bool;
  channel_id : Z;
  channel_is_thread : bool;
  content : string;
  attachments : nat;
  mentions : nat
}.

(** How one reward row of the scan ended. *)
Inductive grant_outcome :=
  RoleMissing | AlreadyHeld | Granted | GrantForbidden | GrantHTTPError.

(** What the cog does to the outside, in order (a record kept for the
    proofs; the code keeps none). *)
Inductive Event :=
| EvGrant (guild_id user_id level_at role_id : Z) (o : grant_outcome)
| EvAnnounce (guild_id channel user_id new_level progress need_to_next : Z)
             (rewards : list (Z * Z)).

(** The database, the cached roles of every [discord.Member] (an author
    the cache does not know is a plain [discord.User]) and the record of
    effects. *)
Record World := mkWorld {
  db : Db;
  members : gmap (Z * Z) (gset Z);        (* guild_id, user_id -> role ids *)
  trace : list Event
}.

Definition with_db (f : Db -> Db) (w : World) : World :=
  {| db := f (db w); members := members w; trace := trace w |}.

Definition emit (e : Event) (w : World) : World :=
  {| db := db w; members := members w; trace := trace w ++ [e] |}.

(** A successful [add_roles]: the member's cached roles gain the role
    (the gateway's update of the cache is taken to be immediate). *)
Definition hold_role (guild_id user_id role_id : Z) (w : World) : World :=
  {| db := db w;
     members := alter (fun held => held ∪ {[role_id]}) (guild_id, user_id) (members w);
     trace := trace w |}.

Definition get_settings_w (guild_id : Z) (w : World) : Settings * World :=
  let '(s, d) := get_settings guild_id (db w) in
  (s, {| db := d; members := members w; trace := trace w |}).

(** The reward loop of [add_xp_and_check_level_up].  [None] is the
    [AttributeError] of [member.roles] on a [discord.User], which no
    handler of the loop catches. *)
Fixpoint award_roles (guild : Guild) (member : Z) (rows awarded : list (Z * Z))
    (w : World) : option (list (Z * Z)) * World :=
  match rows with
  | [] => (Some awarded, w)
  | (level_at, role_id) :: rest =>
      let note o := emit (EvGrant (g_id guild) member level_at role_id o) in
      if negb (bool_decide (role_id ∈ g_roles guild)) then
        award_roles guild member rest awarded (note RoleMissing w)
      else
        match members w !! (g_id guild, member) with
        | None => (None, w)
        | Some held =>
            if bool_decide (role_id ∈ held) then
              award_roles guild member rest awarded (note AlreadyHeld w)
            else
              match g_add_roles guild member role_id with
              | ApiOk =>
                  award_roles guild member rest (awarded ++ [(level_at, role_id)])
                    (note Granted (hold_role (g_id guild) member role_id w))
              | ApiForbidden =>
                  award_roles guild member rest awarded (note GrantForbidden w)
              | ApiHTTPException =>
                  award_roles guild member rest awarded (note GrantHTTPError w)
              end
        end
  end.

(** The locked read-modify-write at the head of
    [add_xp_and_check_level_up]: returns [(current_level, new_total,
    new_level)]. *)
Definition apply_xp (guild_id user_id gained_xp : Z) (s : Settings) (d : Db)
    : (Z * Z * Z) * Db :=
  let '(current_xp, current_level, d) :=
    match user_xp d !! (guild_id, user_id) with
    | None => (0, 0, insert_user_row guild_id user_id d)
    | Some row => (xp row, level row, d)
    end in
  let new_total := Z.max 0 (current_xp + gained_xp) in
  let new_level :=
    level_from_total_xp (curve_type s) (base_xp s) (curve_a s) (curve_b s) new_total in
  ((current_level, new_total, new_level),
   update_xp_level guild_id user_id new_total new_level d).

Definition add_xp_and_check_level_up (guild : Guild) (member gained_xp : Z)
    (w : World) : option (Z * Z * list (Z * Z)) * World :=
  let '(settings, w) := get_settings_w (g_id guild) w in
  let '((current_level, new_total, new_level), d) :=
    apply_xp (g_id guild) member gained_xp settings (db w) in
  let w := with_db (fun _ => d) w in
  if current_level <? new_level then
    let rows := select_role_rewards (g_id guild) (current_level + 1) new_level (db w) in
    match award_roles guild member rows [] w with
    | (Some awarded, w) => (Some (new_total, new_level, awarded), w)
    | (None, w) => (None, w)
    end
  else (Some (new_total, new_level, []), w).

(** ** The message listener *)

(** Where [on_message] left (a label for the proofs; the coroutine itself
    returns nothing). *)
Inductive Outcome :=
| NoGuild | IgnoredBot | IgnoredChannel | Blacklisted | TooShort | OnCooldown
| Raised        (* an exception reached the outer handler *)
| NoGain
| Applied (new_total new_level : Z) (announced : bool).

Definition compute_gain (settings : Settings) (base_gain : Z) (message : Message) : Z :=
  let attach_bonus := attachments_bonus settings * Z.of_nat (attachments message) in
  let mentions_bonus := mentions_bonus settings * Z.of_nat (mentions message) in
  let gain := base_gain + attach_bonus + mentions_bonus in
  let gain :=
    if channel_is_thread message
    then Py.round (inject_Z gain * threads_multiplier settings)
    else gain in
  let gain := Py.round (inject_Z gain * multiplier settings) in
  Z.max 0 gain.

(** The channel the announcement goes to. *)
Definition announce_target (guild : Guild) (settings : Settings) (message : Message) : Z :=
  match announce_channel_id settings with
  | Some ch =>
      if negb (ch =? 0) && bool_decide (ch ∈ g_text_channels guild) then ch
      else channel_id message
  | None => channel_id message
  end.

Definition announce (guild : Guild) (settings : Settings) (message : Message)
    (new_total new_level : Z) (awarded : list (Z * Z)) (w : World) : World :=
  let need_to_next :=
    xp_between_levels (curve_type settings) (base_xp settings) (curve_a settings)
      (curve_b settings) new_level in
  let prev_req :=
    xp_required_for_level (curve_type settings) (base_xp settings) (curve_a settings)
      (curve_b settings) new_level in
  let progress := new_total - prev_req in
  let shown := filter (fun lr => lr.2 ∈ g_roles guild) awarded in
  emit (EvAnnounce (g_id guild) (announce_target guild settings message)
          (author_id message) new_level progress need_to_next shown) w.

Definition has_blacklisted_role (guild_id user_id : Z) (w : World) : bool :=
  match members w !! (guild_id, user_id) with
  | Some held => bool_decide (Exists (fun r => (guild_id, r) ∈ blacklisted_roles (db w))
                                     (elements held))
  | None => false
  end.

Definition on_cooldown (now_ts last_ts cooldown : Z) : bool :=
  now_ts - last_ts <? cooldown.

(** [on_message], with the clock reading [now_ts] and the entropy [rnd]
    of [random.randint] as inputs. *)
Definition on_message (now_ts rnd : Z) (message : Message) (w : World)
    : Outcome * World :=
  match msg_guild message with
  | None => (NoGuild, w)
  | Some guild =>
      let gid := g_id guild in
      let '(bot_ignored, w) :=
        if author_bot message then
          let '(settings, w) := get_settings_w gid w in
          (ignore_bots settings =? 1, w)
        else (false, w) in
      if bot_ignored then (IgnoredBot, w) else
      let '(settings, w) := get_settings_w gid w in
      if is_channel_ignored gid (channel_id message) (db w) then (IgnoredChannel, w) else
      if has_blacklisted_role gid (author_id message) w then (Blacklisted, w) else
      let content_len := Py.len (Py.strip (content message)) in
      if content_len <? min_chars settings then (TooShort, w) else
      let last_ts := get_last_message_ts gid (author_id message) (db w) in
      let cooldown := cooldown_seconds settings in
      if on_cooldown now_ts last_ts cooldown then (OnCooldown, w) else
      match Py.randint (xp_min settings) (xp_max settings) rnd with
      | None => (Raised, w)
      | Some base_gain =>
          let gain := compute_gain settings base_gain message in
          let w := with_db (set_last_message_ts gid (author_id message) now_ts) w in
          if gain <=? 0 then (NoGain, w) else
          match add_xp_and_check_level_up guild (author_id message) gain w with
          | (None, w) => (Raised, w)
          | (Some (new_total, new_level, awarded), w) =>
              if (negb (bool_decide (awarded = [])) || (0 <? new_level))
                 && (announce_level_up settings =? 1)
              then (Applied new_total new_level true,
                    announce guild settings message new_total new_level awarded w)
              else (Applied new_total new_level false, w)
          end
      end
  end.

(** ** Recalculation after a curve change *)

(** The first loop of [cfg_recalc], over the rows of cached members. *)
Fixpoint recalc_members (guild : Guild) (rows : list (Z * Z * Z))
    (changed awarded_roles_total : Z) (w : World) : option (Z * Z) * World :=
  match rows with
  | [] => (Some (changed, awarded_roles_total), w)
  | (uid, _, old_level) :: rest =>
      match members w !! (g_id guild, uid) with
      | None => recalc_members guild rest changed awarded_roles_total w
      | Some _ =>
          match add_xp_and_check_level_up guild uid 0 w with
          | (None, w) => (None, w)
          | (Some (_, new_level, awarded), w) =>
              recalc_members guild rest
                (if new_level =? old_level then changed else changed + 1)
                (awarded_roles_total + Z.of_nat (length awarded)) w
          end
      end
  end.

(** The second loop, over the rows of everybody else. *)
Fixpoint recalc_others (guild_id : Z) (s : Settings) (rows : list (Z * Z * Z))
    (changed : Z) (d : Db) : Z * Db :=
  match rows with
  | [] => (changed, d)
  | (uid, total, old_level) :: rest =>
      let new_level :=
        level_from_total_xp (curve_type s) (base_xp s) (curve_a s) (curve_b s) total in
      if new_level =? old_level then recalc_others guild_id s rest changed d
      else recalc_others guild_id s rest (changed + 1) (update_level guild_id uid new_level d)
  end.

(** [cfg_recalc]: returns [(changed, awarded_roles_total)], or [None] when
    an exception left the command. *)
Definition cfg_recalc (guild : Guild) (w : World) : option (Z * Z) * World :=
  let gid := g_id guild in
  let '(s, w) := get_settings_w gid w in
  let rows := select_user_rows gid (db w) in
  let is_member (r : Z * Z * Z) := bool_decide (is_Some (members w !! (gid, r.1.1))) in
  let member_rows := filter (fun r => is_member r = true) rows in
  let other_rows := filter (fun r => is_member r = false) rows in
  match recalc_members guild member_rows 0 0 w with
  | (None, w) => (None, w)
  | (Some (changed, awarded_roles_total), w) =>
      let '(changed, d) := recalc_others gid s other_rows changed (db w) in
      (Some (changed, awarded_roles_total), with_db (fun _ => d) w)
  end.

(** ** Predicates used to state the properties *)

(** What [cfg_setcurve] lets through: [base_xp] is a
    [Range[int, 1, 1000000]], [curve_a] and [curve_b] are any integers. *)
Definition setcurve_accepts (base_xp a b : Z) : Prop := 1 <= base_xp <= 1000000.

(** [req 0 < req 1 < ... < req n], checked level by level. *)
Definition strictly_increasing_upto (req : Z -> Z) (n : nat) : bool :=
  forallb (fun i => req (Z.of_nat i) <? req (Z.of_nat i + 1)) (seq 0 n).

(** The filter chain at the head of [on_message], as one test. *)
Definition eligible (message : Message) (w : World) : bool :=
  match msg_guild message with
  | None => false
  | Some guild =>
      let gid := g_id guild in
      let s := (get_settings gid (db w)).1 in
      negb (author_bot message && (ignore_bots s =? 1))
      && negb (is_channel_ignored gid (channel_id message) (db w))
      && negb (has_blacklisted_role gid (author_id message) w)
      && negb (Py.len (Py.strip (content message)) <? min_chars s)
  end.

Definition filtered_out (o : Outcome) : Prop :=
  o = NoGuild \/ o = IgnoredBot \/ o = IgnoredChannel \/ o = Blacklisted \/ o = TooShort.

Definition same_progress (w w' : World) : Prop :=
  user_xp (db w') = user_xp (db w) /\ members w' = members w /\ trace w' = trace w.

Definition stored_xp (guild_id user_id : Z) (d : Db) : Z :=
  match user_xp d !! (guild_id, user_id) with Some row => xp row | None => 0 end.

Definition stored_level (guild_id user_id : Z) (d : Db) : Z :=
  match user_xp d !! (guild_id, user_id) with Some row => level row | None => 0 end.

Definition level_of (s : Settings) (total_xp : Z) : Z :=
  level_from_total_xp (curve_type s) (base_xp s) (curve_a s) (curve_b s) total_xp.

(** The [(level, role)] pairs the scan went through, in order. *)
Definition grant_keys (es : list Event) : list (Z * Z) :=
  omap (fun e => match e with
                 | EvGrant _ _ level_at role_id _ => Some (level_at, role_id)
                 | _ => None
                 end) es.

(** Those of them that ended in a grant. *)
Definition granted_keys (es : list Event) : list (Z * Z) :=
  omap (fun e => match e with
                 | EvGrant _ _ level_at role_id Granted => Some (level_at, role_id)
                 | _ => None
                 end) es.

Definition grant_for (guild_id user_id : Z) (e : Event) : Prop :=
  match e with
  | EvGrant g u _ _ _ => g = guild_id /\ u = user_id
  | _ => False
  end.

(** No cached member loses a role from [w] to [w']. *)
Definition roles_kept (w w' : World) : Prop :=
  forall k, match members w !! k, members w' !! k with
            | Some held, Some held' => held ⊆ held'
            | None, None => True
            | _, _ => False
            end.

Definition level_lt (x y : Z * Z) : Prop := x.1 < y.1.

(** The row [add_xp_and_check_level_up] with a gain of 0 leaves for a
    subject. *)
Definition recomputed_row (s : Settings) (guild_id user_id : Z) (d : Db) : UserRow :=
  {| xp := Z.max 0 (stored_xp guild_id user_id d + 0);
     level := level_of s (Z.max 0 (stored_xp guild_id user_id d + 0));
     last_message_ts := get_last_message_ts guild_id user_id d |}.

(** A reward-scan event of a recalculation started in [w]: it concerns a
    cached member, at a level above the stored one and up to the
    recomputed one. *)
Definition recalc_scan_event (guild_id : Z) (s : Settings) (w : World) (e : Event) : Prop :=
  exists uid level_at role_id o,
    e = EvGrant guild_id uid level_at role_id o /\
    is_Some (members w !! (guild_id, uid)) /\
    stored_level guild_id uid (db w) < level_at
      <= level_of s (stored_xp guild_id uid (db w)).

(** A stored row with its level brought in line with its XP. *)
Definition relevelled (s : Settings) (row : UserRow) : UserRow :=
  {| xp := xp row; level := level_of s (xp row);
     last_message_ts := last_message_ts row |}.

(** Every stored XP of the guild is non-negative (the data model's
    invariant, which every write of the cog keeps). *)
Definition xp_nonneg (guild_id : Z) (d : Db) : bool :=
  forallb (fun r => 0 <=? r.1.2) (select_user_rows guild_id d).

(** ** Worlds used in the scenarios *)

(** Fixtures *)
Definition demo_guild : Guild :=
  {| g_id := 1; g_roles := {[40; 50; 60]}; g_text_channels := {[7]};
     g_add_roles := fun _ role_id => if role_id =? 50 then ApiForbidden else ApiOk |}.

Definition demo_message (author : Z) : Message :=
  {| msg_guild := Some demo_guild; author_id := author; author_bot := false;
     channel_id := 7; channel_is_thread := false; content := "hello world";
     attachments := 0; mentions := 0 |}.

Definition empty_db : Db :=
  {| guild_settings := ∅; ignored_channels := ∅; blacklisted_roles := ∅;
     user_xp := ∅; role_rewards := ∅ |}.

(** A fresh guild: default settings, nobody has written yet; subjects 5
    and 9 are cached members without roles. *)
Definition fresh_world : World :=
  {| db := empty_db; members := {[ (1, 5) := ∅; (1, 9) := ∅ ]}; trace := [] |}.

(** The same guild with subject 5 already at level 1 (150 XP). *)
Definition level1_world : World :=
  with_db (with_user_xp <[(1, 5) := {| xp := 150; level := 1; last_message_ts := 0 |}]>)
          fresh_world.

(** A fresh guild whose global multiplier was set to 0. *)
Definition muted_world : World :=
  with_db (with_guild_settings
             <[1 := {| xp_min := 10; xp_max := 20; cooldown_seconds := 60;
                       multiplier := 0; min_chars := 5; attachments_bonus := 5;
                       mentions_bonus := 2; threads_multiplier := 1; ignore_bots := 1;
                       curve_type := "quadratic"; base_xp := 100; curve_a := 50;
                       curve_b := 0; announce_level_up := 1;
                       announce_channel_id := None |}]>)
          fresh_world.

(** Subject 5 at level 3 (1050 XP), rewards at levels 4, 5 and 6; the
    guild refuses role 50. *)
Definition reward_world : World :=
  with_db (fun d =>
             {| guild_settings := guild_settings d;
                ignored_channels := ignored_channels d;
                blacklisted_roles := blacklisted_roles d;
                user_xp := {[ (1, 5) := {| xp := 1050; level := 3; last_message_ts := 0 |} ]};
                role_rewards := {[ (1, 4) := 40; (1, 5) := 50; (1, 6) := 60 ]} |})
          fresh_world.

(** Subjects 1 and 2 at 300 XP, subject 3 at 100 XP. *)
Definition board_db : Db :=
  with_user_xp (fun _ => {[ (1, 1) := {| xp := 300; level := 1; last_message_ts := 0 |};
                            (1, 2) := {| xp := 300; level := 1; last_message_ts := 0 |};
                            (1, 3) := {| xp := 100; level := 0; last_message_ts := 0 |} ]})
               empty_db.

(** Subject 5 (a member holding role 40) has 1050 XP and a stale level 6;
    subject 6 (a member) has 3900 XP and a stale level 3; subject 7 (no
    longer a member) has 150 XP and level 0. *)
Definition recalc_world : World :=
  {| db := {| guild_settings := ∅; ignored_channels := ∅; blacklisted_roles := ∅;
              user_xp := {[ (1, 5) := {| xp := 1050; level := 6; last_message_ts := 11 |};
                            (1, 6) := {| xp := 3900; level := 3; last_message_ts := 12 |};
                            (1, 7) := {| xp := 150; level := 0; last_message_ts := 13 |} ]};
              role_rewards := {[ (1, 4) := 40; (1, 5) := 50; (1, 6) := 60 ]} |};
     members := {[ (1, 5) := {[ 40 ]}; (1, 6) := ∅ ]};
     trace := [] |}.

(** ** Where the code leaves the idealisations

    The exponential branch of [xp_required_for_level] is evaluated by the
    code in binary64 and fails there with [OverflowError]:
    [math.pow(1.15, level)] from level 5079 on, the conversion of a
    [base_xp] beyond the float range, and [round] on the infinity the
    product overflows to.  [xp_required_for_level] above is total; this
    test says where the code does not return.  The last bound is taken on
    the exact product, within a rounding error of the code's. *)
Definition FLOAT_LIMIT : Z := 2 ^ 1024.

Definition xp_required_raises (curve : string) (base_xp level : Z) : bool :=
  match curve_of curve with
  | Exponential =>
      (0 <? level)
      && ((5079 <=? level) || (FLOAT_LIMIT <=? Z.abs base_xp)
          || Qle_bool (inject_Z FLOAT_LIMIT)
               (inject_Z base_xp * (Qpower (115 # 100) level - 1)))
  | _ => false
  end.

(** The two loops of [level_from_total_xp] over any threshold function. *)
Definition level_search (req : Z -> Z) (total_xp : Z) : Z :=
  let hi := ramp ramp_fuel req total_xp 1 in
  bsearch (Z.to_nat hi) req total_xp 0 hi.

(** SQLite stores an [INTEGER] in 64 bits; binding a Python integer
    outside them raises [OverflowError]. *)
Definition sqlite_integer (z : Z) : bool := (- 2 ^ 63 <=? z) && (z <=? 2 ^ 63 - 1).

(** Where the write of [add_xp_and_check_level_up] goes through in the
    code: the new total fits an [INTEGER] column and, on the exponential
    curve, [base_xp] is in the range of [cfg_setcurve], which keeps the
    level search of a 64-bit total below the float limit. *)
Definition xp_write_in_range (s : Settings) (new_total : Z) : Prop :=
  sqlite_integer new_total = true /\
  (curve_of (curve_type s) = Exponential -> 1 <= base_xp s <= 1000000).

(** [n / d] on two integers raises [OverflowError] when the quotient is
    beyond the float range (the bound is taken on the exact quotient). *)
Definition true_division_raises (n d : Z) : bool := FLOAT_LIMIT * Z.abs d <=? Z.abs n.

(** ** Settings and table maintenance *)

(** One keyword argument of [update_settings]: a column and its value. *)
Inductive SettingField :=
| Set_xp_min (v : Z)
| Set_xp_max (v : Z)
| Set_cooldown_seconds (v : Z)
| Set_multiplier (v : Q)
| Set_min_chars (v : Z)
| Set_attachments_bonus (v : Z)
| Set_mentions_bonus (v : Z)
| Set_threads_multiplier (v : Q)
| Set_ignore_bots (v : Z)
| Set_curve_type (v : string)
| Set_base_xp (v : Z)
| Set_curve_a (v : Z)
| Set_curve_b (v : Z)
| Set_announce_level_up (v : Z)
| Set_announce_channel_id (v : option Z).

Definition set_field (f : SettingField) (s : Settings) : Settings :=
  let '(mkSettings mn mx cd mu mc ab mb tm ib ct bx ca cb al ac) := s in
  match f with
  | Set_xp_min v => mkSettings v mx cd mu mc ab mb tm ib ct bx ca cb al ac
  | Set_xp_max v => mkSettings mn v cd mu mc ab mb tm ib ct bx ca cb al ac
  | Set_cooldown_seconds v => mkSettings mn mx v mu mc ab mb tm ib ct bx ca cb al ac
  | Set_multiplier v => mkSettings mn mx cd v mc ab mb tm ib ct bx ca cb al ac
  | Set_min_chars v => mkSettings mn mx cd mu v ab mb tm ib ct bx ca cb al ac
  | Set_attachments_bonus v => mkSettings mn mx cd mu mc v mb tm ib ct bx ca cb al ac
  | Set_mentions_bonus v => mkSettings mn mx cd mu mc ab v tm ib ct bx ca cb al ac
  | Set_threads_multiplier v => mkSettings mn mx cd mu mc ab mb v ib ct bx ca cb al ac
  | Set_ignore_bots v => mkSettings mn mx cd mu mc ab mb tm v ct bx ca cb al ac
  | Set_curve_type v => mkSettings mn mx cd mu mc ab mb tm ib v bx ca cb al ac
  | Set_base_xp v => mkSettings mn mx cd mu mc ab mb tm ib ct v ca cb al ac
  | Set_curve_a v => mkSettings mn mx cd mu mc ab mb tm ib ct bx v cb al ac
  | Set_curve_b v => mkSettings mn mx cd mu mc ab mb tm ib ct bx ca v al ac
  | Set_announce_level_up v => mkSettings mn mx cd mu mc ab mb tm ib ct bx ca cb v ac
  | Set_announce_channel_id v => mkSettings mn mx cd mu mc ab mb tm ib ct bx ca cb al v
  end.

(** [update_settings]: nothing without fields; otherwise an [UPDATE] of
    the guild's row, which touches no row when the guild has none. *)
Definition update_settings (guild_id : Z) (fields : list SettingField) (d : Db) : Db :=
  match fields with
  | [] => d
  | _ =>
      with_guild_settings
        (alter (fun s => foldl (fun s f => set_field f s) s fields) guild_id) d
  end.

(** [get_user_record]: the stored row, after inserting an empty one when
    the subject has none. *)
Definition get_user_record (guild_id user_id : Z) (d : Db) : UserRow * Db :=
  match user_xp d !! (guild_id, user_id) with
  | Some row => (row, d)
  | None => ({| xp := 0; level := 0; last_message_ts := 0 |},
             insert_user_row guild_id user_id d)
  end.

Definition with_ignored_channels (f : gset (Z * Z) -> gset (Z * Z)) (d : Db) : Db :=
  {| guild_settings := guild_settings d;
     ignored_channels := f (ignored_channels d);
     blacklisted_roles := blacklisted_roles d;
     user_xp := user_xp d;
     role_rewards := role_rewards d |}.

Definition with_blacklisted_roles (f : gset (Z * Z) -> gset (Z * Z)) (d : Db) : Db :=
  {| guild_settings := guild_settings d;
     ignored_channels := ignored_channels d;
     blacklisted_roles := f (blacklisted_roles d);
     user_xp := user_xp d;
     role_rewards := role_rewards d |}.

Definition with_role_rewards (f : gmap (Z * Z) Z -> gmap (Z * Z) Z) (d : Db) : Db :=
  {| guild_settings := guild_settings d;
     ignored_channels := ignored_channels d;
     blacklisted_roles := blacklisted_roles d;
     user_xp := user_xp d;
     role_rewards := f (role_rewards d) |}.

(** [INSERT OR IGNORE] and [DELETE] on the two membership tables. *)
Definition add_ignored_channel (guild_id channel_id : Z) (d : Db) : Db :=
  with_ignored_channels (fun t => {[ (guild_id, channel_id) ]} ∪ t) d.

Definition remove_ignored_channel (guild_id channel_id : Z) (d : Db) : Db :=
  with_ignored_channels (fun t => t ∖ {[ (guild_id, channel_id) ]}) d.

(** The second column of the rows of one guild. *)
Definition ids_of_guild (guild_id : Z) (t : gset (Z * Z)) : list Z :=
  omap (fun k => if decide (k.1 = guild_id) then Some k.2 else None) (elements t).

Definition list_ignored_channels (guild_id : Z) (d : Db) : list Z :=
  ids_of_guild guild_id (ignored_channels d).

Definition add_blacklisted_role (guild_id role_id : Z) (d : Db) : Db :=
  with_blacklisted_roles (fun t => {[ (guild_id, role_id) ]} ∪ t) d.

Definition remove_blacklisted_role (guild_id role_id : Z) (d : Db) : Db :=
  with_blacklisted_roles (fun t => t ∖ {[ (guild_id, role_id) ]}) d.

Definition list_blacklisted_roles (guild_id : Z) (d : Db) : list Z :=
  ids_of_guild guild_id (blacklisted_roles d).

(** [INSERT OR REPLACE], [DELETE] and the ordered listing of the rewards. *)
Definition set_role_reward (guild_id level role_id : Z) (d : Db) : Db :=
  with_role_rewards <[(guild_id, level) := role_id]> d.

Definition remove_role_reward (guild_id level : Z) (d : Db) : Db :=
  with_role_rewards (delete (guild_id, level)) d.

Definition list_role_rewards (guild_id : Z) (d : Db) : list (Z * Z) :=
  merge_sort level_asc (rows_of_guild guild_id (role_rewards d)).

(** ** Administration commands

    The bounds that [app_commands.Range] puts on a parameter are checked
    by the library before the command runs; the commands themselves are
    modelled for every argument. *)

(** [_curve_name]: the name trimmed and lower-cased when it is one of the
    three curves, "quadratic" otherwise. *)
Definition _curve_name (value : string) : string :=
  let v := Py.lower (Py.strip (if String.eqb value "" then "quadratic" else value)) in
  if String.eqb v "linear" || String.eqb v "quadratic" || String.eqb v "exponential"
  then v else "quadratic".

(** [cfg_setrange]: refused (and nothing written) when [xp_max < xp_min]. *)
Definition cfg_setrange (guild_id xp_min xp_max : Z) (d : Db) : bool * Db :=
  if xp_max <? xp_min then (false, d)
  else (true, update_settings guild_id [Set_xp_min xp_min; Set_xp_max xp_max] d).

Definition cfg_setcooldown (guild_id seconds : Z) (d : Db) : Db :=
  update_settings guild_id [Set_cooldown_seconds seconds] d.

Definition cfg_setmultiplier (guild_id : Z) (multiplier : Q) (d : Db) : Db :=
  update_settings guild_id [Set_multiplier multiplier] d.

Definition cfg_setminchars (guild_id min_chars : Z) (d : Db) : Db :=
  update_settings guild_id [Set_min_chars min_chars] d.

Definition cfg_setbonuses (guild_id attachments_bonus mentions_bonus : Z) (d : Db) : Db :=
  update_settings guild_id
    [Set_attachments_bonus attachments_bonus; Set_mentions_bonus mentions_bonus] d.

Definition cfg_setthreadsmult (guild_id : Z) (threads_multiplier : Q) (d : Db) : Db :=
  update_settings guild_id [Set_threads_multiplier threads_multiplier] d.

Definition cfg_ignorebots (guild_id : Z) (enabled : bool) (d : Db) : Db :=
  update_settings guild_id [Set_ignore_bots (if enabled then 1 else 0)] d.

Definition cfg_setcurve (guild_id : Z) (curve_type : string) (base_xp curve_a curve_b : Z)
    (d : Db) : Db :=
  update_settings guild_id
    [Set_curve_type (_curve_name curve_type); Set_base_xp base_xp;
     Set_curve_a curve_a; Set_curve_b curve_b] d.

Definition cfg_announce (guild_id : Z) (enabled : bool) (d : Db) : Db :=
  update_settings guild_id [Set_announce_level_up (if enabled then 1 else 0)] d.

Definition cfg_announcechannel (guild_id : Z) (channel : option Z) (d : Db) : Db :=
  update_settings guild_id [Set_announce_channel_id channel] d.

Inductive ignore_action := IgnoreAdd | IgnoreRemove | IgnoreList.

(** [cfg_ignore]: the store after the command and, for the listing, the
    channels it shows. *)
Definition cfg_ignore (guild_id : Z) (action : ignore_action) (channel : option Z)
    (d : Db) : option (list Z) * Db :=
  match action, channel with
  | IgnoreAdd, Some ch => (None, add_ignored_channel guild_id ch d)
  | IgnoreRemove, Some ch => (None, remove_ignored_channel guild_id ch d)
  | IgnoreAdd, None | IgnoreRemove, None => (None, d)
  | IgnoreList, _ => (Some (list_ignored_channels guild_id d), d)
  end.

Definition cfg_addxp (guild : Guild) (member amount : Z) (w : World)
    : option (Z * Z * list (Z * Z)) * World :=
  add_xp_and_check_level_up guild member amount w.

(** [cfg_setlevel]: an upsert of XP and level that keeps the timestamp of
    a row that is there.  [false] is the [OverflowError] that leaves the
    command, after the settings were read, with nothing written for the
    subject: raised in [xp_required_for_level], or by SQLite for an
    integer beyond 64 bits. *)
Definition cfg_setlevel (guild_id member level_value : Z) (d : Db) : bool * Db :=
  let '(s, d) := get_settings guild_id d in
  if xp_required_raises (curve_type s) (base_xp s) level_value then (false, d) else
  let req :=
    xp_required_for_level (curve_type s) (base_xp s) (curve_a s) (curve_b s) level_value in
  if negb (sqlite_integer req && sqlite_integer level_value) then (false, d) else
  (true,
   with_user_xp
     (fun t =>
        <[(guild_id, member) :=
            {| xp := req; level := level_value;
               last_message_ts :=
                 match t !! (guild_id, member) with
                 | Some row => last_message_ts row
                 | None => 0
                 end |}]> t) d).

Definition cfg_resetuser (guild_id member : Z) (d : Db) : Db :=
  with_user_xp
    (alter (fun r => {| xp := 0; level := 0; last_message_ts := last_message_ts r |})
           (guild_id, member)) d.

(** [cfg_wipeguild]: without [confirm] nothing; with it, the five
    [DELETE ... WHERE guild_id = ?]. *)
Definition cfg_wipeguild (guild_id : Z) (confirm : bool) (d : Db) : Db :=
  if negb confirm then d
  else
    {| guild_settings := delete guild_id (guild_settings d);
       ignored_channels := filter (fun k => k.1 <> guild_id) (ignored_channels d);
       blacklisted_roles := filter (fun k => k.1 <> guild_id) (blacklisted_roles d);
       user_xp := filter (fun kv => kv.1.1 <> guild_id) (user_xp d);
       role_rewards := filter (fun kv => kv.1.1 <> guild_id) (role_rewards d) |}.

(** ** Profile and leaderboard displays

    An embed is kept as the values it shows, not as text. *)

Inductive Cell := Filled | Blank.

(** [format_progress_bar]: [filled] full cells, then blank ones up to
    [length]. *)
Definition format_progress_bar (progress goal length : Z) : list Cell :=
  let goal := Z.max goal 1 in
  let progress := Z.max 0 progress in
  let ratio := Qmin 1 (inject_Z progress / inject_Z goal) in
  let filled := Py.round (ratio * inject_Z length) in
  let filled := if (0 <? progress) && (filled =? 0) then 1 else filled in
  let filled := Z.max 0 (Z.min length filled) in
  replicate (Z.to_nat filled) Filled ++ replicate (Z.to_nat (length - filled)) Blank.

Record ProfileEmbed := mkProfileEmbed {
  pe_level : Z;
  pe_rank_label : option Z;        (* [None]: "Unranked" *)
  pe_total_xp : Z;
  pe_next_level_in : option Z;     (* [None]: "Max level reached" *)
  pe_bar : list Cell;
  pe_progress : Z;
  pe_to_next : Z
}.

Definition create_profile_embed (level_val rank total_xp progress to_next : Z)
    : ProfileEmbed :=
  let rank_label := if 0 <? rank then Some rank else None in
  let next := if 0 <? to_next then Some (Z.max 0 (to_next - progress)) else None in
  let progress_goal := if 0 <? to_next then to_next else Z.max progress 1 in
  {| pe_level := level_val; pe_rank_label := rank_label; pe_total_xp := total_xp;
     pe_next_level_in := next;
     pe_bar := format_progress_bar progress progress_goal 18;
     pe_progress := progress; pe_to_next := to_next |}.

(** The [/level profile] command in a guild, for the subject [target].
    [None] is the reply "Failed to fetch profile.", sent when
    [xp_between_levels] or [xp_required_for_level] raised on the stored
    level, or [progress / goal] in the card did; the rows read before
    are created all the same. *)
Definition profile (guild_id target : Z) (d : Db) : option ProfileEmbed * Db :=
  let '(record, d) := get_user_record guild_id target d in
  let '(settings, d) := get_settings guild_id d in
  let total := xp record in
  let level_val := level record in
  let rank := user_rank guild_id target d in
  if xp_required_raises (curve_type settings) (base_xp settings) (level_val + 1)
     || xp_required_raises (curve_type settings) (base_xp settings) level_val
  then (None, d) else
  let to_next :=
    xp_between_levels (curve_type settings) (base_xp settings) (curve_a settings)
      (curve_b settings) level_val in
  let prev_req :=
    xp_required_for_level (curve_type settings) (base_xp settings) (curve_a settings)
      (curve_b settings) level_val in
  let progress := Z.max 0 (total - prev_req) in
  if true_division_raises progress to_next then (None, d) else
  (Some (create_profile_embed level_val rank total progress to_next), d).

Inductive RankLabel := Medal (place : Z) | Numbered (rank : Z).

Record BoardEntry := mkBoardEntry {
  be_label : RankLabel;
  be_user : Z;
  be_level : Z;
  be_xp : Z;
  be_underlined : bool
}.

(** The lines of [build_leaderboard_embed], one per row: place
    [start_index + idx + 1], a medal for the places 1 to 3. *)
Fixpoint board_entries (rows : list (Z * Z * Z)) (start_index idx : Z)
    (viewer_id : option Z) : list BoardEntry :=
  match rows with
  | [] => []
  | (user_id, xp_val, level_val) :: rest =>
      let rank := start_index + idx + 1 in
      let label :=
        if (rank =? 1) || (rank =? 2) || (rank =? 3) then Medal rank else Numbered rank in
      let underlined :=
        match viewer_id with
        | Some v => negb (v =? 0) && (v =? user_id)
        | None => false
        end in
      mkBoardEntry label user_id level_val xp_val underlined
      :: board_entries rest start_index (idx + 1) viewer_id
  end.

Record BoardEmbed := mkBoardEmbed {
  bd_page_shown : Z;
  bd_entries : list BoardEntry;          (* empty: "No data to display yet" *)
  bd_showing : option (Z * Z);           (* "Ranks a - b" *)
  bd_count : option (Z * Z)              (* "n/per_page" *)
}.

Definition build_leaderboard_embed (rows : list (Z * Z * Z))
    (start_index page per_page : Z) (viewer_id : option Z) : BoardEmbed :=
  match rows with
  | [] => mkBoardEmbed (page + 1) [] None None
  | _ =>
      let n := Z.of_nat (length rows) in
      mkBoardEmbed (page + 1) (board_entries rows start_index 0 viewer_id)
        (Some (start_index + 1, start_index + n)) (Some (n, per_page))
  end.

(** The paginated view and its two buttons. *)
Record LeaderboardView := mkLeaderboardView {
  lv_guild : Z;
  lv_page : Z;
  lv_per_page : Z;
  lv_viewer : option Z
}.

Definition new_view (guild_id per_page : Z) (viewer_id : option Z) : LeaderboardView :=
  mkLeaderboardView guild_id 0 per_page viewer_id.

Definition render (v : LeaderboardView) (d : Db) : BoardEmbed :=
  let start := lv_page v * lv_per_page v in
  let rows := top_users (lv_guild v) (lv_per_page v) start d in
  build_leaderboard_embed rows start (lv_page v) (lv_per_page v) (lv_viewer v).

Inductive Button := Previous | Next.

Definition press (b : Button) (v : LeaderboardView) : LeaderboardView :=
  match b with
  | Previous =>
      if 0 <? lv_page v
      then mkLeaderboardView (lv_guild v) (lv_page v - 1) (lv_per_page v) (lv_viewer v)
      else v
  | Next => mkLeaderboardView (lv_guild v) (lv_page v + 1) (lv_per_page v) (lv_viewer v)
  end.

(** ** The curve preview *)

Definition newline : string := String "010"%char EmptyString.

(** The lines of [cfg_simulate] for the levels [0..levels]. *)
Definition simulate_line (s : Settings) (lvl : Z) : string :=
  let req :=
    xp_required_for_level (curve_type s) (base_xp s) (curve_a s) (curve_b s) lvl in
  if lvl =? 0 then "Level " +:+ pretty lvl +:+ ": " +:+ pretty req +:+ " XP (start)"
  else
    let step :=
      xp_between_levels (curve_type s) (base_xp s) (curve_a s) (curve_b s) (lvl - 1) in
    "Level " +:+ pretty lvl +:+ ": " +:+ pretty req +:+ " XP total (+"
      +:+ pretty step +:+ " from " +:+ pretty (lvl - 1) +:+ ")".

Definition simulate_lines (s : Settings) (levels : Z) : list string :=
  simulate_line s <$> (Z.of_nat <$> seq 0 (Z.to_nat (levels + 1))).

(** The loop that packs the lines into messages of at most 1900
    characters. *)
Fixpoint pack_lines (lines chunks chunk : list string) (total_len : Z) : list string :=
  match lines with
  | [] =>
      match chunk with
      | [] => chunks
      | _ => chunks ++ [String.concat newline chunk]
      end
  | line :: rest =>
      if total_len + Py.len line + 1 >? 1900 then
        pack_lines rest (chunks ++ [String.concat newline chunk]) [line] (Py.len line + 1)
      else pack_lines rest chunks (chunk ++ [line]) (total_len + Py.len line + 1)
  end.

Definition cfg_simulate (guild_id levels : Z) (d : Db) : list string * Db :=
  let '(s, d) := get_settings guild_id d in
  (pack_lines (simulate_lines s levels) [] [] 0, d).

(** ** Predicates on the displays *)

#[global] Instance Cell_eq_dec : EqDecision Cell.
Proof. solve_decision. Defined.

(** The number of full cells of a bar. *)
Definition filled_cells (bar : list Cell) : Z :=
  Z.of_nat (length (filter (fun c => c = Filled) bar)).

(** The place a leaderboard line shows, medal or number. *)
Definition label_place (l : RankLabel) : Z :=
  match l with Medal place => place | Numbered rank => rank end.

#[global] Instance Button_eq_dec : EqDecision Button.
Proof. solve_decision. Defined.

(** The same message from an author that is not a bot. *)
Definition as_human (message : Message) : Message :=
  {| msg_guild := msg_guild message; author_id := author_id message;
     author_bot := false; channel_id := channel_id message;
     channel_is_thread := channel_is_thread message; content := content message;
     attachments := attachments message; mentions := mentions message |}.

(** Guild 1 on the exponential curve with base 100; subject 5 is stored
    at level 5078 with 0 XP. *)
Definition steep_db : Db :=
  with_user_xp (fun _ => {[ (1, 5) := {| xp := 0; level := 5078; last_message_ts := 0 |} ]})
    (cfg_setcurve 1 "exponential" 100 0 0 (get_settings 1 empty_db).2).

(** * Properties *)

(** ** The two loops of [level_from_total_xp] leave before their fuel ends *)

Section Loops.
Variable req : Z -> Z.
Variable total : Z.

Lemma ramp_fuel_stable (fuel k : nat) (hi : Z) :
  hi <= 10000 -> 10000 < hi * 2 ^ Z.of_nat fuel ->
  ramp (fuel + k) req total hi = ramp fuel req total hi.
Proof.
  revert hi. induction fuel as [|fuel IH]; intros hi Hle Hgt.
  - simpl in Hgt. lia.
  - cbn [Nat.add ramp]. destruct (req hi <=? total); [|reflexivity].
    destruct (hi * 2 >? 10000) eqn:E; [reflexivity|].
    apply IH; [lia|].
    rewrite Nat2Z.inj_succ, Z.pow_succ_r in Hgt by lia. lia.
Qed.

Lemma bsearch_fuel_stable (fuel k : nat) (lo hi : Z) :
  hi - lo <= Z.of_nat fuel ->
  bsearch (fuel + k) req total lo hi = bsearch fuel req total lo hi.
Proof.
  revert lo hi. induction fuel as [|fuel IH]; intros lo hi Hle.
  - destruct k as [|k]; [reflexivity|]. cbn [Nat.add bsearch].
    destruct (Z.ltb_spec lo hi); [lia|reflexivity].
  - cbn [Nat.add bsearch]. destruct (Z.ltb_spec lo hi); [|reflexivity].
    assert (lo < (lo + hi + 1) / 2 <= hi) by (split; Z.div_mod_to_equations; lia).
    destruct (req ((lo + hi + 1) / 2) <=? total); apply IH; lia.
Qed.

Lemma ramp_lower (fuel : nat) (hi : Z) :
  0 <= hi -> hi <= ramp fuel req total hi.
Proof.
  revert hi. induction fuel as [|fuel IH]; intros hi Hhi; cbn [ramp]; [lia|].
  destruct (req hi <=? total); [|lia].
  destruct (hi * 2 >? 10000) eqn:E; [lia|].
  specialize (IH (hi * 2)). lia.
Qed.

Lemma bsearch_range (fuel : nat) (lo hi : Z) :
  lo <= hi -> lo <= bsearch fuel req total lo hi <= hi.
Proof.
  revert lo hi. induction fuel as [|fuel IH]; intros lo hi Hle; cbn [bsearch]; [lia|].
  destruct (Z.ltb_spec lo hi); [|lia].
  assert (lo < (lo + hi + 1) / 2 <= hi) by (split; Z.div_mod_to_equations; lia).
  destruct (req ((lo + hi + 1) / 2) <=? total).
  - specialize (IH ((lo + hi + 1) / 2) hi). lia.
  - specialize (IH lo ((lo + hi + 1) / 2 - 1)). lia.
Qed.
End Loops.

(** More fuel than the model hands to the loops changes no result: both
    loops have really left. *)
Lemma level_from_total_xp_terminates curve base a b total (k1 k2 : nat) :
  let req := xp_required_for_level curve base a b in
  let hi := ramp (ramp_fuel + k1) req (Z.max 0 total) 1 in
  bsearch (Z.to_nat hi + k2) req (Z.max 0 total) 0 hi
  = level_from_total_xp curve base a b total.
Proof.
  intros req hi. unfold level_from_total_xp. fold req.
  assert (Hhi : hi = ramp ramp_fuel req (Z.max 0 total) 1).
  { apply ramp_fuel_stable; [lia|]. vm_compute. reflexivity. }
  rewrite <- Hhi. apply bsearch_fuel_stable. lia.
Qed.

Lemma level_from_total_xp_nonneg curve base a b total :
  0 <= level_from_total_xp curve base a b total.
Proof.
  unfold level_from_total_xp. apply bsearch_range.
  pose proof (ramp_lower (xp_required_for_level curve base a b) (Z.max 0 total)
                ramp_fuel 1). lia.
Qed.

(** ** [round] and the thresholds *)

Lemma round_mono (x y : Q) : (x <= y)%Q -> Py.round x <= Py.round y.
Proof.
  intros Hxy. unfold Py.round.
  pose proof (Qfloor_resp_le _ _ Hxy) as Hf.
  pose proof (Qfloor_le x) as Hx1. pose proof (Qlt_floor x) as Hx2.
  pose proof (Qfloor_le y) as Hy1. pose proof (Qlt_floor y) as Hy2.
  set (fx := Qfloor x) in *. set (fy := Qfloor y) in *.
  destruct (Z.eq_dec fx fy) as [E|E].
  - rewrite <- E in *.
    destruct (Qcompare_spec (x - inject_Z fx) (1 # 2));
      destruct (Qcompare_spec (y - inject_Z fx) (1 # 2));
      try (destruct (Z.even fx)); try lia; exfalso; lra.
  - assert (fx + 1 <= fy) by lia.
    destruct (Qcompare (x - inject_Z fx) (1 # 2));
      destruct (Qcompare (y - inject_Z fy) (1 # 2));
      try (destruct (Z.even fx)); try (destruct (Z.even fy)); lia.
Qed.

Lemma round_0 : Py.round 0 = 0.
Proof. reflexivity. Qed.

Lemma xp_required_nonneg curve base a b L :
  0 <= xp_required_for_level curve base a b L.
Proof.
  unfold xp_required_for_level.
  destruct (Z.max 0 L =? 0); [lia|].
  destruct (curve_of curve); try lia.
  destruct (Qle_bool 0 _) eqn:E; [|lia].
  apply Qle_bool_iff in E. rewrite <- round_0. now apply round_mono.
Qed.

Lemma xp_required_low curve base a b L :
  L <= 0 -> xp_required_for_level curve base a b L = 0.
Proof.
  intros H. unfold xp_required_for_level.
  replace (Z.max 0 L) with 0 by lia. reflexivity.
Qed.

Lemma exp_factor_ge_1 (L : Z) : 0 <= L -> (1 <= (115 # 100) ^ L)%Q.
Proof. intros H. apply Qpower_1_le; [|exact H]. unfold Qle. simpl. lia. Qed.

Lemma exp_factor_mono (L : Z) : ((115 # 100) ^ L <= (115 # 100) ^ (L + 1))%Q.
Proof. apply Qpower_le_compat_l; [lia|]. unfold Qle. simpl. lia. Qed.

Lemma inject_Z_sign (z : Z) :
  (0 <= z -> (0 <= inject_Z z)%Q) /\ (z < 0 -> (inject_Z z < 0)%Q).
Proof. split; intros H; unfold Qle, Qlt; simpl; lia. Qed.

Lemma xp_required_step curve base a b L :
  0 <= L ->
  (curve_of curve = Quadratic -> 0 <= base /\ 0 <= 3 * base + a) ->
  xp_required_for_level curve base a b L
  <= xp_required_for_level curve base a b (L + 1).
Proof.
  intros HL Hq.
  destruct (Z.eq_dec L 0) as [->|Hne].
  { rewrite (xp_required_low _ _ _ _ 0) by lia. apply xp_required_nonneg. }
  unfold xp_required_for_level.
  replace (Z.max 0 L) with L by lia. replace (Z.max 0 (L + 1)) with (L + 1) by lia.
  destruct (Z.eqb_spec L 0); [lia|]. destruct (Z.eqb_spec (L + 1) 0); [lia|].
  destruct (curve_of curve).
  - nia.
  - destruct (Hq eq_refl). nia.
  - pose proof (exp_factor_ge_1 L HL) as H1.
    pose proof (exp_factor_mono L) as H2.
    destruct (inject_Z_sign base) as [Hp Hn].
    set (p1 := ((115 # 100) ^ L)%Q) in *. set (p2 := ((115 # 100) ^ (L + 1))%Q) in *.
    set (q := inject_Z base) in *.
    destruct (Qle_bool 0 (q * (p1 - 1))) eqn:E1;
      destruct (Qle_bool 0 (q * (p2 - 1))) eqn:E2.
    + apply Qle_bool_iff in E2. apply round_mono.
      destruct (Z_lt_le_dec base 0) as [Hb|Hb].
      * specialize (Hn Hb). nra.
      * specialize (Hp Hb). nra.
    + apply Qle_bool_iff in E1.
      assert (~ (0 <= q * (p2 - 1))%Q) as E2' by (rewrite <- Qle_bool_iff; congruence).
      rewrite <- round_0. apply round_mono.
      destruct (Z_lt_le_dec base 0) as [Hb|Hb].
      * specialize (Hn Hb). nra.
      * specialize (Hp Hb). exfalso. apply E2'. nra.
    + apply Qle_bool_iff in E2. rewrite <- round_0. now apply round_mono.
    + lia.
Qed.

(** ** Where the exponential thresholds are computed without error *)

Lemma exp_factor_mono_le (i j : Z) :
  0 <= i -> i <= j -> ((115 # 100) ^ i <= (115 # 100) ^ j)%Q.
Proof.
  intros Hi Hij. replace j with (i + Z.of_nat (Z.to_nat (j - i))) by lia.
  induction (Z.to_nat (j - i)) as [|n IH]; [rewrite Z.add_0_r; apply Qle_refl|].
  eapply Qle_trans; [exact IH|].
  replace (i + Z.of_nat (S n)) with (i + Z.of_nat n + 1) by lia.
  apply exp_factor_mono.
Qed.

Lemma xp_required_raises_integer curve base l :
  curve_of curve <> Exponential -> xp_required_raises curve base l = false.
Proof. intros Hc. unfold xp_required_raises. now destruct (curve_of curve). Qed.

(** A threshold the code computes at a level, it also computes at the
    level below. *)
Lemma xp_required_raises_step curve base L :
  0 <= L -> xp_required_raises curve base (L + 1) = false ->
  xp_required_raises curve base L = false.
Proof.
  intros HL. unfold xp_required_raises. destruct (curve_of curve); try reflexivity.
  destruct (Z.ltb_spec 0 (L + 1)) as [_|?]; [|lia]. cbn [andb].
  destruct (Z.ltb_spec 0 L) as [HL0|_]; [|reflexivity]. cbn [andb].
  intros Hf. apply orb_false_elim in Hf as [Hf Hq]. apply orb_false_elim in Hf as [H5 Hb].
  rewrite Hb, orb_false_r. apply Z.leb_gt in H5.
  destruct (Z.leb_spec 5079 L); [lia|]. cbn [orb].
  destruct (Qle_bool _ (inject_Z base * ((115 # 100) ^ L - 1))) eqn:E; [|reflexivity].
  apply Qle_bool_iff in E.
  assert (Hn : ~ (inject_Z FLOAT_LIMIT <= inject_Z base * ((115 # 100) ^ (L + 1) - 1))%Q).
  { intros Hc. apply Qle_bool_iff in Hc. congruence. }
  exfalso. apply Hn. eapply Qle_trans; [exact E|].
  pose proof (exp_factor_mono L) as Hm. pose proof (exp_factor_ge_1 L HL) as Hge1.
  assert (Hlim : (0 < inject_Z FLOAT_LIMIT)%Q) by reflexivity.
  destruct (Z_le_gt_dec base 0) as [Hb0|Hb0].
  - exfalso. pose proof (proj1 (inject_Z_sign (- base)) ltac:(lia)) as Hs.
    rewrite inject_Z_opp in Hs. nra.
  - pose proof (proj1 (inject_Z_sign base) ltac:(lia)) as Hs. nra.
Qed.

Lemma xp_required_raises_down curve base l m :
  l <= m -> xp_required_raises curve base m = false ->
  xp_required_raises curve base l = false.
Proof.
  intros Hlm Hm. destruct (Z_le_gt_dec l 0) as [Hl0|Hl0].
  { unfold xp_required_raises. destruct (curve_of curve); try reflexivity.
    destruct (Z.ltb_spec 0 l); [lia | reflexivity]. }
  replace l with (m - Z.of_nat (Z.to_nat (m - l))) by lia.
  assert (Hn : (Z.to_nat (m - l) < Z.to_nat m)%nat) by lia.
  induction (Z.to_nat (m - l)) as [|n IH].
  - now rewrite Z.sub_0_r.
  - apply xp_required_raises_step; [lia|].
    replace (m - Z.of_nat (S n) + 1) with (m - Z.of_nat n) by lia. apply IH. lia.
Qed.

(** ** Inverting a strictly increasing curve *)

Section RoundTrip.
Variable req : Z -> Z.
Hypothesis req_incr : strictly_increasing_upto req 256 = true.

Lemma req_step (i : Z) : 0 <= i < 256 -> req i < req (i + 1).
Proof.
  intros Hi. unfold strictly_increasing_upto in req_incr.
  rewrite forallb_forall in req_incr.
  specialize (req_incr (Z.to_nat i)).
  rewrite Z2Nat.id in req_incr by lia.
  apply Z.ltb_lt, req_incr, in_seq. lia.
Qed.

Lemma req_strict (i j : Z) : 0 <= i -> i < j -> j <= 256 -> req i < req j.
Proof.
  intros Hi Hij Hj.
  replace j with (i + 1 + Z.of_nat (Z.to_nat (j - i - 1))) in * by lia.
  induction (Z.to_nat (j - i - 1)) as [|n IH].
  - rewrite Z.add_0_r. apply req_step. lia.
  - assert (req i < req (i + 1 + Z.of_nat n)) by (apply IH; lia).
    pose proof (req_step (i + 1 + Z.of_nat n)).
    replace (i + 1 + Z.of_nat (S n)) with (i + 1 + Z.of_nat n + 1) by lia. lia.
Qed.

Lemma req_le_inv (i j : Z) :
  0 <= i <= 256 -> 0 <= j <= 256 -> req i <= req j -> i <= j.
Proof.
  intros Hi Hj Hle. destruct (Z_le_gt_dec i j) as [|Hgt]; [assumption|].
  pose proof (req_strict j i). lia.
Qed.

Lemma req_lt_inv (i j : Z) :
  0 <= i <= 256 -> 0 <= j <= 256 -> req i < req j -> i < j.
Proof.
  intros Hi Hj Hlt. destruct (Z_lt_le_dec i j) as [|Hge]; [assumption|].
  destruct (Z.eq_dec i j) as [->|]; [lia|].
  pose proof (req_strict j i). lia.
Qed.

Variable L : Z.
Hypothesis L_range : 0 <= L <= 200.

Lemma ramp_bracket_from (fuel k : nat) :
  (k <= 8)%nat -> (9 <= k + fuel)%nat ->
  L < ramp fuel req (req L) (2 ^ Z.of_nat k) <= 256.
Proof.
  revert k. induction fuel as [|fuel IH]; intros k Hk Hf; [lia|].
  assert (Hpow : 1 <= 2 ^ Z.of_nat k <= 256).
  { split; [apply (Z.pow_le_mono_r 2 0); lia|].
    change 256 with (2 ^ 8). apply Z.pow_le_mono_r; lia. }
  cbn [ramp].
  destruct (Z.leb_spec (req (2 ^ Z.of_nat k)) (req L)) as [Hc|Hc].
  - apply req_le_inv in Hc; [|lia|lia].
    assert (k <> 8)%nat by (intros ->; change (2 ^ Z.of_nat 8) with 256 in Hc; lia).
    replace (2 ^ Z.of_nat k * 2) with (2 ^ Z.of_nat (S k))
      by (rewrite Nat2Z.inj_succ, Z.pow_succ_r; lia).
    assert (2 ^ Z.of_nat (S k) <= 256).
    { change 256 with (2 ^ 8). apply Z.pow_le_mono_r; lia. }
    destruct (Z.gtb_spec (2 ^ Z.of_nat (S k)) 10000); [lia|].
    apply IH; lia.
  - apply req_lt_inv in Hc; lia.
Qed.

Lemma ramp_bracket : L < ramp ramp_fuel req (req L) 1 <= 256.
Proof. apply (ramp_bracket_from ramp_fuel 0); unfold ramp_fuel; lia. Qed.

Lemma bsearch_finds (fuel : nat) (lo hi : Z) :
  0 <= lo -> lo <= L -> L <= hi -> hi <= 256 -> hi - lo <= Z.of_nat fuel ->
  bsearch fuel req (req L) lo hi = L.
Proof.
  revert lo hi. induction fuel as [|fuel IH]; intros lo hi H0 H1 H2 H3 Hf.
  - cbn [bsearch]. lia.
  - cbn [bsearch]. destruct (Z.ltb_spec lo hi); [|lia].
    assert (lo < (lo + hi + 1) / 2 <= hi) by (split; Z.div_mod_to_equations; lia).
    destruct (Z.leb_spec (req ((lo + hi + 1) / 2)) (req L)) as [Hc|Hc].
    + apply req_le_inv in Hc; [|lia|lia]. apply IH; lia.
    + apply req_lt_inv in Hc; [|lia|lia]. apply IH; lia.
Qed.
(** Both loops together, on the XP required at [L]. *)
Lemma search_finds :
  let hi := ramp ramp_fuel req (req L) 1 in
  bsearch (Z.to_nat hi) req (req L) 0 hi = L.
Proof.
  intros hi. pose proof ramp_bracket as Hhi. fold hi in Hhi.
  apply bsearch_finds; lia.
Qed.
End RoundTrip.

(** C5: the thresholds and levels of the quadratic curve with base 100,
    a = 50, b = 0: required XP is 0, 150 and 500 at levels 0, 1 and 2, and
    the level is 0 at 149 XP, 1 at 150 and at 499 XP, 2 at 500 XP. *)
Theorem quadratic_scenario :
  xp_required_for_level "quadratic" 100 50 0 0 = 0 /\
  xp_required_for_level "quadratic" 100 50 0 1 = 150 /\
  xp_required_for_level "quadratic" 100 50 0 2 = 500 /\
  level_from_total_xp "quadratic" 100 50 0 149 = 0 /\
  level_from_total_xp "quadratic" 100 50 0 150 = 1 /\
  level_from_total_xp "quadratic" 100 50 0 499 = 1 /\
  level_from_total_xp "quadratic" 100 50 0 500 = 2.
Proof. vm_compute. repeat split. Qed.

(** The other two scenarios of the curve engine. *)
Example linear_scenario : xp_required_for_level "linear" 10 5 0 3 = 45.
Proof. vm_compute. reflexivity. Qed.

Example exponential_scenario :
  xp_required_for_level "exponential" 100 50 0 1 = 15 /\
  xp_required_for_level "exponential" 100 50 0 2 = 32.
Proof. vm_compute. split; reflexivity. Qed.

(** C6, as the spec has it, fails: [cfg_setcurve] accepts the quadratic
    curve with base 1, a = -10, b = 30, whose threshold drops from 21 at
    level 1 to 14 at level 2. *)
Lemma required_xp_not_monotone :
  setcurve_accepts 1 (-10) 30 /\
  xp_required_for_level "quadratic" 1 (-10) 30 (1 + 1)
  < xp_required_for_level "quadratic" 1 (-10) 30 1.
Proof. split; [unfold setcurve_accepts; lia | vm_compute; reflexivity]. Qed.

(** C6, amended: wherever the code computes the threshold of level
    [L + 1] (always on the linear and the quadratic curve; on the
    exponential curve as long as the float arithmetic does not overflow,
    which it does from level 5079 on), it computes that of level [L >= 0]
    too, and for the linear and the exponential curve with any
    parameters, and for the quadratic curve whenever [0 <= base_xp] and
    [0 <= 3 * base_xp + a], the required XP does not decrease from [L] to
    [L + 1]; and it is 0 at every level [L <= 0], whatever the curve and
    its parameters. *)
Theorem required_xp_monotone curve base a b L :
  (curve_of curve = Quadratic -> 0 <= base /\ 0 <= 3 * base + a) ->
  (0 <= L -> xp_required_raises curve base (L + 1) = false ->
   xp_required_raises curve base L = false /\
   xp_required_for_level curve base a b L
   <= xp_required_for_level curve base a b (L + 1)) /\
  (curve_of curve <> Exponential -> xp_required_raises curve base (L + 1) = false) /\
  (L <= 0 ->
   xp_required_raises curve base L = false /\ xp_required_for_level curve base a b L = 0).
Proof.
  intros Hq. split; [|split].
  - intros HL Hret. split; [now apply xp_required_raises_step|].
    now apply xp_required_step.
  - apply xp_required_raises_integer.
  - intros HL. split; [|now apply xp_required_low].
    unfold xp_required_raises. destruct (curve_of curve); try reflexivity.
    destruct (Z.ltb_spec 0 L); [lia | reflexivity].
Qed.

Lemma required_xp_monotone_witness :
  (curve_of "exponential" = Quadratic -> 0 <= 100 /\ 0 <= 3 * 100 + 50) /\
  0 <= 3 /\
  xp_required_raises "exponential" 100 (3 + 1) = false /\
  xp_required_raises "exponential" 100 3 = false /\
  xp_required_for_level "exponential" 100 50 0 3
  <= xp_required_for_level "exponential" 100 50 0 (3 + 1).
Proof.
  assert (Hq : curve_of "exponential" = Quadratic -> 0 <= 100 /\ 0 <= 3 * 100 + 50)
    by (intros _; lia).
  assert (HL : 0 <= 3) by lia.
  assert (Hret : xp_required_raises "exponential" 100 (3 + 1) = false)
    by (vm_compute; reflexivity).
  split; [exact Hq|]. split; [exact HL|]. split; [exact Hret|].
  exact (proj1 (required_xp_monotone "exponential" 100 50 0 3 Hq) HL Hret).
Defined.

(** C3, as the spec has it, fails: with the exponential curve and
    [base_xp = 1], which [cfg_setcurve] accepts, levels 0, 1 and 2 all
    need 0 XP, and the level found for the XP of level 1 is 2. *)
Lemma round_trip_fails :
  setcurve_accepts 1 50 0 /\
  0 <= 1 <= 200 /\
  level_from_total_xp "exponential" 1 50 0
    (xp_required_for_level "exponential" 1 50 0 1) <> 1.
Proof.
  split; [unfold setcurve_accepts; lia|]. split; [lia|].
  vm_compute. discriminate.
Qed.

(** ** Parameters that make the curve strictly increasing *)

Lemma round_bounds (x : Q) :
  (inject_Z (Py.round x) <= x + (1 # 2))%Q /\ (x - (1 # 2) <= inject_Z (Py.round x))%Q.
Proof.
  unfold Py.round.
  pose proof (Qfloor_le x) as H1. pose proof (Qlt_floor x) as H2.
  rewrite inject_Z_plus in H2.
  set (f := Qfloor x) in *.
  change (inject_Z 1) with 1%Q in H2.
  destruct (Qcompare_spec (x - inject_Z f) (1 # 2)) as [E|E|E];
    [destruct (Z.even f)|..]; rewrite ?inject_Z_plus;
    change (inject_Z 1) with 1%Q; split; lra.
Qed.

Lemma round_strict (x y : Q) : (x + 1 < y)%Q -> Py.round x < Py.round y.
Proof.
  intros H. destruct (round_bounds x) as [Hx _]. destruct (round_bounds y) as [_ Hy].
  rewrite Zlt_Qlt. lra.
Qed.

Lemma increasing_upto_intro (req : Z -> Z) (n : nat) :
  (forall i, 0 <= i -> req i < req (i + 1)) -> strictly_increasing_upto req n = true.
Proof.
  intros H. unfold strictly_increasing_upto. apply forallb_forall.
  intros i _. apply Z.ltb_lt, H. lia.
Qed.

Lemma linear_increasing curve base a b n :
  curve_of curve = Linear -> 1 <= base + a ->
  strictly_increasing_upto (xp_required_for_level curve base a b) n = true.
Proof.
  intros Hc Hp. apply increasing_upto_intro. intros i Hi.
  unfold xp_required_for_level. rewrite Hc.
  replace (Z.max 0 i) with i by lia. replace (Z.max 0 (i + 1)) with (i + 1) by lia.
  destruct (Z.eqb_spec (i + 1) 0); [lia|].
  destruct (Z.eqb_spec i 0); nia.
Qed.

Lemma quadratic_increasing curve base a b n :
  curve_of curve = Quadratic ->
  0 <= base -> 1 <= 3 * base + a -> 1 <= base + a + b ->
  strictly_increasing_upto (xp_required_for_level curve base a b) n = true.
Proof.
  intros Hc Hb Ha Hab. apply increasing_upto_intro. intros i Hi.
  unfold xp_required_for_level. rewrite Hc.
  replace (Z.max 0 i) with i by lia. replace (Z.max 0 (i + 1)) with (i + 1) by lia.
  destruct (Z.eqb_spec (i + 1) 0); [lia|].
  destruct (Z.eqb_spec i 0) as [->|]; [simpl; lia|].
  assert (Hstep : base * i ^ 2 + a * i + b + 1
                  <= base * (i + 1) ^ 2 + a * (i + 1) + b) by nia.
  assert (Hpos : 1 <= base * i ^ 2 + a * i + b).
  { destruct (Z.eq_dec i 1) as [->|]; [lia|].
    assert (0 <= (i - 2) * base) by nia.
    assert (0 <= (i - 1) * (base * (i + 1) + a)) by (apply Z.mul_nonneg_nonneg; lia).
    nia. }
  lia.
Qed.

Lemma exponential_increasing curve base a b n :
  curve_of curve = Exponential -> 7 <= base ->
  strictly_increasing_upto (xp_required_for_level curve base a b) n = true.
Proof.
  intros Hc Hb. apply increasing_upto_intro. intros i Hi.
  unfold xp_required_for_level. rewrite Hc.
  replace (Z.max 0 i) with i by lia. replace (Z.max 0 (i + 1)) with (i + 1) by lia.
  destruct (Z.eqb_spec (i + 1) 0); [lia|].
  assert (Hq : (7 <= inject_Z base)%Q) by (rewrite (Zle_Qle 7 base) in Hb; exact Hb).
  pose proof (exp_factor_ge_1 i Hi) as Hp.
  assert (Hpow : ((115 # 100) ^ (i + 1) == (115 # 100) ^ i * (115 # 100))%Q).
  { rewrite Qpower_plus by discriminate. reflexivity. }
  set (q := inject_Z base) in *. set (p1 := ((115 # 100) ^ i)%Q) in *.
  set (p2 := ((115 # 100) ^ (i + 1))%Q) in *.
  assert (H2 : (0 <= q * (p2 - 1))%Q) by nra.
  apply Qle_bool_iff in H2. rewrite H2.
  destruct (Z.eqb_spec i 0) as [->|Hne].
  - destruct (round_bounds (q * (p2 - 1))) as [_ Hr].
    assert (Hx : (q * (p2 - 1) == q * (15 # 100))%Q).
    { rewrite Hpow. change p1 with 1%Q. ring. }
    rewrite Zlt_Qlt. change (inject_Z 0) with 0%Q. lra.
  - assert (H1 : (0 <= q * (p1 - 1))%Q) by nra.
    apply Qle_bool_iff in H1. rewrite H1. apply round_strict. nra.
Qed.

(** C3, amended: for every level L in [0,200] and each of the three
    curves, whenever the parameters make the required XP strictly
    increasing over the levels 0..256, the level found for the XP required
    at L is L.  (The linear curve is so when [base_xp + a >= 1], the
    quadratic one when [base_xp >= 0], [3 * base_xp + a >= 1] and
    [base_xp + a + b >= 1], the exponential one when [base_xp >= 7]: the
    defaults base 100, a = 50, b = 0 qualify for all three.) *)
Theorem round_trip curve base a b L :
  strictly_increasing_upto (xp_required_for_level curve base a b) 256 = true ->
  0 <= L <= 200 ->
  level_from_total_xp curve base a b (xp_required_for_level curve base a b L) = L.
Proof.
  intros Hincr HL. unfold level_from_total_xp.
  pose proof (xp_required_nonneg curve base a b L) as Hnn.
  replace (Z.max 0 (xp_required_for_level curve base a b L))
    with (xp_required_for_level curve base a b L) by lia.
  now apply search_finds.
Qed.

Lemma round_trip_witness :
  (strictly_increasing_upto (xp_required_for_level "linear" 100 50 0) 256 = true /\
   0 <= 200 <= 200 /\
   level_from_total_xp "linear" 100 50 0
     (xp_required_for_level "linear" 100 50 0 200) = 200) /\
  (strictly_increasing_upto (xp_required_for_level "quadratic" 100 50 0) 256 = true /\
   0 <= 7 <= 200 /\
   level_from_total_xp "quadratic" 100 50 0
     (xp_required_for_level "quadratic" 100 50 0 7) = 7).
Proof.
  assert (Hl : strictly_increasing_upto
                 (xp_required_for_level "linear" 100 50 0) 256 = true)
    by (vm_compute; reflexivity).
  assert (Hq : strictly_increasing_upto
                 (xp_required_for_level "quadratic" 100 50 0) 256 = true)
    by (vm_compute; reflexivity).
  split.
  - split; [exact Hl|]. split; [lia|].
    apply (round_trip "linear" 100 50 0 200); [exact Hl | lia].
  - split; [exact Hq|]. split; [lia|].
    apply (round_trip "quadratic" 100 50 0 7); [exact Hq | lia].
Defined.

(** The round trip with the default parameters, for the three curves. *)
Lemma round_trip_defaults curve L :
  0 <= L <= 200 ->
  level_from_total_xp curve 100 50 0 (xp_required_for_level curve 100 50 0 L) = L.
Proof.
  intros HL. unfold level_from_total_xp.
  pose proof (xp_required_nonneg curve 100 50 0 L) as Hnn.
  replace (Z.max 0 (xp_required_for_level curve 100 50 0 L))
    with (xp_required_for_level curve 100 50 0 L) by lia.
  apply search_finds; [|exact HL].
  destruct (curve_of curve) eqn:Hc.
  - apply linear_increasing; [exact Hc | lia].
  - apply quadratic_increasing; [exact Hc | lia..].
  - apply exponential_increasing; [exact Hc | lia].
Qed.

(** ** The store under [get_settings] *)

Lemma get_settings_tables gid d :
  let d' := (get_settings gid d).2 in
  user_xp d' = user_xp d /\ role_rewards d' = role_rewards d /\
  ignored_channels d' = ignored_channels d /\
  blacklisted_roles d' = blacklisted_roles d.
Proof. unfold get_settings. destruct (guild_settings d !! gid); simpl; auto. Qed.

Lemma get_settings_again gid d :
  get_settings gid (get_settings gid d).2
  = ((get_settings gid d).1, (get_settings gid d).2).
Proof.
  unfold get_settings. destruct (guild_settings d !! gid) eqn:E; simpl.
  - now rewrite E.
  - now rewrite lookup_insert_eq.
Qed.

Lemma get_settings_w_eq gid w :
  get_settings_w gid w
  = ((get_settings gid (db w)).1, with_db (fun d => (get_settings gid d).2) w).
Proof. unfold get_settings_w, with_db. now destruct (get_settings gid (db w)). Qed.

Lemma get_settings_w_again gid w :
  get_settings_w gid (get_settings_w gid w).2 = get_settings_w gid w.
Proof.
  rewrite !get_settings_w_eq. cbn [snd db with_db]. rewrite get_settings_again.
  cbn [fst snd]. f_equal. unfold with_db. cbn [db members trace].
  now rewrite get_settings_again.
Qed.

(** ** [on_message] past its filter chain *)

Lemma on_message_eligible now rnd message guild w :
  msg_guild message = Some guild ->
  eligible message w = true ->
  let gid := g_id guild in
  let uid := author_id message in
  let s := (get_settings gid (db w)).1 in
  let w1 := with_db (fun d => (get_settings gid d).2) w in
  on_message now rnd message w =
    if on_cooldown now (get_last_message_ts gid uid (db w)) (cooldown_seconds s)
    then (OnCooldown, w1)
    else
      match Py.randint (xp_min s) (xp_max s) rnd with
      | None => (Raised, w1)
      | Some base_gain =>
          let gain := compute_gain s base_gain message in
          let w2 := with_db (set_last_message_ts gid uid now) w1 in
          if gain <=? 0 then (NoGain, w2) else
          match add_xp_and_check_level_up guild uid gain w2 with
          | (None, w3) => (Raised, w3)
          | (Some (new_total, new_level, awarded), w3) =>
              if (negb (bool_decide (awarded = [])) || (0 <? new_level))
                 && (announce_level_up s =? 1)
              then (Applied new_total new_level true,
                    announce guild s message new_total new_level awarded w3)
              else (Applied new_total new_level false, w3)
          end
      end.
Proof.
  intros Hg He gid uid s w1. unfold eligible in He. rewrite Hg in He.
  fold gid s in He. apply andb_prop in He as [He Hlen].
  apply andb_prop in He as [He Hbl]. apply andb_prop in He as [Hbot Hch].
  apply negb_true_iff in Hbot, Hch, Hbl, Hlen.
  destruct (get_settings_tables gid (db w)) as (Hux & _ & Hic & Hbr).
  assert (Hw1 : (if author_bot message
                 then let '(settings, w') := get_settings_w gid w in
                      (ignore_bots settings =? 1, w')
                 else (false, w)) = (false, if author_bot message then w1 else w)).
  { destruct (author_bot message); [|reflexivity].
    rewrite get_settings_w_eq. fold s w1. simpl in Hbot. now rewrite Hbot. }
  unfold on_message. rewrite Hg. fold gid. rewrite Hw1.
  assert (Hs : get_settings_w gid (if author_bot message then w1 else w) = (s, w1)).
  { destruct (author_bot message).
    - replace w1 with (get_settings_w gid w).2 at 1
        by now rewrite get_settings_w_eq.
      rewrite get_settings_w_again. apply get_settings_w_eq.
    - apply get_settings_w_eq. }
  rewrite Hs.
  assert (Hch' : is_channel_ignored gid (channel_id message) (db w1) = false).
  { unfold is_channel_ignored in *. simpl. now rewrite Hic. }
  assert (Hbl' : has_blacklisted_role gid (author_id message) w1 = false).
  { unfold has_blacklisted_role in *. simpl. now rewrite Hbr. }
  rewrite Hch', Hbl', Hlen.
  assert (Hts : get_last_message_ts gid (author_id message) (db w1)
                = get_last_message_ts gid uid (db w)).
  { unfold get_last_message_ts. simpl. now rewrite Hux. }
  rewrite Hts. reflexivity.
Qed.

Lemma same_progress_settings gid w :
  same_progress w (with_db (fun d => (get_settings gid d).2) w).
Proof.
  destruct (get_settings_tables gid (db w)) as (Hux & _).
  unfold same_progress. simpl. auto.
Qed.

(** The three filters after the bot test, one after the other. *)
Ltac filter_chain He Hch Hbl :=
  rewrite Hch, Hbl;
  match goal with
  | |- context [is_channel_ignored ?g ?c ?d] =>
      destruct (is_channel_ignored g c d); [simpl; auto 6|]
  end;
  match goal with
  | |- context [has_blacklisted_role ?g ?u ?w] =>
      destruct (has_blacklisted_role g u w); [simpl; auto 7|]
  end;
  simpl in He; apply negb_false_iff in He; rewrite He; simpl; auto 8.

Lemma on_message_ineligible now rnd message w :
  eligible message w = false ->
  filtered_out (on_message now rnd message w).1 /\
  same_progress w (on_message now rnd message w).2.
Proof.
  intros He. unfold eligible in He. unfold on_message, filtered_out.
  destruct (msg_guild message) as [guild|]; [|simpl; unfold same_progress; auto].
  set (gid := g_id guild) in *. set (s := (get_settings gid (db w)).1) in *.
  set (w1 := with_db (fun d => (get_settings gid d).2) w).
  pose proof (same_progress_settings gid w) as Hsame. fold w1 in Hsame.
  destruct (get_settings_tables gid (db w)) as (Hux & _ & Hic & Hbr).
  assert (Hs : forall b, get_settings_w gid (if b : bool then w1 else w) = (s, w1)).
  { intros [|].
    - replace w1 with (get_settings_w gid w).2 at 1
        by now rewrite get_settings_w_eq.
      rewrite get_settings_w_again. apply get_settings_w_eq.
    - apply get_settings_w_eq. }
  assert (Hch : is_channel_ignored gid (channel_id message) (db w1)
                = is_channel_ignored gid (channel_id message) (db w))
    by (unfold is_channel_ignored; simpl; now rewrite Hic).
  assert (Hbl : has_blacklisted_role gid (author_id message) w1
                = has_blacklisted_role gid (author_id message) w)
    by (unfold has_blacklisted_role; simpl; now rewrite Hbr).
  destruct (author_bot message) eqn:Hbot.
  - rewrite get_settings_w_eq. fold s w1.
    destruct (ignore_bots s =? 1) eqn:Hig; [simpl; auto 6|].
    rewrite (Hs true). simpl in He. filter_chain He Hch Hbl.
  - rewrite (Hs false). simpl in He. filter_chain He Hch Hbl.
Qed.

(** ** What the XP write does to the store *)

Lemma award_roles_db guild member rows awarded w :
  db (award_roles guild member rows awarded w).2 = db w.
Proof.
  revert awarded w. induction rows as [|[level_at role_id] rows IH]; intros awarded w.
  - reflexivity.
  - cbn [award_roles].
    destruct (negb (bool_decide (role_id ∈ g_roles guild))); [now rewrite IH|].
    destruct (members w !! (g_id guild, member)) as [held|]; [|reflexivity].
    destruct (bool_decide (role_id ∈ held)); [now rewrite IH|].
    destruct (g_add_roles guild member role_id); now rewrite IH.
Qed.

Lemma apply_xp_result gid uid gained s d :
  (apply_xp gid uid gained s d).1
  = (stored_level gid uid d,
     Z.max 0 (stored_xp gid uid d + gained),
     level_of s (Z.max 0 (stored_xp gid uid d + gained))).
Proof.
  unfold apply_xp, stored_level, stored_xp, level_of.
  destruct (user_xp d !! (gid, uid)); reflexivity.
Qed.

Lemma apply_xp_lookup gid uid gained s d :
  user_xp (apply_xp gid uid gained s d).2 !! (gid, uid)
  = Some {| xp := Z.max 0 (stored_xp gid uid d + gained);
            level := level_of s (Z.max 0 (stored_xp gid uid d + gained));
            last_message_ts := get_last_message_ts gid uid d |}.
Proof.
  unfold apply_xp, stored_xp, level_of, get_last_message_ts.
  destruct (user_xp d !! (gid, uid)) as [row|] eqn:E; simpl.
  - rewrite lookup_alter_eq, E. reflexivity.
  - rewrite lookup_alter_eq, lookup_insert_eq. reflexivity.
Qed.

Lemma apply_xp_lookup_ne gid uid gained s d k :
  k <> (gid, uid) ->
  user_xp (apply_xp gid uid gained s d).2 !! k = user_xp d !! k.
Proof.
  intros Hk. unfold apply_xp.
  destruct (user_xp d !! (gid, uid)) as [row|] eqn:E; simpl.
  - now rewrite lookup_alter_ne.
  - rewrite lookup_alter_ne, lookup_insert_ne; auto.
Qed.

Lemma apply_xp_tables gid uid gained s d :
  let d' := (apply_xp gid uid gained s d).2 in
  guild_settings d' = guild_settings d /\ role_rewards d' = role_rewards d /\
  ignored_channels d' = ignored_channels d /\
  blacklisted_roles d' = blacklisted_roles d.
Proof. unfold apply_xp. destruct (user_xp d !! (gid, uid)); simpl; auto. Qed.

Lemma add_xp_db guild member gained w :
  db (add_xp_and_check_level_up guild member gained w).2
  = (apply_xp (g_id guild) member gained (get_settings (g_id guild) (db w)).1
       (get_settings (g_id guild) (db w)).2).2.
Proof.
  unfold add_xp_and_check_level_up. rewrite get_settings_w_eq.
  cbn [db with_db].
  destruct (apply_xp _ _ _ _ _) as [[[cur tot] lvl] d] eqn:E. cbn [snd].
  destruct (cur <? lvl); [|reflexivity].
  match goal with |- context [award_roles ?g ?m ?r ?a ?w'] =>
    pose proof (award_roles_db g m r a w') as H;
    destruct (award_roles g m r a w') as [[aw|] w''] end; exact H.
Qed.

Lemma announce_db guild s message t l aw w :
  db (announce guild s message t l aw w) = db w.
Proof. reflexivity. Qed.

Lemma get_settings_stored gid d :
  guild_settings (get_settings gid d).2 !! gid = Some (get_settings gid d).1.
Proof.
  unfold get_settings. destruct (guild_settings d !! gid) eqn:E; simpl.
  - exact E.
  - apply lookup_insert_eq.
Qed.

Lemma get_settings_hit gid d s :
  guild_settings d !! gid = Some s -> get_settings gid d = (s, d).
Proof. intros H. unfold get_settings. now rewrite H. Qed.

(** The store after an event that went past the cooldown check. *)
Lemma on_message_db now rnd message guild w base_gain :
  msg_guild message = Some guild ->
  eligible message w = true ->
  let gid := g_id guild in
  let uid := author_id message in
  let s := (get_settings gid (db w)).1 in
  on_cooldown now (get_last_message_ts gid uid (db w)) (cooldown_seconds s) = false ->
  Py.randint (xp_min s) (xp_max s) rnd = Some base_gain ->
  let gain := compute_gain s base_gain message in
  let d2 := set_last_message_ts gid uid now (get_settings gid (db w)).2 in
  db (on_message now rnd message w).2
  = if gain <=? 0 then d2 else (apply_xp gid uid gain s d2).2.
Proof.
  intros Hg He gid uid s Hcd Hr gain d2.
  rewrite (on_message_eligible now rnd message guild w Hg He).
  fold gid uid s. rewrite Hcd, Hr. fold gain. cbv zeta.
  destruct (gain <=? 0); [reflexivity|].
  match goal with |- context [add_xp_and_check_level_up ?g ?m ?x ?w'] =>
    pose proof (add_xp_db g m x w') as H;
    destruct (add_xp_and_check_level_up g m x w') as [[[[t l] aw]|] w3] end;
    cbn [snd db with_db] in H; fold gid d2 in H.
  - assert (Hs : get_settings gid d2 = (s, d2)).
    { apply get_settings_hit. unfold d2. simpl. apply get_settings_stored. }
    rewrite Hs in H. cbn [fst snd] in H.
    destruct (_ && _); exact H.
  - assert (Hs : get_settings gid d2 = (s, d2)).
    { apply get_settings_hit. unfold d2. simpl. apply get_settings_stored. }
    rewrite Hs in H. exact H.
Qed.

Lemma on_message_past_cooldown now rnd message guild w :
  msg_guild message = Some guild ->
  eligible message w = true ->
  let gid := g_id guild in
  let uid := author_id message in
  let s := (get_settings gid (db w)).1 in
  on_cooldown now (get_last_message_ts gid uid (db w)) (cooldown_seconds s) = false ->
  ~ filtered_out (on_message now rnd message w).1 /\
  (on_message now rnd message w).1 <> OnCooldown.
Proof.
  intros Hg He gid uid s Hcd.
  rewrite (on_message_eligible now rnd message guild w Hg He).
  fold gid uid s. rewrite Hcd. unfold filtered_out.
  destruct (Py.randint _ _ _); [|simpl; intuition discriminate].
  cbv zeta. destruct (_ <=? 0); [simpl; intuition discriminate|].
  destruct (add_xp_and_check_level_up _ _ _ _) as [[[[t l] aw]|] w3];
    [destruct (_ && _)|]; simpl; intuition discriminate.
Qed.

(** C2: for a subject with a stored row, an event that arrives strictly
    inside the cooldown window ([now - last_message_ts < cooldown_seconds])
    changes nothing: the whole [user_xp] table (XP, level and timestamp of
    every row), the cached roles and the record of effects are as before,
    and an event that got through the filter chain leaves at the cooldown
    check; an event that arrives at or after the end of the window is not
    turned away by the cooldown check. *)
Theorem cooldown_window now rnd message guild w row :
  msg_guild message = Some guild ->
  user_xp (db w) !! (g_id guild, author_id message) = Some row ->
  let cooldown := cooldown_seconds (get_settings (g_id guild) (db w)).1 in
  let r := on_message now rnd message w in
  (now - last_message_ts row < cooldown ->
     user_xp (db r.2) = user_xp (db w) /\ members r.2 = members w /\
     trace r.2 = trace w /\
     (eligible message w = true -> r.1 = OnCooldown)) /\
  (cooldown <= now - last_message_ts row -> r.1 <> OnCooldown).
Proof.
  intros Hg Hrow cooldown r.
  assert (Hts : get_last_message_ts (g_id guild) (author_id message) (db w)
                = last_message_ts row)
    by (unfold get_last_message_ts; now rewrite Hrow).
  destruct (eligible message w) eqn:He.
  - pose proof (on_message_eligible now rnd message guild w Hg He) as Heq.
    cbv zeta in Heq. rewrite Hts in Heq. fold cooldown in Heq.
    split.
    + intros Hin. subst r. rewrite Heq. unfold on_cooldown.
      destruct (Z.ltb_spec (now - last_message_ts row) cooldown); [|lia].
      destruct (same_progress_settings (g_id guild) w) as (H1 & H2 & H3).
      simpl. auto.
    + intros Hout.
      apply (on_message_past_cooldown now rnd message guild w Hg He).
      rewrite Hts. fold cooldown. unfold on_cooldown.
      destruct (Z.ltb_spec (now - last_message_ts row) cooldown); [lia|reflexivity].
  - destruct (on_message_ineligible now rnd message w He) as [Hf (H1 & H2 & H3)].
    fold r in Hf, H1, H2, H3. split.
    + intros _. repeat split; auto. discriminate.
    + intros _ Hc. unfold filtered_out in Hf. rewrite Hc in Hf.
      intuition discriminate.
Qed.

Lemma cooldown_window_witness :
  let r := on_message 30 3 (demo_message 5) level1_world in
  (30 - 0 < 60 ->
     user_xp (db r.2) = user_xp (db level1_world) /\
     members r.2 = members level1_world /\
     trace r.2 = trace level1_world /\
     (eligible (demo_message 5) level1_world = true -> r.1 = OnCooldown)) /\
  (60 <= 30 - 0 -> r.1 <> OnCooldown).
Proof.
  apply (cooldown_window 30 3 (demo_message 5) demo_guild level1_world
           {| xp := 150; level := 1; last_message_ts := 0 |}).
  - reflexivity.
  - vm_compute. reflexivity.
Defined.

(** For a subject with a stored row, C4 holds. *)
Lemma timestamp_commit now rnd message guild w row base_gain :
  msg_guild message = Some guild ->
  eligible message w = true ->
  let gid := g_id guild in
  let uid := author_id message in
  let s := (get_settings gid (db w)).1 in
  user_xp (db w) !! (gid, uid) = Some row ->
  cooldown_seconds s <= now - last_message_ts row ->
  Py.randint (xp_min s) (xp_max s) rnd = Some base_gain ->
  let gain := compute_gain s base_gain message in
  let r := on_message now rnd message w in
  (exists row', user_xp (db r.2) !! (gid, uid) = Some row' /\
                last_message_ts row' = now) /\
  (gain <= 0 ->
   user_xp (db r.2) !! (gid, uid)
   = Some {| xp := xp row; level := level row; last_message_ts := now |}).
Proof.
  intros Hg He gid uid s Hrow Hcd Hr gain r.
  destruct (get_settings_tables gid (db w)) as (Hux & _).
  assert (Hoff : on_cooldown now (get_last_message_ts gid uid (db w))
                   (cooldown_seconds s) = false).
  { unfold on_cooldown, get_last_message_ts. rewrite Hrow.
    destruct (Z.ltb_spec (now - last_message_ts row) (cooldown_seconds s)); [lia|easy]. }
  pose proof (on_message_db now rnd message guild w base_gain Hg He Hoff Hr) as Hdb.
  cbv zeta in Hdb. fold gid uid s gain r in Hdb.
  set (d2 := set_last_message_ts gid uid now (get_settings gid (db w)).2) in *.
  assert (Hd2 : user_xp d2 !! (gid, uid)
                = Some {| xp := xp row; level := level row; last_message_ts := now |}).
  { unfold d2. simpl. rewrite lookup_alter_eq, Hux, Hrow. reflexivity. }
  rewrite Hdb. destruct (Z.leb_spec gain 0) as [Hle|Hgt].
  - split; [eexists; split; [exact Hd2|reflexivity]|]. intros _. exact Hd2.
  - split; [|lia]. rewrite apply_xp_lookup. eexists. split; [reflexivity|].
    simpl. unfold get_last_message_ts. now rewrite Hd2.
Qed.

(** C4, where the code departs from it: the first event of a subject
    without a stored row passes the cooldown check at 1700000000 and
    gains 13 XP, yet the row it leaves has [last_message_ts = 0]; and when
    the gain is 0 (multiplier 0) it leaves no row at all. *)
Theorem timestamp_lost_without_row :
  let r := on_message 1700000000 3 (demo_message 9) fresh_world in
  let r0 := on_message 1700000000 3 (demo_message 9) muted_world in
  user_xp (db fresh_world) !! (1, 9) = None /\
  r.1 = Applied 13 0 false /\
  user_xp (db r.2) !! (1, 9) = Some {| xp := 13; level := 0; last_message_ts := 0 |} /\
  r0.1 = NoGain /\
  user_xp (db r0.2) !! (1, 9) = None.
Proof. vm_compute. repeat split. Qed.

(** C10: for a subject without a stored row, the timestamp write of the
    first accepted event finds no row and changes nothing; the row the XP
    write then creates has [last_message_ts = 0]; so a second event of the
    same subject at any later instant, however close, passes the cooldown
    check as well and adds its gain to the stored XP (and this one does
    store its timestamp). *)
Theorem new_subject_cooldown_gap now rnd message guild w base_gain :
  msg_guild message = Some guild ->
  eligible message w = true ->
  let gid := g_id guild in
  let uid := author_id message in
  let s := (get_settings gid (db w)).1 in
  user_xp (db w) !! (gid, uid) = None ->
  cooldown_seconds s <= now ->
  Py.randint (xp_min s) (xp_max s) rnd = Some base_gain ->
  let gain := compute_gain s base_gain message in
  0 < gain ->
  let r := on_message now rnd message w in
  set_last_message_ts gid uid now (get_settings gid (db w)).2
    = (get_settings gid (db w)).2 /\
  r.1 <> OnCooldown /\
  user_xp (db r.2) !! (gid, uid)
    = Some {| xp := gain; level := level_of s gain; last_message_ts := 0 |} /\
  forall now2 rnd2 message2 base_gain2,
    msg_guild message2 = Some guild ->
    author_id message2 = uid ->
    eligible message2 r.2 = true ->
    now <= now2 ->
    Py.randint (xp_min s) (xp_max s) rnd2 = Some base_gain2 ->
    let gain2 := compute_gain s base_gain2 message2 in
    0 < gain2 ->
    let r2 := on_message now2 rnd2 message2 r.2 in
    r2.1 <> OnCooldown /\ ~ filtered_out r2.1 /\
    user_xp (db r2.2) !! (gid, uid)
      = Some {| xp := gain + gain2; level := level_of s (gain + gain2);
                last_message_ts := now2 |}.
Proof.
  intros Hg He gid uid s Hrow Hcd Hr gain Hgain r.
  destruct (get_settings_tables gid (db w)) as (Hux & _).
  set (d1 := (get_settings gid (db w)).2) in *.
  assert (Hnoop : set_last_message_ts gid uid now d1 = d1).
  { unfold set_last_message_ts, with_user_xp.
    rewrite alter_id' by (now rewrite Hux). now destruct d1. }
  assert (Hoff : on_cooldown now (get_last_message_ts gid uid (db w))
                   (cooldown_seconds s) = false).
  { unfold on_cooldown, get_last_message_ts. rewrite Hrow.
    destruct (Z.ltb_spec (now - 0) (cooldown_seconds s)); [lia|easy]. }
  pose proof (on_message_db now rnd message guild w base_gain Hg He Hoff Hr) as Hdb.
  cbv zeta in Hdb. fold gid uid s gain r d1 in Hdb. rewrite Hnoop in Hdb.
  destruct (Z.leb_spec gain 0) as [|_]; [lia|].
  assert (Hrow1 : user_xp (db r.2) !! (gid, uid)
                  = Some {| xp := gain; level := level_of s gain; last_message_ts := 0 |}).
  { rewrite Hdb, apply_xp_lookup. unfold stored_xp, get_last_message_ts.
    rewrite Hux, Hrow. replace (Z.max 0 (0 + gain)) with gain by lia. reflexivity. }
  split; [exact Hnoop|]. split.
  { apply (on_message_past_cooldown now rnd message guild w Hg He Hoff). }
  split; [exact Hrow1|].
  intros now2 rnd2 message2 base_gain2 Hg2 Hau He2 Hnow Hr2 gain2 Hgain2 r2.
  assert (Hs1 : get_settings gid (db r.2) = (s, db r.2)).
  { apply get_settings_hit. rewrite Hdb.
    destruct (apply_xp_tables gid uid gain s d1) as (-> & _).
    apply get_settings_stored. }
  assert (Hoff2 : on_cooldown now2 (get_last_message_ts gid (author_id message2) (db r.2))
                    (cooldown_seconds (get_settings gid (db r.2)).1) = false).
  { rewrite Hau, Hs1. unfold on_cooldown, get_last_message_ts. rewrite Hrow1. simpl.
    destruct (Z.ltb_spec (now2 - 0) (cooldown_seconds s)); [lia|easy]. }
  destruct (on_message_past_cooldown now2 rnd2 message2 guild r.2 Hg2 He2 Hoff2)
    as [Hnf Hnc].
  split; [exact Hnc|]. split; [exact Hnf|].
  assert (Hr2' : Py.randint (xp_min (get_settings gid (db r.2)).1)
                   (xp_max (get_settings gid (db r.2)).1) rnd2 = Some base_gain2)
    by now rewrite Hs1.
  pose proof (on_message_db now2 rnd2 message2 guild r.2 base_gain2 Hg2 He2 Hoff2 Hr2')
    as Hdb2.
  cbv zeta in Hdb2. fold gid r2 in Hdb2. rewrite Hs1 in Hdb2. cbn [fst snd] in Hdb2.
  fold gain2 in Hdb2. rewrite Hau in Hdb2.
  destruct (Z.leb_spec gain2 0) as [|_]; [lia|].
  rewrite Hdb2, apply_xp_lookup. unfold stored_xp, get_last_message_ts. simpl.
  rewrite !lookup_alter_eq, Hrow1. simpl.
  replace (Z.max 0 (gain + gain2)) with (gain + gain2) by lia. reflexivity.
Qed.

Lemma new_subject_cooldown_gap_witness :
  let r := on_message 1700000000 3 (demo_message 9) fresh_world in
  let r2 := on_message 1700000001 4 (demo_message 9) r.2 in
  eligible (demo_message 9) fresh_world = true /\
  user_xp (db fresh_world) !! (1, 9) = None /\
  user_xp (db r.2) !! (1, 9)
    = Some {| xp := 13; level := 0; last_message_ts := 0 |} /\
  r2.1 <> OnCooldown /\
  user_xp (db r2.2) !! (1, 9)
    = Some {| xp := 27; level := 0; last_message_ts := 1700000001 |}.
Proof.
  intros r r2.
  assert (He : eligible (demo_message 9) fresh_world = true) by (vm_compute; reflexivity).
  assert (Hn : user_xp (db fresh_world) !! (1, 9) = None) by (vm_compute; reflexivity).
  destruct (new_subject_cooldown_gap 1700000000 3 (demo_message 9) demo_guild
              fresh_world 13 eq_refl He Hn)
    as (_ & _ & Hrow & Hnext).
  - vm_compute. discriminate.
  - vm_compute. reflexivity.
  - vm_compute. reflexivity.
  - destruct (Hnext 1700000001 4 (demo_message 9) 14 eq_refl eq_refl)
      as (Hc & _ & Hrow2).
    + vm_compute. reflexivity.
    + lia.
    + vm_compute. reflexivity.
    + vm_compute. reflexivity.
    + split; [exact He|]. split; [exact Hn|]. split; [exact Hrow|].
      split; [exact Hc | exact Hrow2].
Defined.

(** ** Rows of one guild *)

Lemma elem_of_rows_of_guild {V : Type} (gid : Z) (m : gmap (Z * Z) V) (k : Z) (v : V) :
  (k, v) ∈ rows_of_guild gid m <-> m !! (gid, k) = Some v.
Proof.
  unfold rows_of_guild. rewrite list_elem_of_omap. split.
  - intros ([[g k'] v'] & Hin & Hf). simpl in Hf.
    destruct (decide (g = gid)) as [->|]; [|discriminate].
    injection Hf as -> ->. now apply elem_of_map_to_list.
  - intros Hm. exists ((gid, k), v). split; [now apply elem_of_map_to_list|].
    simpl. now rewrite decide_True.
Qed.

Lemma NoDup_rows_of_guild {V : Type} (gid : Z) (m : gmap (Z * Z) V) :
  NoDup (rows_of_guild gid m).*1.
Proof.
  unfold rows_of_guild.
  pose proof (NoDup_fst_map_to_list m) as Hnd.
  induction (map_to_list m) as [|[[g k] v] l IH]; [constructor|].
  simpl in *. apply NoDup_cons in Hnd as [Hnotin Hnd].
  destruct (decide (g = gid)) as [->|]; [|now apply IH].
  simpl. apply NoDup_cons. split; [|now apply IH].
  intros Hin. apply Hnotin.
  apply list_elem_of_fmap in Hin as ([k' v'] & Hk & Hin). simpl in Hk. subst k'.
  apply list_elem_of_omap in Hin as ([[g' k''] v''] & Hin & Hf). simpl in Hf.
  destruct (decide (g' = gid)) as [->|]; [|discriminate].
  injection Hf as -> ->.
  apply list_elem_of_fmap. exists ((gid, k), v'). auto.
Qed.

Lemma level_asc_trans : Transitive level_asc.
Proof. intros x y z. unfold level_asc. lia. Qed.

Lemma level_asc_total : Total level_asc.
Proof. intros x y. unfold level_asc. lia. Qed.

Lemma StronglySorted_strict (l : list (Z * Z)) :
  StronglySorted level_asc l -> NoDup l.*1 -> StronglySorted level_lt l.
Proof.
  induction 1 as [|x l Hs IH Hall]; intros Hnd; [constructor|].
  simpl in Hnd. apply NoDup_cons in Hnd as [Hx Hnd].
  constructor; [now apply IH|].
  rewrite Forall_forall in *. intros y Hy.
  specialize (Hall y Hy). unfold level_asc, level_lt in *.
  assert (x.1 <> y.1); [|lia].
  intros Heq. apply Hx. rewrite Heq. apply list_elem_of_fmap. exists y. auto.
Qed.

Lemma select_role_rewards_elem gid lo hi d level_at role_id :
  (level_at, role_id) ∈ select_role_rewards gid lo hi d
  <-> role_rewards d !! (gid, level_at) = Some role_id /\ lo <= level_at <= hi.
Proof.
  unfold select_role_rewards. rewrite merge_sort_Permutation.
  rewrite list_elem_of_filter, elem_of_rows_of_guild. simpl. tauto.
Qed.

Lemma select_role_rewards_sorted gid lo hi d :
  StronglySorted level_lt (select_role_rewards gid lo hi d).
Proof.
  apply StronglySorted_strict.
  - apply (@StronglySorted_merge_sort _ level_asc _ level_asc_trans level_asc_total).
  - unfold select_role_rewards. rewrite merge_sort_Permutation.
    eapply sublist_NoDup; [apply (NoDup_rows_of_guild gid (role_rewards d))|].
    apply fmap_sublist, sublist_filter.
Qed.

(** ** The reward scan *)

Lemma roles_kept_refl w : roles_kept w w.
Proof. intros k. destruct (members w !! k); set_solver. Qed.

Lemma roles_kept_trans w1 w2 w3 :
  roles_kept w1 w2 -> roles_kept w2 w3 -> roles_kept w1 w3.
Proof.
  intros H12 H23 k. specialize (H12 k). specialize (H23 k).
  destruct (members w1 !! k), (members w2 !! k), (members w3 !! k);
    try tauto; set_solver.
Qed.

Lemma roles_kept_members w w' : members w' = members w -> roles_kept w w'.
Proof. intros H k. rewrite H. destruct (members w !! k); set_solver. Qed.

Lemma roles_kept_hold gid uid role_id w :
  roles_kept w (hold_role gid uid role_id w).
Proof.
  intros k. unfold hold_role. simpl.
  destruct (decide (k = (gid, uid))) as [->|Hne].
  - rewrite lookup_alter_eq. destruct (members w !! (gid, uid)); simpl; set_solver.
  - rewrite lookup_alter_ne by congruence. destruct (members w !! k); set_solver.
Qed.

Lemma award_roles_scan guild member rows awarded w :
  is_Some (members w !! (g_id guild, member)) ->
  exists visits w',
    award_roles guild member rows awarded w
      = (Some (awarded ++ granted_keys visits), w') /\
    trace w' = trace w ++ visits /\
    grant_keys visits = rows /\
    Forall (grant_for (g_id guild) member) visits /\
    db w' = db w /\
    roles_kept w w'.
Proof.
  revert awarded w. induction rows as [|[level_at role_id] rows IH]; intros awarded w Hm.
  - exists [], w. cbn [award_roles granted_keys omap]. rewrite !app_nil_r.
    repeat split; auto using roles_kept_refl.
  - cbn [award_roles].
    assert (Hstep : forall o awarded' w0,
      is_Some (members w0 !! (g_id guild, member)) ->
      db w0 = db w -> trace w0 = trace w -> roles_kept w w0 ->
      awarded' = awarded ++ granted_keys [EvGrant (g_id guild) member level_at role_id o] ->
      exists visits w',
        award_roles guild member rows awarded'
          (emit (EvGrant (g_id guild) member level_at role_id o) w0)
        = (Some (awarded ++ granted_keys visits), w') /\
        trace w' = trace w ++ visits /\
        grant_keys visits = (level_at, role_id) :: rows /\
        Forall (grant_for (g_id guild) member) visits /\
        db w' = db w /\ roles_kept w w').
    { intros o awarded' w0 Hm0 Hdb Htr Hk ->.
      destruct (IH (awarded ++ granted_keys [EvGrant (g_id guild) member level_at role_id o])
                   (emit (EvGrant (g_id guild) member level_at role_id o) w0))
        as (visits & w' & Heq & Htr' & Hkeys & Hall & Hdb' & Hk'); [exact Hm0|].
      exists (EvGrant (g_id guild) member level_at role_id o :: visits), w'.
      rewrite Heq. split.
      { f_equal. f_equal. rewrite <- app_assoc. f_equal.
        unfold granted_keys. simpl. destruct o; reflexivity. }
      split; [rewrite Htr'; simpl; rewrite Htr, <- app_assoc; reflexivity|].
      split; [rewrite <- Hkeys; reflexivity|].
      split; [constructor; [simpl; auto|exact Hall]|].
      split; [now rewrite Hdb'|].
      eapply roles_kept_trans; [exact Hk|].
      eapply roles_kept_trans; [|exact Hk']. now apply roles_kept_members. }
    assert (Hnil : awarded = awarded ++ []) by (now rewrite app_nil_r).
    destruct (negb (bool_decide (role_id ∈ g_roles guild))).
    { apply Hstep; auto using roles_kept_refl. }
    destruct Hm as [held Hheld]. rewrite Hheld.
    destruct (bool_decide (role_id ∈ held)).
    { apply Hstep; eauto using roles_kept_refl. }
    destruct (g_add_roles guild member role_id).
    + apply Hstep; auto using roles_kept_hold.
      unfold hold_role. simpl. rewrite lookup_alter_eq, Hheld. simpl. eauto.
    + apply Hstep; eauto using roles_kept_refl.
    + apply Hstep; eauto using roles_kept_refl.
Qed.

Lemma add_xp_spec guild member gained w :
  is_Some (members w !! (g_id guild, member)) ->
  let gid := g_id guild in
  let s := (get_settings gid (db w)).1 in
  let old_level := stored_level gid member (db w) in
  let new_total := Z.max 0 (stored_xp gid member (db w) + gained) in
  let new_level := level_of s new_total in
  exists visits w',
    add_xp_and_check_level_up guild member gained w
      = (Some (new_total, new_level, granted_keys visits), w') /\
    db w' = (apply_xp gid member gained s (get_settings gid (db w)).2).2 /\
    trace w' = trace w ++ visits /\
    grant_keys visits
      = (if old_level <? new_level
         then select_role_rewards gid (old_level + 1) new_level (db w) else []) /\
    Forall (grant_for gid member) visits /\
    roles_kept w w'.
Proof.
  intros Hm gid s old_level new_total new_level.
  destruct (get_settings_tables gid (db w)) as (Hux & Hrr & _).
  unfold add_xp_and_check_level_up. rewrite get_settings_w_eq.
  cbn [db with_db]. fold gid s.
  set (d1 := (get_settings gid (db w)).2) in *.
  pose proof (apply_xp_result gid member gained s d1) as Hres.
  destruct (apply_xp_tables gid member gained s d1) as (_ & Hrr' & _).
  destruct (apply_xp gid member gained s d1) as [[[cur tot] lvl] d'] eqn:E.
  cbn [fst snd] in *.
  assert (Hcur : cur = old_level /\ tot = new_total /\ lvl = new_level).
  { unfold old_level, new_total, new_level, stored_level, stored_xp in *.
    rewrite Hux in Hres. injection Hres as -> -> ->. auto. }
  destruct Hcur as (-> & -> & ->).
  destruct (old_level <? new_level).
  - match goal with |- context [award_roles guild member ?rows [] ?w0] =>
      destruct (award_roles_scan guild member rows [] w0 Hm)
        as (visits & w' & Heq & Htr & Hkeys & Hall & Hdb & Hk)
    end.
    rewrite Heq. exists visits, w'. simpl in *.
    split; [reflexivity|]. split; [exact Hdb|]. split; [exact Htr|].
    split; [|split; [exact Hall|]].
    + rewrite Hkeys. unfold select_role_rewards. now rewrite Hrr', Hrr.
    + intros k. specialize (Hk k). exact Hk.
  - exists [], (with_db (fun _ => d') (with_db (fun d => (get_settings gid d).2) w)).
    simpl. rewrite app_nil_r. repeat split; auto using Forall_nil.
    now apply roles_kept_members.
Qed.



(** The rewards scenario: from level 3 to level 6 the rewards of levels
    4, 5 and 6 are tried in that order; the refusal at level 5 leaves the
    grants of levels 4 and 6 in place. *)
Example reward_scenario :
  let r := add_xp_and_check_level_up demo_guild 5 2850 reward_world in
  r.1 = Some (3900, 6, [(4, 40); (6, 60)]) /\
  trace r.2 = [EvGrant 1 5 4 40 Granted; EvGrant 1 5 5 50 GrantForbidden;
               EvGrant 1 5 6 60 Granted].
Proof. vm_compute. split; reflexivity. Qed.

(** ** When the listener announces *)

(** An accepted event of a cached member with a positive gain is
    announced exactly when the flag is set and either a role was granted
    or the new level is positive: the previous level plays no part. *)
Lemma announce_condition now rnd message guild w base_gain :
  msg_guild message = Some guild ->
  eligible message w = true ->
  let gid := g_id guild in
  let uid := author_id message in
  let s := (get_settings gid (db w)).1 in
  is_Some (members w !! (gid, uid)) ->
  on_cooldown now (get_last_message_ts gid uid (db w)) (cooldown_seconds s) = false ->
  Py.randint (xp_min s) (xp_max s) rnd = Some base_gain ->
  let gain := compute_gain s base_gain message in
  0 < gain ->
  let new_total := Z.max 0 (stored_xp gid uid (db w) + gain) in
  let new_level := level_of s new_total in
  exists visits,
    (on_message now rnd message w).1
    = Applied new_total new_level
        ((negb (bool_decide (granted_keys visits = [])) || (0 <? new_level))
         && (announce_level_up s =? 1)) /\
    grant_keys visits
    = (if stored_level gid uid (db w) <? new_level
       then select_role_rewards gid (stored_level gid uid (db w) + 1) new_level (db w)
       else []).
Proof.
  intros Hg He gid uid s Hm Hcd Hr gain Hgain new_total new_level.
  rewrite (on_message_eligible now rnd message guild w Hg He).
  fold gid uid s. rewrite Hcd, Hr. fold gain. cbv zeta.
  destruct (Z.leb_spec gain 0) as [|_]; [lia|].
  set (w2 := with_db (set_last_message_ts gid uid now)
               (with_db (fun d => (get_settings gid d).2) w)).
  destruct (get_settings_tables gid (db w)) as (Hux & Hrr & _).
  assert (Hs2 : get_settings gid (db w2) = (s, db w2)).
  { apply get_settings_hit. simpl. apply get_settings_stored. }
  assert (Hxp2 : stored_xp gid uid (db w2) = stored_xp gid uid (db w)).
  { unfold stored_xp. simpl. rewrite lookup_alter_eq, Hux.
    now destruct (user_xp (db w) !! (gid, uid)). }
  assert (Hlv2 : stored_level gid uid (db w2) = stored_level gid uid (db w)).
  { unfold stored_level. simpl. rewrite lookup_alter_eq, Hux.
    now destruct (user_xp (db w) !! (gid, uid)). }
  destruct (add_xp_spec guild uid gain w2 Hm)
    as (visits & w3 & Heq & _ & _ & Hkeys & _).
  fold gid in Heq, Hkeys. rewrite Hs2 in Heq, Hkeys. cbn [fst] in Heq, Hkeys.
  rewrite Hxp2 in Heq, Hkeys. rewrite Hlv2 in Hkeys. fold new_total new_level in Heq, Hkeys.
  rewrite Heq. exists visits. split.
  - destruct (_ && _); reflexivity.
  - rewrite Hkeys. unfold select_role_rewards. simpl. now rewrite Hrr.
Qed.

(** So a rise of the level is announced whenever the flag is set. *)
Lemma level_up_is_announced now rnd message guild w base_gain :
  msg_guild message = Some guild ->
  eligible message w = true ->
  let gid := g_id guild in
  let uid := author_id message in
  let s := (get_settings gid (db w)).1 in
  is_Some (members w !! (gid, uid)) ->
  on_cooldown now (get_last_message_ts gid uid (db w)) (cooldown_seconds s) = false ->
  Py.randint (xp_min s) (xp_max s) rnd = Some base_gain ->
  let gain := compute_gain s base_gain message in
  0 < gain ->
  let new_total := Z.max 0 (stored_xp gid uid (db w) + gain) in
  let new_level := level_of s new_total in
  0 <= stored_level gid uid (db w) < new_level ->
  announce_level_up s = 1 ->
  (on_message now rnd message w).1 = Applied new_total new_level true.
Proof.
  intros Hg He gid uid s Hm Hcd Hr gain Hgain new_total new_level Hup Hflag.
  destruct (announce_condition now rnd message guild w base_gain Hg He Hm Hcd Hr Hgain)
    as (visits & Heq & _).
  fold gid uid s gain new_total new_level in Heq. rewrite Heq, Hflag.
  destruct (Z.ltb_spec 0 new_level); [|lia].
  now rewrite orb_true_r.
Qed.

(** C1, where the code departs from it: the converse fails.  Subject 5
    is at level 1 with 150 XP; the event gains 13 XP, the level stays 1,
    and a level-up notification is sent all the same. *)
Theorem announce_without_level_up :
  let r := on_message 1700000000 3 (demo_message 5) level1_world in
  level <$> user_xp (db level1_world) !! (1, 5) = Some 1 /\
  r.1 = Applied 163 1 true /\
  level <$> user_xp (db r.2) !! (1, 5) = Some 1 /\
  trace r.2 = [EvAnnounce 1 7 5 1 13 350 []].
Proof. vm_compute. repeat split. Qed.

(** ** Leaderboard *)

Lemma leaderboard_order_trans : Transitive leaderboard_order.
Proof. intros x y z. unfold leaderboard_order. lia. Qed.

Lemma leaderboard_order_total : Total leaderboard_order.
Proof. intros x y. unfold leaderboard_order. lia. Qed.

Lemma StronglySorted_sublist {A} (R : relation A) (l k : list A) :
  sublist l k -> StronglySorted R k -> StronglySorted R l.
Proof.
  induction 1 as [|x l k Hs IH|x l k Hs IH]; intros Hk.
  - constructor.
  - apply StronglySorted_inv in Hk as [Hk Hall]. constructor; [now apply IH|].
    rewrite Forall_forall in *. intros y Hy. apply Hall.
    eapply elem_of_sublist; eauto.
  - apply StronglySorted_inv in Hk as [Hk _]. now apply IH.
Qed.

Lemma sql_limit_sublist {A} limit offset (l : list A) :
  sublist (sql_limit limit offset l) l.
Proof.
  unfold sql_limit. destruct (limit <? 0).
  - apply sublist_drop.
  - etransitivity; [apply sublist_take | apply sublist_drop].
Qed.

Lemma sql_limit_all {A} (l : list A) : sql_limit (-1) 0 l = l.
Proof. reflexivity. Qed.

Lemma elem_of_select_user_rows gid d uid x l :
  (uid, x, l) ∈ select_user_rows gid d
  <-> exists row, user_xp d !! (gid, uid) = Some row /\ xp row = x /\ level row = l.
Proof.
  unfold select_user_rows. rewrite list_elem_of_fmap. split.
  - intros ([u row] & Heq & Hin). simpl in Heq. injection Heq as -> -> ->.
    apply elem_of_rows_of_guild in Hin. eauto.
  - intros (row & Hrow & <- & <-). exists (uid, row). split; [reflexivity|].
    now apply elem_of_rows_of_guild.
Qed.

Lemma NoDup_select_user_rows gid d : NoDup (select_user_rows gid d).*1.*1.
Proof.
  unfold select_user_rows. rewrite <- !list_fmap_compose.
  apply (NoDup_rows_of_guild gid (user_xp d)).
Qed.

(** C8: the rows of a guild list each of its stored subjects once; the
    rank of a stored subject is 1 plus the number of those rows with
    strictly more XP, so subjects with equal XP have equal ranks; the
    rows have one ranking, ordered by XP descending, then by user id
    ascending, and every call of [top_users] returns the segment of it
    that its offset and limit delimit: the rows from position [offset]
    on, [limit] of them at most (all of them for a negative limit). *)
Theorem leaderboard gid uid d mine :
  user_xp d !! (gid, uid) = Some mine ->
  (NoDup (select_user_rows gid d).*1.*1 /\
   forall u x l,
     (u, x, l) ∈ select_user_rows gid d
     <-> exists row, user_xp d !! (gid, u) = Some row /\ xp row = x /\ level row = l) /\
  user_rank gid uid d
    = 1 + Z.of_nat (length (filter (fun r => xp mine < r.1.2) (select_user_rows gid d))) /\
  (forall other theirs,
     user_xp d !! (gid, other) = Some theirs -> xp theirs = xp mine ->
     user_rank gid other d = user_rank gid uid d) /\
  exists ranking,
    ranking ≡ₚ select_user_rows gid d /\
    StronglySorted leaderboard_order ranking /\
    (forall (i j : nat) r1 r2,
       (i < j)%nat -> ranking !! i = Some r1 -> ranking !! j = Some r2 ->
       r2.1.2 < r1.1.2 \/ (r1.1.2 = r2.1.2 /\ r1.1.1 < r2.1.1)) /\
    forall limit offset,
      top_users gid limit offset d
      = if limit <? 0 then drop (Z.to_nat offset) ranking
        else take (Z.to_nat limit) (drop (Z.to_nat offset) ranking).
Proof.
  intros Hmine. split; [|split; [|split]].
  - split; [apply NoDup_select_user_rows|]. intros u x l.
    apply elem_of_select_user_rows.
  - unfold user_rank, count_better. rewrite Hmine. lia.
  - intros other theirs Hother Hxp. unfold user_rank, count_better.
    rewrite Hmine, Hother, Hxp. reflexivity.
  - set (ranking := merge_sort leaderboard_order (select_user_rows gid d)).
    assert (Hperm : ranking ≡ₚ select_user_rows gid d) by apply merge_sort_Permutation.
    assert (Hsorted : StronglySorted leaderboard_order ranking)
      by apply (@StronglySorted_merge_sort _ leaderboard_order _
                  leaderboard_order_trans leaderboard_order_total).
    exists ranking. split; [exact Hperm|]. split; [exact Hsorted|]. split.
    + intros i j r1 r2 Hij H1 H2.
      assert (Hnd : NoDup ranking.*1.*1).
      { rewrite Hperm. apply NoDup_select_user_rows. }
      assert (Hord : leaderboard_order r1 r2).
      { rewrite <- (take_drop_middle ranking i r1 H1) in Hsorted.
        apply StronglySorted_app_1_r, StronglySorted_cons in Hsorted as [Hbelow _].
        rewrite Forall_forall in Hbelow. apply Hbelow.
        eapply list_elem_of_lookup_2. rewrite lookup_drop.
        replace (S i + (j - S i))%nat with j by lia. exact H2. }
      unfold leaderboard_order in Hord. destruct Hord as [Hlt|[Heq Hle]]; [now left|].
      right. split; [exact Heq|].
      assert (r1.1.1 <> r2.1.1); [|lia].
      intros Hid. assert (i = j); [|lia].
      eapply NoDup_lookup; [exact Hnd| |].
      * rewrite !list_lookup_fmap, H1. reflexivity.
      * rewrite !list_lookup_fmap, H2. simpl. now rewrite Hid.
    + intros limit offset. reflexivity.
Qed.

Lemma leaderboard_witness :
  user_xp board_db !! (1, 3) = Some {| xp := 100; level := 0; last_message_ts := 0 |} /\
  user_rank 1 3 board_db
    = 1 + Z.of_nat (length (filter (fun r => 100 < r.1.2) (select_user_rows 1 board_db))) /\
  user_rank 1 3 board_db = 3 /\
  (exists ranking,
     ranking ≡ₚ select_user_rows 1 board_db /\
     StronglySorted leaderboard_order ranking /\
     top_users 1 2 1 board_db = take 2 (drop 1 ranking)) /\
  top_users 1 2 1 board_db = [(2, 300, 1); (3, 100, 0)].
Proof.
  assert (H : user_xp board_db !! (1, 3)
              = Some {| xp := 100; level := 0; last_message_ts := 0 |})
    by (vm_compute; reflexivity).
  pose proof (leaderboard 1 3 board_db _ H) as (_ & Hrank & _ & ranking & Hperm & Hsorted & _ & Hpage).
  split; [exact H|]. split; [exact Hrank|]. split; [vm_compute; reflexivity|].
  split; [|vm_compute; reflexivity].
  exists ranking. split; [exact Hperm|]. split; [exact Hsorted|]. exact (Hpage 2 1).
Defined.

(** The rank-ties scenario. *)
Example rank_ties_scenario :
  user_rank 1 1 board_db = 1 /\ user_rank 1 2 board_db = 1 /\
  user_rank 1 3 board_db = 3 /\
  top_users 1 10 0 board_db = [(1, 300, 1); (2, 300, 1); (3, 100, 0)] /\
  top_users 1 1 1 board_db = [(2, 300, 1)].
Proof. vm_compute. repeat split. Qed.

Lemma roles_kept_is_Some w w' k :
  roles_kept w w' -> is_Some (members w' !! k) <-> is_Some (members w !! k).
Proof.
  intros H. specialize (H k).
  destruct (members w !! k), (members w' !! k); try tauto;
    split; intros [? ?]; eauto; discriminate.
Qed.

Lemma level_of_clamp s x : level_of s (Z.max 0 x) = level_of s x.
Proof.
  unfold level_of, level_from_total_xp.
  now replace (Z.max 0 (Z.max 0 x)) with (Z.max 0 x) by lia.
Qed.

Lemma grant_for_key gid uid visits e :
  e ∈ visits -> grant_for gid uid e ->
  exists level_at role_id o,
    e = EvGrant gid uid level_at role_id o /\ (level_at, role_id) ∈ grant_keys visits.
Proof.
  intros Hin Hg. destruct e as [g u l r o|]; [|contradiction].
  destruct Hg as [-> ->]. exists l, r, o. split; [reflexivity|].
  unfold grant_keys. apply list_elem_of_omap. eexists. split; [exact Hin|reflexivity].
Qed.

(** What one turn of the member loop does. *)
Lemma recalc_member_turn guild s uid w :
  let gid := g_id guild in
  guild_settings (db w) !! gid = Some s ->
  is_Some (members w !! (gid, uid)) ->
  exists new_total new_level visits w',
    add_xp_and_check_level_up guild uid 0 w
      = (Some (new_total, new_level, granted_keys visits), w') /\
    guild_settings (db w') = guild_settings (db w) /\
    role_rewards (db w') = role_rewards (db w) /\
    trace w' = trace w ++ visits /\
    roles_kept w w' /\
    user_xp (db w') !! (gid, uid) = Some (recomputed_row s gid uid (db w)) /\
    (forall k, k <> (gid, uid) -> user_xp (db w') !! k = user_xp (db w) !! k) /\
    Forall (fun e => exists level_at role_id o,
                e = EvGrant gid uid level_at role_id o /\
                stored_level gid uid (db w) < level_at
                  <= level_of s (stored_xp gid uid (db w))) visits.
Proof.
  intros gid Hs Hm.
  destruct (add_xp_spec guild uid 0 w Hm)
    as (visits & w' & Heq & Hdb & Htr & Hkeys & Hall & Hk).
  fold gid in Heq, Hdb, Hkeys, Hall.
  rewrite (get_settings_hit gid (db w) s Hs) in *. cbn [fst snd] in *.
  destruct (apply_xp_tables gid uid 0 s (db w)) as (Hgs & Hrr & _).
  eexists _, _, visits, w'. split; [exact Heq|].
  rewrite Hdb. split; [exact Hgs|]. split; [exact Hrr|]. split; [exact Htr|].
  split; [exact Hk|]. split; [apply apply_xp_lookup|].
  split; [intros k Hne; now apply apply_xp_lookup_ne|].
  rewrite Forall_forall in *. intros e Hin.
  destruct (grant_for_key gid uid visits e Hin (Hall e Hin))
    as (level_at & role_id & o & -> & Hkey).
  exists level_at, role_id, o. split; [reflexivity|].
  rewrite Hkeys in Hkey.
  rewrite Z.add_0_r, level_of_clamp in Hkey.
  destruct (stored_level gid uid (db w) <? level_of s (stored_xp gid uid (db w)));
    [|inversion Hkey].
  apply select_role_rewards_elem in Hkey. lia.
Qed.

Lemma recalc_scan_event_transport gid s w w' uid0 e :
  roles_kept w w' ->
  (forall k, k <> (gid, uid0) -> user_xp (db w') !! k = user_xp (db w) !! k) ->
  (forall uid l r o, e = EvGrant gid uid l r o -> uid <> uid0) ->
  recalc_scan_event gid s w' e -> recalc_scan_event gid s w e.
Proof.
  intros Hk Hne Hu (uid & l & r & o & -> & Hm & Hl).
  exists uid, l, r, o. split; [reflexivity|].
  assert (uid <> uid0) by (eapply Hu; reflexivity).
  split; [now apply (roles_kept_is_Some w w')|].
  unfold stored_level, stored_xp in *. rewrite Hne in Hl by congruence. exact Hl.
Qed.

(** The member loop, by induction on the rows left. *)
Lemma recalc_members_spec guild s rows :
  let gid := g_id guild in
  forall changed total w,
    guild_settings (db w) !! gid = Some s ->
    NoDup rows.*1.*1 ->
    exists changed' total' visits w',
      recalc_members guild rows changed total w = (Some (changed', total'), w') /\
      guild_settings (db w') = guild_settings (db w) /\
      role_rewards (db w') = role_rewards (db w) /\
      trace w' = trace w ++ visits /\
      roles_kept w w' /\
      (forall uid,
         user_xp (db w') !! (gid, uid)
         = if decide (uid ∈ rows.*1.*1 /\ is_Some (members w !! (gid, uid)))
           then Some (recomputed_row s gid uid (db w))
           else user_xp (db w) !! (gid, uid)) /\
      (forall k, k.1 <> gid -> user_xp (db w') !! k = user_xp (db w) !! k) /\
      Forall (fun e => recalc_scan_event gid s w e /\
                       exists uid l r o, e = EvGrant gid uid l r o /\ uid ∈ rows.*1.*1)
             visits.
Proof.
  intros gid. induction rows as [|[[uid total_xp] old_level] rows IH];
    intros changed total w Hs Hnd.
  - exists changed, total, [], w. cbn [recalc_members]. rewrite app_nil_r.
    repeat split; auto using roles_kept_refl.
  - cbn [recalc_members]. simpl in Hnd. apply NoDup_cons in Hnd as [Hnotin Hnd].
    destruct (members w !! (g_id guild, uid)) as [held|] eqn:Hheld.
    + assert (Hm : is_Some (members w !! (gid, uid))) by (unfold gid; rewrite Hheld; eauto).
      destruct (recalc_member_turn guild s uid w Hs Hm)
        as (nt & nl & visits1 & w1 & Heq & Hgs1 & Hrr1 & Htr1 & Hk1 & Hrow1 & Hoth1 & Hall1).
      fold gid in Heq, Hgs1, Hrow1, Hoth1, Hall1. rewrite Heq.
      destruct (IH (if nl =? old_level then changed else changed + 1)
                   (total + Z.of_nat (length (granted_keys visits1))) w1)
        as (c' & t' & visits2 & w2 & Heq2 & Hgs2 & Hrr2 & Htr2 & Hk2 & Hrow2 & Hoth2 & Hall2);
        [now rewrite Hgs1 | exact Hnd |].
      exists c', t', (visits1 ++ visits2), w2. split; [exact Heq2|].
      split; [now rewrite Hgs2|]. split; [now rewrite Hrr2|].
      split; [now rewrite Htr2, Htr1, app_assoc|].
      split; [eapply roles_kept_trans; eauto|].
      split; [|split].
      * intros uid0. rewrite Hrow2.
        destruct (decide (uid0 = uid)) as [->|Hne].
        -- rewrite decide_False by tauto. rewrite Hrow1.
           rewrite decide_True; [reflexivity|]. split; [simpl; left|exact Hm].
        -- assert (Hiff : (uid0 ∈ rows.*1.*1 /\ is_Some (members w1 !! (gid, uid0)))
                          <-> (uid0 ∈ ((uid, total_xp, old_level) :: rows).*1.*1
                               /\ is_Some (members w !! (gid, uid0)))).
           { rewrite (roles_kept_is_Some w w1) by exact Hk1. simpl.
             rewrite elem_of_cons. tauto. }
           assert (Hrc : recomputed_row s gid uid0 (db w1)
                         = recomputed_row s gid uid0 (db w)).
           { unfold recomputed_row, stored_xp, get_last_message_ts.
             rewrite Hoth1 by congruence. reflexivity. }
           destruct (decide (uid0 ∈ rows.*1.*1 /\ is_Some (members w1 !! (gid, uid0))))
             as [Hd|Hd].
           ++ rewrite decide_True by tauto. now rewrite Hrc.
           ++ rewrite decide_False by tauto. apply Hoth1. congruence.
      * intros k Hk. rewrite Hoth2 by exact Hk. apply Hoth1.
        intros ->. apply Hk. reflexivity.
      * apply Forall_app. split.
        -- eapply Forall_impl; [exact Hall1|]. intros e (l & r & o & -> & Hl).
           split; [exists uid, l, r, o; auto|].
           exists uid, l, r, o. split; [reflexivity|]. simpl. left.
        -- eapply Forall_impl; [exact Hall2|].
           intros e (Hev & u & l & r & o & -> & Hu). split.
           ++ apply (recalc_scan_event_transport gid s w w1 uid); auto.
              intros u' l' r' o' Heq'. injection Heq' as <- _ _ _.
              intros ->. contradiction.
           ++ exists u, l, r, o. split; [reflexivity|]. simpl. now right.
    + destruct (IH changed total w Hs Hnd)
        as (c' & t' & visits2 & w2 & Heq2 & Hgs2 & Hrr2 & Htr2 & Hk2 & Hrow2 & Hoth2 & Hall2).
      exists c', t', visits2, w2. split; [exact Heq2|].
      split; [exact Hgs2|]. split; [exact Hrr2|]. split; [exact Htr2|].
      split; [exact Hk2|]. split; [|split; [exact Hoth2|]].
      * intros uid0. rewrite Hrow2.
        assert (Hiff : (uid0 ∈ rows.*1.*1 /\ is_Some (members w !! (gid, uid0)))
                       <-> (uid0 ∈ ((uid, total_xp, old_level) :: rows).*1.*1
                            /\ is_Some (members w !! (gid, uid0)))).
        { simpl. rewrite elem_of_cons. split; [tauto|].
          intros [[->|H] Hm]; [|tauto].
          fold gid in Hheld. rewrite Hheld in Hm. destruct Hm; discriminate. }
        destruct (decide (uid0 ∈ rows.*1.*1 /\ is_Some (members w !! (gid, uid0)))).
        -- now rewrite decide_True by tauto.
        -- now rewrite decide_False by tauto.
      * eapply Forall_impl; [exact Hall2|].
        intros e (Hev & u & l & r & o & -> & Hu). split; [exact Hev|].
        exists u, l, r, o. split; [reflexivity|]. simpl. now right.
Qed.

(** The loop over the other rows, by induction on the rows left. *)
Lemma recalc_others_spec gid s rows :
  forall changed d,
    NoDup rows.*1.*1 ->
    (forall u t o, (u, t, o) ∈ rows ->
       exists row, user_xp d !! (gid, u) = Some row /\ xp row = t /\ level row = o) ->
    let d' := (recalc_others gid s rows changed d).2 in
    guild_settings d' = guild_settings d /\
    role_rewards d' = role_rewards d /\
    (forall uid,
       user_xp d' !! (gid, uid)
       = if decide (uid ∈ rows.*1.*1)
         then relevelled s <$> user_xp d !! (gid, uid)
         else user_xp d !! (gid, uid)) /\
    (forall k, k.1 <> gid -> user_xp d' !! k = user_xp d !! k).
Proof.
  induction rows as [|[[uid total_xp] old_level] rows IH]; intros changed d Hnd Hrows.
  - cbn [recalc_others snd]. repeat split; auto.
  - simpl in Hnd. apply NoDup_cons in Hnd as [Hnotin Hnd].
    destruct (Hrows uid total_xp old_level) as (row & Hrow & Hxp & Hlvl); [left|].
    cbn [recalc_others]. fold (level_of s total_xp).
    set (d1 := if level_of s total_xp =? old_level then d
               else update_level gid uid (level_of s total_xp) d).
    assert (Hd1 : user_xp d1 !! (gid, uid) = Some (relevelled s row) /\
                  (forall k, k <> (gid, uid) -> user_xp d1 !! k = user_xp d !! k) /\
                  guild_settings d1 = guild_settings d /\
                  role_rewards d1 = role_rewards d).
    { unfold d1. destruct (Z.eqb_spec (level_of s total_xp) old_level) as [Heq|Hne].
      - split; [|auto]. rewrite Hrow. f_equal. unfold relevelled.
        rewrite Hxp, Heq, <- Hlvl, <- Hxp. now destruct row.
      - split; [|split; [|auto]].
        + simpl. rewrite lookup_alter_eq, Hrow. simpl. unfold relevelled.
          now rewrite Hxp.
        + intros k Hk. simpl. now rewrite lookup_alter_ne by congruence. }
    destruct Hd1 as (Hd1row & Hd1oth & Hd1gs & Hd1rr).
    assert (Hrec : recalc_others gid s ((uid, total_xp, old_level) :: rows) changed d
                   = recalc_others gid s rows
                       (if level_of s total_xp =? old_level then changed else changed + 1)
                       d1).
    { cbn [recalc_others]. fold (level_of s total_xp). unfold d1.
      destruct (level_of s total_xp =? old_level); reflexivity. }
    cbn [recalc_others] in Hrec. fold (level_of s total_xp) in Hrec. rewrite Hrec.
    destruct (IH (if level_of s total_xp =? old_level then changed else changed + 1) d1 Hnd)
      as (Hgs & Hrr & Hlook & Hoth).
    { intros u t o Hin. destruct (Hrows u t o) as (row' & Hrow' & Hx & Hl); [now right|].
      exists row'. rewrite Hd1oth; [auto|].
      intros Heq. injection Heq as ->. apply Hnotin.
      apply list_elem_of_fmap. exists (uid, t). split; [reflexivity|].
      apply list_elem_of_fmap. exists (uid, t, o). auto. }
    split; [now rewrite Hgs|]. split; [now rewrite Hrr|]. split.
    + intros uid0. rewrite Hlook. destruct (decide (uid0 = uid)) as [->|Hne].
      * rewrite decide_False by exact Hnotin.
        rewrite decide_True by (simpl; left). now rewrite Hd1row, Hrow.
      * rewrite Hd1oth by congruence.
        destruct (decide (uid0 ∈ rows.*1.*1)).
        -- rewrite decide_True by (simpl; now right). reflexivity.
        -- rewrite decide_False; [reflexivity|]. simpl. rewrite elem_of_cons. tauto.
    + intros k Hk. rewrite Hoth by exact Hk. apply Hd1oth. intros ->. now apply Hk.
Qed.

Lemma elem_of_filter_uids (P : Z -> Prop) `{forall u, Decision (P u)}
    (rows : list (Z * Z * Z)) (uid : Z) :
  uid ∈ (filter (fun r => P r.1.1) rows).*1.*1 <-> uid ∈ rows.*1.*1 /\ P uid.
Proof.
  split.
  - intros Hin. apply list_elem_of_fmap in Hin as ([u t] & -> & Hin).
    apply list_elem_of_fmap in Hin as ([[u' t'] o] & Heq & Hin).
    simpl in Heq. injection Heq as <- <-.
    apply list_elem_of_filter in Hin as [HP Hin]. simpl in *. split; [|exact HP].
    apply list_elem_of_fmap. exists (u, t). split; [reflexivity|].
    apply list_elem_of_fmap. exists (u, t, o). auto.
  - intros [Hin HP]. apply list_elem_of_fmap in Hin as ([u t] & -> & Hin).
    apply list_elem_of_fmap in Hin as ([[u' t'] o] & Heq & Hin).
    simpl in Heq. injection Heq as <- <-. simpl in HP.
    apply list_elem_of_fmap. exists (u, t). split; [reflexivity|].
    apply list_elem_of_fmap. exists (u, t, o). split; [reflexivity|].
    apply list_elem_of_filter. auto.
Qed.

Lemma NoDup_filter_uids (P : Z * Z * Z -> Prop) `{forall r, Decision (P r)}
    (rows : list (Z * Z * Z)) :
  NoDup rows.*1.*1 -> NoDup (filter P rows).*1.*1.
Proof.
  intros Hnd. eapply sublist_NoDup; [exact Hnd|].
  apply fmap_sublist, fmap_sublist, sublist_filter.
Qed.

Lemma elem_of_uids (rows : list (Z * Z * Z)) (uid : Z) :
  uid ∈ rows.*1.*1 <-> exists t o, (uid, t, o) ∈ rows.
Proof.
  split.
  - intros Hin. apply list_elem_of_fmap in Hin as ([u t] & -> & Hin).
    apply list_elem_of_fmap in Hin as ([[u' t'] o] & Heq & Hin).
    simpl in Heq. injection Heq as <- <-. eauto.
  - intros (t & o & Hin). apply list_elem_of_fmap. exists (uid, t).
    split; [reflexivity|]. apply list_elem_of_fmap. exists (uid, t, o). auto.
Qed.

Lemma xp_nonneg_lookup gid d uid row :
  xp_nonneg gid d = true -> user_xp d !! (gid, uid) = Some row -> 0 <= xp row.
Proof.
  intros H Hrow. unfold xp_nonneg in H. rewrite forallb_forall in H.
  specialize (H (uid, xp row, level row)). apply Z.leb_le, H.
  apply list_elem_of_In, elem_of_select_user_rows. eauto.
Qed.

(** C9: in a guild whose stored XP are non-negative (as every write of
    the cog leaves them), after [cfg_recalc] every stored subject of the
    guild has the XP and the timestamp it had, and its level is [level_from_total_xp] of
    that XP under the guild's current curve (lower than before where the
    curve asks for it); the rows of other guilds are as before; every
    reward-loop event of the run concerns a cached member and a level
    strictly above that member's old level and at most the recomputed
    one; and no cached member loses a role. *)
Theorem recalc_levels guild w :
  let gid := g_id guild in
  let s := (get_settings gid (db w)).1 in
  xp_nonneg gid (db w) = true ->
  exists changed awarded_roles_total visits w',
    cfg_recalc guild w = (Some (changed, awarded_roles_total), w') /\
    (forall uid,
       user_xp (db w') !! (gid, uid) = relevelled s <$> user_xp (db w) !! (gid, uid)) /\
    (forall k, k.1 <> gid -> user_xp (db w') !! k = user_xp (db w) !! k) /\
    trace w' = trace w ++ visits /\
    Forall (recalc_scan_event gid s w) visits /\
    roles_kept w w'.
Proof.
  intros gid s Hnn.
  assert (Hxp : forall uid row, user_xp (db w) !! (gid, uid) = Some row -> 0 <= xp row)
    by (intros uid row; now apply xp_nonneg_lookup).
  destruct (get_settings_tables gid (db w)) as (Hux & _).
  unfold cfg_recalc. rewrite get_settings_w_eq. fold gid s.
  set (w1 := with_db (fun d => (get_settings gid d).2) w).
  set (rows := select_user_rows gid (db w1)).
  set (is_member := fun uid : Z => is_Some (members w !! (gid, uid))).
  assert (Hrows : forall u t o, (u, t, o) ∈ rows <->
            exists row, user_xp (db w) !! (gid, u) = Some row /\ xp row = t /\ level row = o).
  { intros u t o. unfold rows. rewrite elem_of_select_user_rows. simpl.
    now rewrite Hux. }
  assert (Hnd : NoDup rows.*1.*1) by apply NoDup_select_user_rows.
  set (member_rows := filter _ rows). set (other_rows := filter _ rows).
  assert (Hmem : forall uid, uid ∈ member_rows.*1.*1 <-> uid ∈ rows.*1.*1 /\ is_member uid).
  { intros uid. unfold member_rows.
    rewrite <- (elem_of_filter_uids is_member rows uid).
    assert (Hf : filter (fun r : Z * Z * Z => bool_decide (is_Some (members w1 !! (gid, r.1.1))) = true) rows
                 = filter (fun r : Z * Z * Z => is_member r.1.1) rows).
    { apply list_filter_iff. intros r. unfold is_member. simpl.
      rewrite bool_decide_eq_true. reflexivity. }
    now rewrite Hf. }
  assert (Hoth : forall uid, uid ∈ other_rows.*1.*1 <-> uid ∈ rows.*1.*1 /\ ~ is_member uid).
  { intros uid. unfold other_rows.
    rewrite <- (elem_of_filter_uids (fun u => ~ is_member u) rows uid).
    assert (Hf : filter (fun r : Z * Z * Z => bool_decide (is_Some (members w1 !! (gid, r.1.1))) = false) rows
                 = filter (fun r : Z * Z * Z => ~ is_member r.1.1) rows).
    { apply list_filter_iff. intros r. unfold is_member. simpl.
      rewrite bool_decide_eq_false. reflexivity. }
    now rewrite Hf. }
  destruct (recalc_members_spec guild s member_rows 0 0 w1)
    as (c1 & t1 & visits & w2 & Heq & Hgs2 & Hrr2 & Htr2 & Hk2 & Hrow2 & Hoth2 & Hall2).
  { apply get_settings_stored. }
  { now apply NoDup_filter_uids. }
  fold gid in Heq, Hrow2, Hoth2, Hall2. rewrite Heq.
  pose proof (recalc_others_spec gid s other_rows c1 (db w2)) as Hothers.
  destruct (recalc_others gid s other_rows c1 (db w2)) as [c2 d3] eqn:Eo.
  cbn [snd] in Hothers.
  destruct Hothers as (_ & _ & Hlook3 & Hoth3).
  { now apply NoDup_filter_uids. }
  { intros u t o Hin. apply list_elem_of_filter in Hin as [Hnm Hin].
    apply Hrows in Hin as (row & Hrow & Hx & Hl). exists row.
    rewrite Hrow2. rewrite decide_False.
    - simpl. rewrite Hux. auto.
    - intros [_ Hm]. simpl in Hnm. apply bool_decide_eq_false in Hnm. simpl in Hnm.
      contradiction. }
  exists c2, t1, visits, (with_db (fun _ => d3) w2).
  split; [reflexivity|]. split; [|split; [|split; [|split]]].
  - intros uid. cbn [db with_db]. rewrite Hlook3, Hrow2.
    destruct (user_xp (db w) !! (gid, uid)) as [row|] eqn:Hrow.
    + assert (Hin : uid ∈ rows.*1.*1).
      { apply elem_of_uids. exists (xp row), (level row). apply Hrows. eauto. }
      destruct (decide (is_member uid)) as [Hm|Hm].
      * rewrite decide_False by (rewrite Hoth; tauto).
        rewrite decide_True by (rewrite Hmem; auto).
        simpl. f_equal. unfold recomputed_row, relevelled, stored_xp, get_last_message_ts.
        simpl. rewrite Hux, Hrow. specialize (Hxp uid row Hrow).
        replace (Z.max 0 (xp row + 0)) with (xp row) by lia. reflexivity.
      * rewrite decide_True by (rewrite Hoth; tauto).
        rewrite decide_False by (rewrite Hmem; tauto).
        simpl. now rewrite Hux, Hrow.
    + assert (Hnin : uid ∉ rows.*1.*1).
      { rewrite elem_of_uids. intros (t & o & Hin). apply Hrows in Hin as (row & Hr & _).
        congruence. }
      rewrite decide_False by (rewrite Hoth; tauto).
      rewrite decide_False by (rewrite Hmem; tauto).
      simpl. now rewrite Hux, Hrow.
  - intros k Hk. cbn [db with_db]. rewrite Hoth3, Hoth2 by exact Hk.
    simpl. now rewrite Hux.
  - exact Htr2.
  - eapply Forall_impl; [exact Hall2|]. intros e ((u & l & r & o & -> & Hm & Hl) & _).
    exists u, l, r, o. split; [reflexivity|]. split; [exact Hm|].
    unfold stored_level, stored_xp in *. simpl in Hl. now rewrite Hux in Hl.
  - intros k. specialize (Hk2 k). exact Hk2.
Qed.

Lemma recalc_levels_witness :
  xp_nonneg 1 (db recalc_world) = true /\
  exists changed awarded_roles_total visits w',
    cfg_recalc demo_guild recalc_world = (Some (changed, awarded_roles_total), w') /\
    (forall uid,
       user_xp (db w') !! (1, uid)
       = relevelled DEFAULT_SETTINGS <$> user_xp (db recalc_world) !! (1, uid)) /\
    (forall k, k.1 <> 1 -> user_xp (db w') !! k = user_xp (db recalc_world) !! k) /\
    trace w' = trace recalc_world ++ visits /\
    Forall (recalc_scan_event 1 DEFAULT_SETTINGS recalc_world) visits /\
    roles_kept recalc_world w'.
Proof.
  assert (H : xp_nonneg (g_id demo_guild) (db recalc_world) = true)
    by (vm_compute; reflexivity).
  split; [exact H|]. exact (recalc_levels demo_guild recalc_world H).
Defined.

(** A run of the recalculation: subject 5 goes down from 6 to 3 and keeps
    role 40, subject 6 goes up from 3 to 6 and is scanned for the rewards
    of levels 4, 5 and 6, subject 7 only gets its level rewritten. *)
Example recalc_scenario :
  let r := cfg_recalc demo_guild recalc_world in
  r.1 = Some (3, 2) /\
  user_xp (db r.2) !! (1, 5) = Some {| xp := 1050; level := 3; last_message_ts := 11 |} /\
  user_xp (db r.2) !! (1, 6) = Some {| xp := 3900; level := 6; last_message_ts := 12 |} /\
  user_xp (db r.2) !! (1, 7) = Some {| xp := 150; level := 1; last_message_ts := 13 |} /\
  trace r.2 = [EvGrant 1 6 4 40 Granted; EvGrant 1 6 5 50 GrantForbidden;
               EvGrant 1 6 6 60 Granted] /\
  members r.2 !! (1, 5) = Some {[ 40 ]}.
Proof. vm_compute. repeat split. Qed.

(** * Further properties *)

(** ** [round] on equal and on whole numbers *)

Lemma round_Qeq (x y : Q) : (x == y)%Q -> Py.round x = Py.round y.
Proof.
  intros Heq.
  assert (Py.round x <= Py.round y) by (apply round_mono; rewrite Heq; apply Qle_refl).
  assert (Py.round y <= Py.round x) by (apply round_mono; rewrite Heq; apply Qle_refl).
  lia.
Qed.

Lemma round_inject_Z (n : Z) : Py.round (inject_Z n) = n.
Proof.
  pose proof (round_bounds (inject_Z n)) as [Hu Hl].
  assert (Hu' : (inject_Z (Py.round (inject_Z n)) < inject_Z (n + 1))%Q).
  { rewrite inject_Z_plus. eapply Qle_lt_trans; [exact Hu|]. apply Qplus_lt_r. reflexivity. }
  assert (Hl' : (inject_Z (n - 1) < inject_Z (Py.round (inject_Z n)))%Q).
  { eapply Qlt_le_trans; [|exact Hl]. unfold Z.sub. rewrite inject_Z_plus.
    apply Qplus_lt_r. reflexivity. }
  rewrite <- Zlt_Qlt in Hu', Hl'. lia.
Qed.

(** ** The level search on any curve *)

Section Search.
Variable req : Z -> Z.
Variable total : Z.

Lemma ramp_upper (fuel k : nat) :
  (k <= 13)%nat -> 1 <= ramp fuel req total (2 ^ Z.of_nat k) <= 16384.
Proof.
  revert k. induction fuel as [|fuel IH]; intros k Hk.
  - cbn [ramp]. split; [apply (Z.pow_le_mono_r 2 0); lia|].
    transitivity (2 ^ 13); [apply Z.pow_le_mono_r; lia | now vm_compute].
  - assert (Hp : 1 <= 2 ^ Z.of_nat k <= 2 ^ 13).
    { split; [apply (Z.pow_le_mono_r 2 0); lia | apply Z.pow_le_mono_r; lia]. }
    change (2 ^ 13) with 8192 in Hp.
    cbn [ramp]. destruct (req (2 ^ Z.of_nat k) <=? total); [|lia].
    destruct (Z.gtb_spec (2 ^ Z.of_nat k * 2) 10000); [lia|].
    replace (2 ^ Z.of_nat k * 2) with (2 ^ Z.of_nat (S k)) in *
      by (rewrite Nat2Z.inj_succ, Z.pow_succ_r; lia).
    apply IH. destruct (Nat.eq_dec k 13%nat) as [->|]; [|lia].
    change (2 ^ Z.of_nat 14) with 16384 in *. lia.
Qed.

Lemma ramp_exit (fuel k : nat) :
  (k <= 13)%nat -> (14 <= k + fuel)%nat ->
  let hi := ramp fuel req total (2 ^ Z.of_nat k) in
  hi = 16384 \/ total < req hi.
Proof.
  revert k. induction fuel as [|fuel IH]; intros k Hk Hf; [lia|].
  assert (Hp : 1 <= 2 ^ Z.of_nat k <= 2 ^ 13).
  { split; [apply (Z.pow_le_mono_r 2 0); lia | apply Z.pow_le_mono_r; lia]. }
  change (2 ^ 13) with 8192 in Hp.
  cbn [ramp]. destruct (Z.leb_spec (req (2 ^ Z.of_nat k)) total); [|now right].
  replace (2 ^ Z.of_nat k * 2) with (2 ^ Z.of_nat (S k))
    by (rewrite Nat2Z.inj_succ, Z.pow_succ_r; lia).
  destruct (Nat.eq_dec k 13%nat) as [->|Hne].
  - change (2 ^ Z.of_nat 14) with 16384. now left.
  - assert (2 ^ Z.of_nat (S k) <= 2 ^ 13) by (apply Z.pow_le_mono_r; lia).
    change (2 ^ 13) with 8192 in *.
    destruct (Z.gtb_spec (2 ^ Z.of_nat (S k)) 10000); [lia|].
    apply IH; lia.
Qed.

Lemma bsearch_within (fuel : nat) (lo hi : Z) :
  req lo <= total -> req (bsearch fuel req total lo hi) <= total.
Proof.
  revert lo hi. induction fuel as [|fuel IH]; intros lo hi Hlo; cbn [bsearch]; [exact Hlo|].
  destruct (lo <? hi); [|exact Hlo].
  destruct (Z.leb_spec (req ((lo + hi + 1) / 2)) total); now apply IH.
Qed.

Hypothesis req_mono : forall i j, 0 <= i -> i <= j -> req i <= req j.

Lemma bsearch_last (fuel : nat) (lo hi top : Z) :
  0 <= lo -> lo <= hi -> hi - lo <= Z.of_nat fuel ->
  (forall j, hi < j -> j <= top -> total < req j) ->
  forall j, bsearch fuel req total lo hi < j -> j <= top -> total < req j.
Proof.
  revert lo hi. induction fuel as [|fuel IH]; intros lo hi H0 Hle Hf Hab j Hj Htop.
  - cbn [bsearch] in Hj. apply Hab; lia.
  - cbn [bsearch] in Hj. destruct (Z.ltb_spec lo hi); [|apply Hab; lia].
    assert (lo < (lo + hi + 1) / 2 <= hi) by (split; Z.div_mod_to_equations; lia).
    destruct (Z.leb_spec (req ((lo + hi + 1) / 2)) total) as [Hc|Hc].
    + apply (IH ((lo + hi + 1) / 2) hi); auto; lia.
    + apply (IH lo ((lo + hi + 1) / 2 - 1)); auto; try lia.
      intros j' Hj' Htop'. destruct (Z_le_gt_dec j' hi).
      * pose proof (req_mono ((lo + hi + 1) / 2) j'). lia.
      * apply Hab; lia.
Qed.
Lemma search_next :
  req 0 <= total ->
  let hi := ramp ramp_fuel req total 1 in
  let r := bsearch (Z.to_nat hi) req total 0 hi in
  r < 16384 -> total < req (r + 1).
Proof.
  intros H0 hi r Hr16.
  pose proof (ramp_upper ramp_fuel 0) as Hhi.
  pose proof (ramp_exit ramp_fuel 0) as Hex.
  change (2 ^ Z.of_nat 0) with 1 in Hhi, Hex. cbv zeta in Hex. fold hi in Hhi, Hex.
  pose proof (bsearch_within (Z.to_nat hi) 0 hi H0) as Hin.
  pose proof (bsearch_range req total (Z.to_nat hi) 0 hi) as Hr.
  fold r in Hin, Hr.
  destruct (Z.eq_dec r hi) as [Heq|Hne].
  - destruct Hex as [Hcap|Hlt]; [unfold ramp_fuel; lia.. | lia | ].
    rewrite <- Heq in Hlt. lia.
  - apply (bsearch_last (Z.to_nat hi) 0 hi hi); lia.
Qed.
End Search.

Lemma xp_required_mono curve base a b i j :
  (curve_of curve = Quadratic -> 0 <= base /\ 0 <= 3 * base + a) ->
  0 <= i -> i <= j ->
  xp_required_for_level curve base a b i <= xp_required_for_level curve base a b j.
Proof.
  intros Hq Hi Hij. replace j with (i + Z.of_nat (Z.to_nat (j - i))) by lia.
  induction (Z.to_nat (j - i)) as [|n IH]; [rewrite Z.add_0_r; lia|].
  etransitivity; [exact IH|].
  replace (i + Z.of_nat (S n)) with (i + Z.of_nat n + 1) by lia.
  apply xp_required_step; [lia | exact Hq].
Qed.

(** ** The levels the search consults *)

Section Consulted.
Variables req req' : Z -> Z.
Variable total : Z.
Variable m : nat.
Hypothesis agree : forall l, 0 <= l <= 2 ^ Z.of_nat m -> req' l = req l.
Hypothesis beyond : total < req (2 ^ Z.of_nat m).

Lemma ramp_consulted (fuel k : nat) :
  (k <= m)%nat ->
  ramp fuel req' total (2 ^ Z.of_nat k) = ramp fuel req total (2 ^ Z.of_nat k) /\
  ramp fuel req total (2 ^ Z.of_nat k) <= 2 ^ Z.of_nat m.
Proof.
  revert k. induction fuel as [|fuel IH]; intros k Hk.
  - cbn [ramp]. split; [reflexivity|]. apply Z.pow_le_mono_r; lia.
  - assert (Hpow : 0 < 2 ^ Z.of_nat k <= 2 ^ Z.of_nat m).
    { split; [apply Z.pow_pos_nonneg; lia | apply Z.pow_le_mono_r; lia]. }
    cbn [ramp]. rewrite agree by lia.
    destruct (Z.leb_spec (req (2 ^ Z.of_nat k)) total) as [Hle|Hgt];
      [|split; [reflexivity|lia]].
    assert (Hkm : (k < m)%nat).
    { destruct (Nat.eq_dec k m) as [->|]; lia. }
    replace (2 ^ Z.of_nat k * 2) with (2 ^ Z.of_nat (S k))
      by (rewrite Nat2Z.inj_succ, Z.pow_succ_r; lia).
    assert (Hnext : 2 ^ Z.of_nat (S k) <= 2 ^ Z.of_nat m) by (apply Z.pow_le_mono_r; lia).
    destruct (2 ^ Z.of_nat (S k) >? 10000); [split; [reflexivity | exact Hnext]|].
    apply IH. lia.
Qed.

Lemma bsearch_consulted (fuel : nat) (lo hi : Z) :
  0 <= lo -> hi <= 2 ^ Z.of_nat m ->
  bsearch fuel req' total lo hi = bsearch fuel req total lo hi.
Proof.
  revert lo hi. induction fuel as [|fuel IH]; intros lo hi Hlo Hhi; [reflexivity|].
  cbn [bsearch]. destruct (Z.ltb_spec lo hi) as [Hlt|]; [|reflexivity].
  assert (lo < (lo + hi + 1) / 2 <= hi) by (split; Z.div_mod_to_equations; lia).
  rewrite agree by lia.
  destruct (req ((lo + hi + 1) / 2) <=? total); apply IH; lia.
Qed.

Lemma level_search_consulted :
  level_search req' total = level_search req total /\
  level_search req total <= 2 ^ Z.of_nat m.
Proof.
  unfold level_search.
  destruct (ramp_consulted ramp_fuel 0 ltac:(lia)) as [Heq Hle].
  change (2 ^ Z.of_nat 0) with 1 in Heq, Hle. rewrite Heq.
  set (hi := ramp ramp_fuel req total 1) in *.
  pose proof (ramp_lower req total ramp_fuel 1 ltac:(lia)) as Hlow. fold hi in Hlow.
  split; [apply bsearch_consulted; lia|].
  pose proof (bsearch_range req total (Z.to_nat hi) 0 hi ltac:(lia)). lia.
Qed.
End Consulted.

Lemma exp_factor_512 : ((115 # 100) ^ 512 <= inject_Z (2 ^ 110))%Q.
Proof. apply Qle_bool_iff. vm_compute. reflexivity. Qed.

Lemma exp_factor_320 : (inject_Z (2 ^ 63) + 1 <= (115 # 100) ^ 320)%Q.
Proof. apply Qle_bool_iff. vm_compute. reflexivity. Qed.

(** Within the range of [cfg_setcurve], the thresholds of the levels up
    to 512 are far from the float limit. *)
Lemma xp_required_raises_low curve base l :
  -1000000 <= base <= 1000000 -> l <= 512 ->
  xp_required_raises curve base l = false.
Proof.
  intros Hb Hl. unfold xp_required_raises. destruct (curve_of curve); try reflexivity.
  destruct (Z.ltb_spec 0 l) as [Hl0|_]; [|reflexivity]. cbn [andb].
  destruct (Z.leb_spec 5079 l); [lia|].
  destruct (Z.leb_spec FLOAT_LIMIT (Z.abs base)) as [Hbig|_].
  { exfalso. assert (1000000 < FLOAT_LIMIT) by reflexivity. lia. }
  cbn [orb].
  destruct (Qle_bool _ (inject_Z base * ((115 # 100) ^ l - 1))) eqn:E; [|reflexivity].
  exfalso. apply Qle_bool_iff in E.
  pose proof (exp_factor_mono_le l 512 ltac:(lia) Hl) as Hm.
  pose proof exp_factor_512 as H512.
  pose proof (exp_factor_ge_1 l ltac:(lia)) as Hge1.
  assert (Hp : ((115 # 100) ^ l <= inject_Z (2 ^ 110))%Q)
    by exact (Qle_trans _ _ _ Hm H512).
  assert (Hbq : (inject_Z base <= inject_Z 1000000)%Q) by (rewrite <- Zle_Qle; lia).
  assert (Hp0 : (0 <= (115 # 100) ^ l - 1)%Q) by (clear - Hge1; lra).
  assert (Hp1 : ((115 # 100) ^ l - 1 <= inject_Z (2 ^ 110))%Q).
  { apply (Qle_trans _ ((115 # 100) ^ l)); [|exact Hp].
    clear. set (p := ((115 # 100) ^ l)%Q). lra. }
  assert (Hprod : (inject_Z base * ((115 # 100) ^ l - 1)
                   <= inject_Z 1000000 * inject_Z (2 ^ 110))%Q).
  { apply (Qle_trans _ (inject_Z 1000000 * ((115 # 100) ^ l - 1))).
    - apply Qmult_le_compat_r; [exact Hbq | exact Hp0].
    - apply Qmult_le_l; [reflexivity | exact Hp1]. }
  assert (Hlt : (inject_Z 1000000 * inject_Z (2 ^ 110) < inject_Z FLOAT_LIMIT)%Q)
    by reflexivity.
  eapply Qle_not_lt; [exact E|]. exact (Qle_lt_trans _ _ _ Hprod Hlt).
Qed.

(** On the exponential curve with a base of at least 1, level 512 is out
    of the reach of any XP that fits a 64-bit integer. *)
Lemma exp_threshold_512 curve base a b total :
  curve_of curve = Exponential -> 1 <= base -> total < 2 ^ 63 ->
  total < xp_required_for_level curve base a b 512.
Proof.
  intros Hc Hb Ht. unfold xp_required_for_level. rewrite Hc.
  change (Z.max 0 512 =? 0) with false. cbv iota. change (Z.max 0 512) with 512.
  pose proof (exp_factor_mono_le 320 512 ltac:(lia) ltac:(lia)) as Hm.
  pose proof exp_factor_320 as H320.
  assert (Hb' : (1 <= inject_Z base)%Q)
    by (change 1%Q with (inject_Z 1); rewrite <- Zle_Qle; lia).
  assert (Hc0 : (0 <= inject_Z (2 ^ 63))%Q) by discriminate.
  set (p := ((115 # 100) ^ 512)%Q) in *. set (q := ((115 # 100) ^ 320)%Q) in *.
  clearbody p q.
  remember (inject_Z (2 ^ 63)) as c eqn:Ec. remember (inject_Z base) as bq eqn:Eb.
  assert (Hx : (c <= bq * (p - 1))%Q) by (clear - Hm H320 Hb' Hc0; nra).
  assert (H0 : (0 <= bq * (p - 1))%Q) by (clear - Hx Hc0; lra).
  apply Qle_bool_iff in H0. rewrite H0.
  pose proof (round_mono _ _ Hx) as Hr. subst c. rewrite round_inject_Z in Hr.
  clear - Hr Ht. lia.
Qed.

(** X1: wherever the code's search returns, that is for any parameters
    and any total on the linear and the quadratic curve, and on the
    exponential curve for a base in 1..1000000 and a total below 2^63,
    the level found lies in 0..16384 and its threshold is within the XP.
    On the exponential curve in that range the level is at most 512, the
    search consults no threshold beyond level 512 and those it consults
    are computed without overflow. *)
Theorem level_within_reach curve base a b total :
  (curve_of curve = Exponential -> 1 <= base <= 1000000 /\ total < 2 ^ 63) ->
  let req := xp_required_for_level curve base a b in
  let L := level_from_total_xp curve base a b total in
  0 <= L <= 16384 /\ req L <= Z.max 0 total /\
  (curve_of curve = Exponential ->
   L <= 512 /\
   (forall l, l <= 512 -> xp_required_raises curve base l = false) /\
   forall req', (forall l, 0 <= l <= 512 -> req' l = req l) ->
                level_search req' (Z.max 0 total) = L).
Proof.
  intros Hexp req L.
  assert (HL : L = level_search req (Z.max 0 total)) by reflexivity.
  split; [|split].
  - rewrite HL. unfold level_search.
    pose proof (ramp_upper req (Z.max 0 total) ramp_fuel 0) as Hhi.
    change (2 ^ Z.of_nat 0) with 1 in Hhi.
    set (hi := ramp ramp_fuel req (Z.max 0 total) 1) in *.
    pose proof (bsearch_range req (Z.max 0 total) (Z.to_nat hi) 0 hi). lia.
  - rewrite HL. unfold level_search. apply bsearch_within. unfold req.
    rewrite xp_required_low by lia. lia.
  - intros Hc. destruct (Hexp Hc) as [Hb Ht].
    assert (Hbeyond : Z.max 0 total < req (2 ^ Z.of_nat 9)).
    { change (2 ^ Z.of_nat 9) with 512. apply exp_threshold_512; [exact Hc | lia |].
      assert (0 < 2 ^ 63) by reflexivity. lia. }
    split; [|split].
    + destruct (level_search_consulted req req (Z.max 0 total) 9 (fun _ _ => eq_refl) Hbeyond)
        as [_ Hle].
      change (2 ^ Z.of_nat 9) with 512 in Hle. rewrite HL. exact Hle.
    + intros l Hl. apply xp_required_raises_low; lia.
    + intros req' Hagree. rewrite HL.
      now destruct (level_search_consulted req req' (Z.max 0 total) 9 Hagree Hbeyond).
Qed.

Lemma level_within_reach_witness :
  (curve_of "exponential" = Exponential -> 1 <= 100 <= 1000000 /\ 150 < 2 ^ 63) /\
  0 <= level_from_total_xp "exponential" 100 50 0 150 <= 16384 /\
  xp_required_for_level "exponential" 100 50 0
    (level_from_total_xp "exponential" 100 50 0 150) <= Z.max 0 150.
Proof.
  assert (H : curve_of "exponential" = Exponential -> 1 <= 100 <= 1000000 /\ 150 < 2 ^ 63)
    by (intros _; split; [lia | reflexivity]).
  split; [exact H|].
  pose proof (level_within_reach "exponential" 100 50 0 150 H) as (H1 & H2 & _).
  split; [exact H1 | exact H2].
Defined.

(** X2: on a curve that does not decrease, and within the range of X1
    on the exponential curve, the level found is the greatest one within
    the XP, as long as it is below the cap of 16384: every higher level
    whose threshold the code computes without overflow needs strictly
    more XP than the total. *)
Theorem level_is_greatest curve base a b total :
  (curve_of curve = Quadratic -> 0 <= base /\ 0 <= 3 * base + a) ->
  (curve_of curve = Exponential -> 1 <= base <= 1000000 /\ total < 2 ^ 63) ->
  let L := level_from_total_xp curve base a b total in
  L < 16384 ->
  forall j, L < j -> xp_required_raises curve base j = false ->
            Z.max 0 total < xp_required_for_level curve base a b j.
Proof.
  intros Hq _ L HL j Hj _. unfold L, level_from_total_xp in *.
  set (req := xp_required_for_level curve base a b) in *.
  assert (Hmono : forall i k, 0 <= i -> i <= k -> req i <= req k)
    by (intros i k; now apply xp_required_mono).
  assert (H0 : req 0 <= Z.max 0 total)
    by (unfold req; rewrite xp_required_low by lia; lia).
  pose proof (search_next req (Z.max 0 total) Hmono H0 HL) as Hnext.
  pose proof (bsearch_range req (Z.max 0 total)
                (Z.to_nat (ramp ramp_fuel req (Z.max 0 total) 1)) 0
                (ramp ramp_fuel req (Z.max 0 total) 1)) as Hr.
  pose proof (ramp_lower req (Z.max 0 total) ramp_fuel 1) as Hlow.
  match type of Hnext with _ < req (?r + 1) => pose proof (Hmono (r + 1) j) end.
  lia.
Qed.

Lemma level_is_greatest_witness :
  (curve_of "exponential" = Quadratic -> 0 <= 100 /\ 0 <= 3 * 100 + 50) /\
  (curve_of "exponential" = Exponential -> 1 <= 100 <= 1000000 /\ 150 < 2 ^ 63) /\
  level_from_total_xp "exponential" 100 50 0 150 < 16384 /\
  level_from_total_xp "exponential" 100 50 0 150 < 7 /\
  xp_required_raises "exponential" 100 7 = false /\
  Z.max 0 150 < xp_required_for_level "exponential" 100 50 0 7.
Proof.
  assert (Hq : curve_of "exponential" = Quadratic -> 0 <= 100 /\ 0 <= 3 * 100 + 50)
    by (intros _; lia).
  assert (He : curve_of "exponential" = Exponential
               -> 1 <= 100 <= 1000000 /\ 150 < 2 ^ 63)
    by (intros _; split; [lia | reflexivity]).
  assert (H1 : level_from_total_xp "exponential" 100 50 0 150 < 16384)
    by (vm_compute; reflexivity).
  assert (H2 : level_from_total_xp "exponential" 100 50 0 150 < 7)
    by (vm_compute; reflexivity).
  assert (H3 : xp_required_raises "exponential" 100 7 = false)
    by (vm_compute; reflexivity).
  split; [exact Hq|]. split; [exact He|]. split; [exact H1|]. split; [exact H2|].
  split; [exact H3|].
  exact (level_is_greatest "exponential" 100 50 0 150 Hq He H1 7 H2 H3).
Defined.

(** X3: on a curve that does not decrease, more XP never gives a lower
    level. *)
Theorem level_monotone_in_xp curve base a b t1 t2 :
  (curve_of curve = Quadratic -> 0 <= base /\ 0 <= 3 * base + a) ->
  t1 <= t2 ->
  level_from_total_xp curve base a b t1 <= level_from_total_xp curve base a b t2.
Proof.
  intros Hq Ht. unfold level_from_total_xp.
  set (req := xp_required_for_level curve base a b) in *.
  assert (Hmono : forall i k, 0 <= i -> i <= k -> req i <= req k)
    by (intros i k; now apply xp_required_mono).
  assert (H0 : forall t, req 0 <= Z.max 0 t)
    by (intros t; unfold req; rewrite xp_required_low by lia; lia).
  set (h1 := ramp ramp_fuel req (Z.max 0 t1) 1).
  set (h2 := ramp ramp_fuel req (Z.max 0 t2) 1).
  pose proof (ramp_upper req (Z.max 0 t1) ramp_fuel 0) as Hh1.
  pose proof (ramp_upper req (Z.max 0 t2) ramp_fuel 0) as Hh2.
  change (2 ^ Z.of_nat 0) with 1 in Hh1, Hh2. fold h1 in Hh1. fold h2 in Hh2.
  pose proof (bsearch_range req (Z.max 0 t1) (Z.to_nat h1) 0 h1) as Hr1.
  pose proof (bsearch_range req (Z.max 0 t2) (Z.to_nat h2) 0 h2) as Hr2.
  pose proof (bsearch_within req (Z.max 0 t1) (Z.to_nat h1) 0 h1 (H0 t1)) as Hin1.
  pose proof (search_next req (Z.max 0 t2) Hmono (H0 t2)) as Hnext. cbv zeta in Hnext.
  fold h2 in Hnext.
  set (r1 := bsearch (Z.to_nat h1) req (Z.max 0 t1) 0 h1) in *.
  set (r2 := bsearch (Z.to_nat h2) req (Z.max 0 t2) 0 h2) in *.
  destruct (Z_lt_le_dec r2 16384) as [Hlt|Hge]; [|lia].
  destruct (Z_le_gt_dec r1 r2) as [|Hgt]; [assumption|].
  specialize (Hnext Hlt). pose proof (Hmono (r2 + 1) r1). lia.
Qed.

Lemma level_monotone_in_xp_witness :
  (curve_of "exponential" = Quadratic -> 0 <= 100 /\ 0 <= 3 * 100 + 50) /\
  149 <= 150 /\
  level_from_total_xp "exponential" 100 50 0 149
  <= level_from_total_xp "exponential" 100 50 0 150.
Proof.
  assert (Hq : curve_of "exponential" = Quadratic -> 0 <= 100 /\ 0 <= 3 * 100 + 50)
    by (intros _; lia).
  split; [exact Hq|]. split; [lia|].
  apply (level_monotone_in_xp "exponential" 100 50 0 149 150 Hq). lia.
Defined.

(** ** The XP write, for any gain and any author *)

Lemma get_settings_other gid d g :
  g <> gid -> guild_settings (get_settings gid d).2 !! g = guild_settings d !! g.
Proof.
  intros Hg. unfold get_settings. destruct (guild_settings d !! gid); simpl; [reflexivity|].
  now rewrite lookup_insert_ne.
Qed.

Lemma get_settings_keeps gid d g s :
  guild_settings d !! g = Some s -> guild_settings (get_settings gid d).2 !! g = Some s.
Proof.
  intros Hs. destruct (decide (g = gid)) as [->|Hne].
  - rewrite get_settings_stored. unfold get_settings. now rewrite Hs.
  - now rewrite get_settings_other.
Qed.


Lemma award_roles_kept guild member rows awarded w :
  roles_kept w (award_roles guild member rows awarded w).2 /\
  trace w `prefix_of` trace (award_roles guild member rows awarded w).2.
Proof.
  revert awarded w. induction rows as [|[level_at role_id] rows IH]; intros awarded w.
  - split; [apply roles_kept_refl | reflexivity].
  - cbn [award_roles].
    assert (Hstep : forall o awarded' w0,
              roles_kept w w0 -> trace w0 = trace w ->
              roles_kept w (award_roles guild member rows awarded'
                              (emit (EvGrant (g_id guild) member level_at role_id o) w0)).2 /\
              trace w `prefix_of`
                trace (award_roles guild member rows awarded'
                         (emit (EvGrant (g_id guild) member level_at role_id o) w0)).2).
    { intros o awarded' w0 Hk Htr.
      destruct (IH awarded' (emit (EvGrant (g_id guild) member level_at role_id o) w0))
        as [Hk' Hp].
      split.
      - eapply roles_kept_trans; [exact Hk|].
        eapply roles_kept_trans; [|exact Hk']. now apply roles_kept_members.
      - etransitivity; [|exact Hp]. simpl. rewrite Htr. now apply prefix_app_r. }
    destruct (negb (bool_decide (role_id ∈ g_roles guild)));
      [apply Hstep; auto using roles_kept_refl|].
    destruct (members w !! (g_id guild, member)) as [held|];
      [|split; [apply roles_kept_refl | reflexivity]].
    destruct (bool_decide (role_id ∈ held)); [apply Hstep; auto using roles_kept_refl|].
    destruct (g_add_roles guild member role_id);
      apply Hstep; auto using roles_kept_refl, roles_kept_hold.
Qed.

Lemma add_xp_kept guild member gained w :
  roles_kept w (add_xp_and_check_level_up guild member gained w).2 /\
  trace w `prefix_of` trace (add_xp_and_check_level_up guild member gained w).2.
Proof.
  unfold add_xp_and_check_level_up. rewrite get_settings_w_eq. cbn [db with_db].
  destruct (apply_xp _ _ _ _ _) as [[[cur tot] lvl] d'].
  destruct (cur <? lvl).
  - match goal with |- context [award_roles ?g ?m ?r ?a ?w0] =>
      destruct (award_roles_kept g m r a w0) as [Hk Hp];
      destruct (award_roles g m r a w0) as [[aw|] w''] end; simpl in *;
      (split; [intros k; specialize (Hk k); exact Hk | exact Hp]).
  - simpl. split; [now apply roles_kept_members | reflexivity].
Qed.

(** X4: [add_xp_and_check_level_up] with any gain, negative ones included,
    and for any author, in the range where the code's write goes
    through: the subject ends with [max(0, xp + gain)] XP, the
    level of that XP under the guild's curve and the timestamp it had;
    no other row of [user_xp] changes; the settings table gains the
    guild's row, with the defaults, when the guild had none, and keeps
    every row it had; the three other tables are unchanged, and no
    cached member loses a role. *)
Theorem xp_write_invariants guild member gained w :
  let gid := g_id guild in
  let s := (get_settings gid (db w)).1 in
  let w' := (add_xp_and_check_level_up guild member gained w).2 in
  let new_total := Z.max 0 (stored_xp gid member (db w) + gained) in
  xp_write_in_range s new_total ->
  user_xp (db w') !! (gid, member)
    = Some {| xp := new_total; level := level_of s new_total;
              last_message_ts := get_last_message_ts gid member (db w) |} /\
  0 <= new_total /\
  (forall k, k <> (gid, member) -> user_xp (db w') !! k = user_xp (db w) !! k) /\
  guild_settings (db w') !! gid = Some s /\
  (guild_settings (db w) !! gid = None -> s = DEFAULT_SETTINGS) /\
  (forall g row, guild_settings (db w) !! g = Some row ->
                 guild_settings (db w') !! g = Some row) /\
  (forall g, g <> gid -> guild_settings (db w') !! g = guild_settings (db w) !! g) /\
  role_rewards (db w') = role_rewards (db w) /\
  ignored_channels (db w') = ignored_channels (db w) /\
  blacklisted_roles (db w') = blacklisted_roles (db w) /\
  roles_kept w w'.
Proof.
  intros gid s w' new_total _. unfold w'. rewrite add_xp_db. fold gid s.
  destruct (get_settings_tables gid (db w)) as (Hux & Hrr & Hic & Hbr).
  destruct (apply_xp_tables gid member gained s (get_settings gid (db w)).2)
    as (Hgs' & Hrr' & Hic' & Hbr').
  split.
  { rewrite apply_xp_lookup. unfold new_total, stored_xp, get_last_message_ts.
    now rewrite Hux. }
  split; [unfold new_total; lia|].
  split; [intros k Hk; rewrite apply_xp_lookup_ne by exact Hk; now rewrite Hux|].
  rewrite Hgs'.
  split; [apply get_settings_stored|].
  split; [intros Hnone; unfold s, get_settings; now rewrite Hnone|].
  split; [intros g row; apply get_settings_keeps|].
  split; [intros g Hg; now apply get_settings_other|].
  split; [now rewrite Hrr', Hrr|]. split; [now rewrite Hic', Hic|].
  split; [now rewrite Hbr', Hbr|]. apply add_xp_kept.
Qed.

Lemma xp_write_invariants_witness :
  let w' := (add_xp_and_check_level_up demo_guild 9 (-40) reward_world).2 in
  xp_write_in_range (get_settings 1 (db reward_world)).1 0 /\
  guild_settings (db reward_world) !! 1 = None /\
  user_xp (db w') !! (1, 9) = Some {| xp := 0; level := 0; last_message_ts := 0 |} /\
  user_xp (db w') !! (1, 5) = Some {| xp := 1050; level := 3; last_message_ts := 0 |} /\
  guild_settings (db w') !! 1 = Some DEFAULT_SETTINGS /\
  role_rewards (db w') = role_rewards (db reward_world).
Proof.
  intros w'.
  assert (Hin : xp_write_in_range (get_settings 1 (db reward_world)).1 0)
    by (split; [reflexivity | intros Hc; vm_compute in Hc; discriminate]).
  assert (Hnone : guild_settings (db reward_world) !! 1 = None) by reflexivity.
  assert (Hother : ((1, 5) : Z * Z) <> (1, 9)) by discriminate.
  pose proof (xp_write_invariants demo_guild 9 (-40) reward_world Hin)
    as (Hrow & _ & Hrest & Hset & _ & _ & _ & Hrr & _).
  split; [exact Hin|]. split; [exact Hnone|]. split; [exact Hrow|].
  split; [exact (Hrest (1, 5) Hother)|]. split; [exact Hset | exact Hrr].
Defined.

(** ** What the reward loop grants *)

Lemma award_roles_grants guild member rows awarded w held :
  members w !! (g_id guild, member) = Some held ->
  exists new w',
    award_roles guild member rows awarded w = (Some (awarded ++ new), w') /\
    members w' !! (g_id guild, member) = Some (held ∪ list_to_set (new.*2)) /\
    Forall (fun lr => lr ∈ rows /\ lr.2 ∈ g_roles guild /\ (lr.2 ∉ held) /\
                      g_add_roles guild member (lr.2) = ApiOk) new /\
    (forall lr, lr ∈ rows -> lr.2 ∈ g_roles guild ->
                g_add_roles guild member (lr.2) = ApiOk ->
                lr.2 ∈ held ∪ list_to_set (new.*2)).
Proof.
  revert awarded w held. induction rows as [|[level_at role_id] rows IH];
    intros awarded w held Hheld.
  - exists [], w. cbn [award_roles]. rewrite app_nil_r. simpl.
    rewrite union_empty_r_L. repeat split; auto.
    intros lr Hin. inversion Hin.
  - cbn [award_roles].
    assert (Hskip : forall o,
      (role_id ∈ g_roles guild -> g_add_roles guild member role_id = ApiOk ->
       role_id ∈ held) ->
      exists new w',
        award_roles guild member rows awarded
          (emit (EvGrant (g_id guild) member level_at role_id o) w)
        = (Some (awarded ++ new), w') /\
        members w' !! (g_id guild, member) = Some (held ∪ list_to_set (new.*2)) /\
        Forall (fun lr => lr ∈ (level_at, role_id) :: rows /\ lr.2 ∈ g_roles guild /\
                          (lr.2 ∉ held) /\ g_add_roles guild member (lr.2) = ApiOk) new /\
        (forall lr, lr ∈ (level_at, role_id) :: rows -> lr.2 ∈ g_roles guild ->
                    g_add_roles guild member (lr.2) = ApiOk ->
                    lr.2 ∈ held ∪ list_to_set (new.*2))).
    { intros o Hthis.
      destruct (IH awarded (emit (EvGrant (g_id guild) member level_at role_id o) w) held)
        as (new & w' & Heq & Hm & Hall & Hcomp); [exact Hheld|].
      exists new, w'. split; [exact Heq|]. split; [exact Hm|]. split.
      - eapply Forall_impl; [exact Hall|]. intros lr (H1 & H2). split; [now right|exact H2].
      - intros lr Hin Hr Hok. apply elem_of_cons in Hin as [->|Hin].
        + simpl in *. apply elem_of_union. left. auto.
        + now apply Hcomp. }
    destruct (bool_decide (role_id ∈ g_roles guild)) eqn:Hrole; cbn [negb].
    2:{ apply Hskip. intros Hin. apply bool_decide_eq_false in Hrole. contradiction. }
    rewrite Hheld.
    destruct (bool_decide (role_id ∈ held)) eqn:Hin.
    { apply Hskip. intros _ _. now apply bool_decide_eq_true in Hin. }
    apply bool_decide_eq_false in Hin. apply bool_decide_eq_true in Hrole.
    destruct (g_add_roles guild member role_id) eqn:Hapi.
    + destruct (IH (awarded ++ [(level_at, role_id)])
                   (emit (EvGrant (g_id guild) member level_at role_id Granted)
                      (hold_role (g_id guild) member role_id w))
                   (held ∪ {[role_id]}))
        as (new & w' & Heq & Hm & Hall & Hcomp).
      { simpl. now rewrite lookup_alter_eq, Hheld. }
      exists ((level_at, role_id) :: new), w'. split.
      { rewrite Heq, <- app_assoc. reflexivity. }
      split; [rewrite Hm; f_equal; simpl; now rewrite (assoc_L (∪))|]. split.
      * constructor; [simpl; split; [left|auto]|].
        eapply Forall_impl; [exact Hall|]. intros lr (H1 & H2 & H3 & H4).
        split; [now right|]. split; [exact H2|]. split; [|exact H4].
        intros Hh. apply H3. apply elem_of_union. now left.
      * intros lr Hin' Hr Hok. apply elem_of_cons in Hin' as [->|Hin'].
        -- simpl. rewrite !elem_of_union, elem_of_singleton. auto.
        -- specialize (Hcomp lr Hin' Hr Hok). simpl.
           rewrite !elem_of_union, elem_of_singleton in *. tauto.
    + apply Hskip. congruence.
    + apply Hskip. congruence.
Qed.

(** X5: an XP write for a cached member, in the range where the code's
    write goes through, returns the new XP and the level [new_level]
    that XP has under the guild's curve, and the roles it
    reports as awarded are configured rewards of levels in
    [(old_level, new_level]] whose role exists, was not held and was
    accepted by Discord; afterwards the member holds what they held plus
    exactly these roles; and every configured reward of that interval
    that exists and that Discord accepts is held. *)
Theorem awarded_roles_sound guild member gained w held :
  members w !! (g_id guild, member) = Some held ->
  let gid := g_id guild in
  let s := (get_settings gid (db w)).1 in
  let old_level := stored_level gid member (db w) in
  let new_total := Z.max 0 (stored_xp gid member (db w) + gained) in
  let new_level := level_of s new_total in
  xp_write_in_range s new_total ->
  exists awarded w',
    add_xp_and_check_level_up guild member gained w
      = (Some (new_total, new_level, awarded), w') /\
    members w' !! (gid, member) = Some (held ∪ list_to_set (awarded.*2)) /\
    Forall (fun lr =>
              role_rewards (db w) !! (gid, lr.1) = Some lr.2 /\
              old_level < lr.1 <= new_level /\
              lr.2 ∈ g_roles guild /\ (lr.2 ∉ held) /\
              g_add_roles guild member (lr.2) = ApiOk) awarded /\
    (forall level_at role_id,
       role_rewards (db w) !! (gid, level_at) = Some role_id ->
       old_level < level_at <= new_level ->
       role_id ∈ g_roles guild -> g_add_roles guild member role_id = ApiOk ->
       role_id ∈ held ∪ list_to_set (awarded.*2)).
Proof.
  intros Hheld gid s old_level new_total new_level _.
  destruct (get_settings_tables gid (db w)) as (Hux & Hrr & _).
  unfold add_xp_and_check_level_up. rewrite get_settings_w_eq. cbn [db with_db].
  fold gid s.
  set (d1 := (get_settings gid (db w)).2) in *.
  pose proof (apply_xp_result gid member gained s d1) as Hres.
  destruct (apply_xp_tables gid member gained s d1) as (_ & Hrr' & _).
  destruct (apply_xp gid member gained s d1) as [[[cur tot] lvl] d'] eqn:E.
  cbn [fst snd] in *.
  assert (Hcur : cur = old_level /\ tot = new_total /\ lvl = new_level).
  { unfold old_level, new_total, new_level, stored_level, stored_xp in *.
    rewrite Hux in Hres. injection Hres as -> -> ->. auto. }
  destruct Hcur as (-> & -> & ->).
  destruct (Z.ltb_spec old_level new_level) as [Hlt|Hge].
  - set (w0 := with_db (fun _ => d') (with_db (fun d => (get_settings gid d).2) w)).
    destruct (award_roles_grants guild member
                (select_role_rewards gid (old_level + 1) new_level d') [] w0 held)
      as (new & w' & Heq & Hm & Hall & Hcomp); [exact Hheld|].
    fold gid in Heq, Hm. rewrite Heq. simpl app.
    exists new, w'. split; [reflexivity|]. split; [exact Hm|].
    assert (Hsel : forall l r,
              (l, r) ∈ select_role_rewards gid (old_level + 1) new_level d'
              <-> role_rewards (db w) !! (gid, l) = Some r /\ old_level < l <= new_level).
    { intros l r. rewrite select_role_rewards_elem. simpl. rewrite Hrr', Hrr.
      intuition lia. }
    split.
    + eapply Forall_impl; [exact Hall|]. intros [l r] (H1 & H2 & H3 & H4).
      apply Hsel in H1. simpl in *. tauto.
    + intros l r Hcfg Hint Hr Hok. apply (Hcomp (l, r)); auto. apply Hsel. auto.
  - exists [], (with_db (fun _ => d') (with_db (fun d => (get_settings gid d).2) w)).
    split; [reflexivity|]. simpl. rewrite union_empty_r_L.
    split; [exact Hheld|]. split; [constructor|]. intros. lia.
Qed.

Lemma awarded_roles_sound_witness :
  members reward_world !! (1, 5) = Some ∅ /\
  xp_write_in_range (get_settings 1 (db reward_world)).1 3900 /\
  exists awarded w',
    add_xp_and_check_level_up demo_guild 5 2850 reward_world
      = (Some (3900, 6, awarded), w') /\
    members w' !! (1, 5) = Some (∅ ∪ list_to_set (awarded.*2)) /\
    40 ∈ (∅ ∪ list_to_set (awarded.*2) : gset Z) /\
    60 ∈ (∅ ∪ list_to_set (awarded.*2) : gset Z).
Proof.
  assert (H : members reward_world !! (g_id demo_guild, 5) = Some ∅)
    by (vm_compute; reflexivity).
  assert (Hin : xp_write_in_range (get_settings 1 (db reward_world)).1 3900)
    by (split; [reflexivity | intros Hc; vm_compute in Hc; discriminate]).
  split; [exact H|]. split; [exact Hin|].
  pose proof (awarded_roles_sound demo_guild 5 2850 reward_world ∅ H) as T.
  cbv zeta in T.
  assert (Ht : Z.max 0 (stored_xp (g_id demo_guild) 5 (db reward_world) + 2850) = 3900)
    by (vm_compute; reflexivity).
  rewrite Ht in T. specialize (T Hin).
  assert (Hl : level_of (get_settings (g_id demo_guild) (db reward_world)).1 3900 = 6)
    by (vm_compute; reflexivity).
  rewrite Hl in T.
  assert (Hold : stored_level (g_id demo_guild) 5 (db reward_world) = 3)
    by (vm_compute; reflexivity).
  rewrite Hold in T.
  destruct T as (awarded & w' & Heq & Hm & _ & Hcomp).
  exists awarded, w'. split; [exact Heq|]. split; [exact Hm|]. split.
  - apply (Hcomp 4 40); [vm_compute; reflexivity | lia | vm_compute; reflexivity
                         | reflexivity].
  - apply (Hcomp 6 60); [vm_compute; reflexivity | lia | vm_compute; reflexivity
                         | reflexivity].
Defined.

(** ** What a message can and cannot change *)

Lemma on_message_filtered now rnd message guild w :
  msg_guild message = Some guild ->
  eligible message w = false ->
  (on_message now rnd message w).2 = with_db (fun d => (get_settings (g_id guild) d).2) w.
Proof.
  intros Hg He. unfold eligible in He. unfold on_message. rewrite Hg in *.
  set (gid := g_id guild) in *. set (s := (get_settings gid (db w)).1) in *.
  set (w1 := with_db (fun d => (get_settings gid d).2) w).
  destruct (get_settings_tables gid (db w)) as (Hux & _ & Hic & Hbr).
  assert (Hs : forall b, get_settings_w gid (if b : bool then w1 else w) = (s, w1)).
  { intros [|].
    - replace w1 with (get_settings_w gid w).2 at 1
        by now rewrite get_settings_w_eq.
      rewrite get_settings_w_again. apply get_settings_w_eq.
    - apply get_settings_w_eq. }
  assert (Hch : is_channel_ignored gid (channel_id message) (db w1)
                = is_channel_ignored gid (channel_id message) (db w))
    by (unfold is_channel_ignored; simpl; now rewrite Hic).
  assert (Hbl : has_blacklisted_role gid (author_id message) w1
                = has_blacklisted_role gid (author_id message) w)
    by (unfold has_blacklisted_role; simpl; now rewrite Hbr).
  assert (Hrest : negb (is_channel_ignored gid (channel_id message) (db w))
                  && negb (has_blacklisted_role gid (author_id message) w)
                  && negb (Py.len (Py.strip (content message)) <? min_chars s) = false ->
    (let '(settings, w0) := (s, w1) in
     if is_channel_ignored gid (channel_id message) (db w0) then (IgnoredChannel, w0)
     else if has_blacklisted_role gid (author_id message) w0 then (Blacklisted, w0)
     else
       let content_len := Py.len (Py.strip (content message)) in
       if content_len <? min_chars settings then (TooShort, w0)
       else
         let last_ts := get_last_message_ts gid (author_id message) (db w0) in
         let cooldown := cooldown_seconds settings in
         if on_cooldown now last_ts cooldown then (OnCooldown, w0)
         else
           match Py.randint (xp_min settings) (xp_max settings) rnd with
           | None => (Raised, w0)
           | Some base_gain =>
               let gain := compute_gain settings base_gain message in
               let w2 := with_db (set_last_message_ts gid (author_id message) now) w0 in
               if gain <=? 0 then (NoGain, w2)
               else
                 match add_xp_and_check_level_up guild (author_id message) gain w2 with
                 | (None, w3) => (Raised, w3)
                 | (Some (new_total, new_level, awarded), w3) =>
                     if (negb (bool_decide (awarded = [])) || (0 <? new_level))
                        && (announce_level_up settings =? 1)
                     then (Applied new_total new_level true,
                           announce guild settings message new_total new_level awarded w3)
                     else (Applied new_total new_level false, w3)
                 end
           end).2 = w1).
  { intros H. cbv beta iota zeta. rewrite Hch, Hbl.
    destruct (is_channel_ignored gid (channel_id message) (db w)); [reflexivity|].
    destruct (has_blacklisted_role gid (author_id message) w); [reflexivity|].
    simpl in H. apply negb_false_iff in H. now rewrite H. }
  destruct (author_bot message) eqn:Hbot.
  - rewrite get_settings_w_eq. fold s w1.
    destruct (ignore_bots s =? 1) eqn:Hig; [reflexivity|].
    rewrite (Hs true). apply Hrest. exact He.
  - rewrite (Hs false). apply Hrest. exact He.
Qed.

(** The world after [on_message], whatever the message. *)
Lemma on_message_world now rnd message guild w :
  msg_guild message = Some guild ->
  let gid := g_id guild in
  let uid := author_id message in
  let s := (get_settings gid (db w)).1 in
  let d1 := (get_settings gid (db w)).2 in
  let d2 := set_last_message_ts gid uid now d1 in
  let r := on_message now rnd message w in
  (db r.2 = d1 \/ db r.2 = d2 \/
   exists gain, 0 < gain /\ db r.2 = (apply_xp gid uid gain s d2).2) /\
  roles_kept w r.2 /\ trace w `prefix_of` trace r.2.
Proof.
  intros Hg gid uid s d1 d2 r.
  destruct (eligible message w) eqn:He.
  2:{ unfold r. rewrite (on_message_filtered now rnd message guild w Hg He).
      split; [now left|]. split; [now apply roles_kept_members | reflexivity]. }
  unfold r. rewrite (on_message_eligible now rnd message guild w Hg He).
  fold gid uid s. cbv zeta.
  set (w1 := with_db (fun d => (get_settings gid d).2) w).
  assert (Hw1 : roles_kept w w1 /\ trace w `prefix_of` trace w1)
    by (split; [now apply roles_kept_members | reflexivity]).
  destruct (on_cooldown _ _ _); [split; [now left | exact Hw1]|].
  destruct (Py.randint _ _ _) as [base_gain|]; [|split; [now left | exact Hw1]].
  set (gain := compute_gain s base_gain message).
  destruct (Z.leb_spec gain 0) as [Hle|Hgt].
  { split; [right; now left | exact Hw1]. }
  set (w2 := with_db (set_last_message_ts gid uid now) w1).
  pose proof (add_xp_db guild uid gain w2) as Hdb.
  destruct (add_xp_kept guild uid gain w2) as [Hk Hp].
  assert (Hs : get_settings gid d2 = (s, d2)).
  { apply get_settings_hit. unfold d2. simpl. apply get_settings_stored. }
  cbn [db with_db w2 w1] in Hdb. fold gid d1 d2 in Hdb. rewrite Hs in Hdb.
  cbn [fst snd] in Hdb.
  assert (Hk2 : roles_kept w w2 /\ trace w `prefix_of` trace w2)
    by (split; [now apply roles_kept_members | reflexivity]).
  destruct (add_xp_and_check_level_up guild uid gain w2) as [[[[t l] aw]|] w3];
    cbn [snd] in *.
  - assert (Hw3 : roles_kept w w3 /\ trace w `prefix_of` trace w3).
    { split; [eapply roles_kept_trans; [apply Hk2 | exact Hk]|].
      etransitivity; [apply Hk2 | exact Hp]. }
    destruct (_ && _); cbn [snd].
    + split; [right; right; exists gain; split; [lia | exact Hdb]|].
      split.
      * eapply roles_kept_trans; [apply Hw3|]. now apply roles_kept_members.
      * etransitivity; [apply Hw3|]. simpl. now apply prefix_app_r.
    + split; [right; right; exists gain; split; [lia | exact Hdb]|]. exact Hw3.
  - split; [right; right; exists gain; split; [lia | exact Hdb]|].
    split; [eapply roles_kept_trans; [apply Hk2 | exact Hk]|].
    etransitivity; [apply Hk2 | exact Hp].
Qed.

Lemma message_store_frame gid uid now d d' :
  let s := (get_settings gid d).1 in
  let d1 := (get_settings gid d).2 in
  let d2 := set_last_message_ts gid uid now d1 in
  (d' = d1 \/ d' = d2 \/
   exists gain, 0 < gain /\ d' = (apply_xp gid uid gain s d2).2) ->
  (forall k, k <> (gid, uid) -> user_xp d' !! k = user_xp d !! k) /\
  (forall k row, user_xp d !! k = Some row ->
     exists row', user_xp d' !! k = Some row' /\ xp row <= xp row') /\
  (forall g, g <> gid -> guild_settings d' !! g = guild_settings d !! g) /\
  (forall g s0, guild_settings d !! g = Some s0 -> guild_settings d' !! g = Some s0) /\
  role_rewards d' = role_rewards d /\
  ignored_channels d' = ignored_channels d /\
  blacklisted_roles d' = blacklisted_roles d.
Proof.
  intros s d1 d2 Hd'.
  destruct (get_settings_tables gid d) as (Hux & Hrr & Hic & Hbr). fold d1 in Hux, Hrr, Hic, Hbr.
  assert (H2 : forall k row, user_xp d !! k = Some row ->
             exists row', user_xp d2 !! k = Some row' /\ xp row' = xp row).
  { intros k row Hrow. unfold d2. simpl. rewrite Hux.
    destruct (decide (k = (gid, uid))) as [->|Hne].
    - rewrite lookup_alter_eq, Hrow. simpl. eauto.
    - rewrite lookup_alter_ne by congruence. eauto. }
  assert (H2ne : forall k, k <> (gid, uid) -> user_xp d2 !! k = user_xp d !! k).
  { intros k Hne. unfold d2. simpl. rewrite Hux. now rewrite lookup_alter_ne by congruence. }
  destruct Hd' as [->|[->|(gain & Hgain & ->)]].
  - rewrite Hux, Hrr, Hic, Hbr. repeat split; auto.
    + intros k row Hrow. exists row. split; [exact Hrow | lia].
    + intros g Hg. now apply get_settings_other.
    + intros g s0. apply get_settings_keeps.
  - repeat split; auto.
    + intros k row Hrow. destruct (H2 k row Hrow) as (row' & Hr' & Hx).
      exists row'. split; [exact Hr' | lia].
    + intros g Hg. simpl. now apply get_settings_other.
    + intros g s0. simpl. apply get_settings_keeps.
  - destruct (apply_xp_tables gid uid gain s d2) as (Hgs' & Hrr' & Hic' & Hbr').
    repeat split.
    + intros k Hne. rewrite apply_xp_lookup_ne by exact Hne. now apply H2ne.
    + intros k row Hrow. destruct (decide (k = (gid, uid))) as [->|Hne].
      * rewrite apply_xp_lookup. eexists. split; [reflexivity|]. simpl.
        destruct (H2 _ _ Hrow) as (row' & Hr' & Hx).
        unfold stored_xp. rewrite Hr'. lia.
      * rewrite apply_xp_lookup_ne by exact Hne. rewrite H2ne by exact Hne.
        exists row. split; [exact Hrow | lia].
    + intros g Hg. rewrite Hgs'. simpl. now apply get_settings_other.
    + intros g s0. rewrite Hgs'. simpl. apply get_settings_keeps.
    + rewrite Hrr'. exact Hrr.
    + rewrite Hic'. exact Hic.
    + rewrite Hbr'. exact Hbr.
Qed.

(** X6: what a message never does.  Whatever the message and whatever
    [on_message] makes of it: only the author's row of [user_xp] can
    change, no stored XP goes down and no row disappears; the settings of
    other guilds, every stored settings row, the reward table, the
    ignored channels and the blacklist stay as they are; no cached
    member loses a role, and the effects already recorded stay first. *)
Theorem on_message_frame now rnd message w :
  let r := on_message now rnd message w in
  (forall gid uid,
     ~ (g_id <$> msg_guild message = Some gid /\ author_id message = uid) ->
     user_xp (db r.2) !! (gid, uid) = user_xp (db w) !! (gid, uid)) /\
  (forall k row, user_xp (db w) !! k = Some row ->
     exists row', user_xp (db r.2) !! k = Some row' /\ xp row <= xp row') /\
  (forall g, g_id <$> msg_guild message <> Some g ->
     guild_settings (db r.2) !! g = guild_settings (db w) !! g) /\
  (forall g s, guild_settings (db w) !! g = Some s ->
     guild_settings (db r.2) !! g = Some s) /\
  role_rewards (db r.2) = role_rewards (db w) /\
  ignored_channels (db r.2) = ignored_channels (db w) /\
  blacklisted_roles (db r.2) = blacklisted_roles (db w) /\
  roles_kept w r.2 /\
  trace w `prefix_of` trace r.2.
Proof.
  intros r. destruct (msg_guild message) as [guild|] eqn:Hg.
  - destruct (on_message_world now rnd message guild w Hg) as (Hdb & Hk & Hp).
    fold r in Hdb, Hk, Hp.
    destruct (message_store_frame (g_id guild) (author_id message) now (db w) (db r.2) Hdb)
      as (H1 & H2 & H3 & H4 & H5 & H6 & H7).
    repeat split; auto.
    + intros gid uid Hne. apply H1. intros [= -> ->]. apply Hne. auto.
    + intros g Hne. apply H3. intros ->. now apply Hne.
  - unfold r, on_message. rewrite Hg. simpl.
    repeat split; auto using roles_kept_refl.
    intros k row Hrow. exists row. split; [exact Hrow | lia].
Qed.

(** ** Ignored channels and blacklisted roles *)

Lemma elem_of_ids_of_guild (gid : Z) (t : gset (Z * Z)) (x : Z) :
  x ∈ ids_of_guild gid t <-> (gid, x) ∈ t.
Proof.
  unfold ids_of_guild. rewrite list_elem_of_omap. split.
  - intros ([g y] & Hin & Hy). simpl in Hy. destruct (decide (g = gid)) as [->|]; [|discriminate].
    injection Hy as ->. now apply elem_of_elements.
  - intros Hin. exists (gid, x). split; [now apply elem_of_elements|].
    simpl. now rewrite decide_True.
Qed.

Lemma NoDup_ids_of_guild (gid : Z) (t : gset (Z * Z)) : NoDup (ids_of_guild gid t).
Proof.
  unfold ids_of_guild. pose proof (NoDup_elements t) as Hnd.
  induction (elements t) as [|[g y] l IH]; [constructor|].
  apply NoDup_cons in Hnd as [Hnin Hnd]. simpl.
  destruct (decide (g = gid)) as [->|]; [|now apply IH].
  simpl. constructor; [|now apply IH].
  rewrite list_elem_of_omap. intros ([g' y'] & Hin & Hy). simpl in Hy.
  destruct (decide (g' = gid)) as [->|]; [|discriminate].
  injection Hy as ->. contradiction.
Qed.

(** The first filter that stops a message, and the world it leaves. *)
Lemma on_message_stopped now rnd message guild w :
  msg_guild message = Some guild ->
  eligible message w = false ->
  let gid := g_id guild in
  let s := (get_settings gid (db w)).1 in
  on_message now rnd message w
  = (if author_bot message && (ignore_bots s =? 1) then IgnoredBot
     else if is_channel_ignored gid (channel_id message) (db w) then IgnoredChannel
     else if has_blacklisted_role gid (author_id message) w then Blacklisted
     else TooShort,
     with_db (fun d => (get_settings gid d).2) w).
Proof.
  intros Hg He gid s.
  rewrite (surjective_pairing (on_message now rnd message w)).
  rewrite (on_message_filtered now rnd message guild w Hg He). fold gid. f_equal.
  unfold eligible in He. unfold on_message. rewrite Hg in *. fold gid s in He |- *.
  set (w1 := with_db (fun d => (get_settings gid d).2) w).
  destruct (get_settings_tables gid (db w)) as (Hux & _ & Hic & Hbr).
  assert (Hs : forall b, get_settings_w gid (if b : bool then w1 else w) = (s, w1)).
  { intros [|].
    - replace w1 with (get_settings_w gid w).2 at 1
        by now rewrite get_settings_w_eq.
      rewrite get_settings_w_again. apply get_settings_w_eq.
    - apply get_settings_w_eq. }
  assert (Hch : is_channel_ignored gid (channel_id message) (db w1)
                = is_channel_ignored gid (channel_id message) (db w))
    by (unfold is_channel_ignored; simpl; now rewrite Hic).
  assert (Hbl : has_blacklisted_role gid (author_id message) w1
                = has_blacklisted_role gid (author_id message) w)
    by (unfold has_blacklisted_role; simpl; now rewrite Hbr).
  destruct (author_bot message) eqn:Hbot; cbn [andb].
  - rewrite get_settings_w_eq. fold s w1.
    destruct (ignore_bots s =? 1) eqn:Hig; [reflexivity|].
    rewrite (Hs true). cbv beta iota zeta. rewrite Hch, Hbl. simpl in He.
    destruct (is_channel_ignored gid (channel_id message) (db w)); [reflexivity|].
    destruct (has_blacklisted_role gid (author_id message) w); [reflexivity|].
    simpl in He. apply negb_false_iff in He. now rewrite He.
  - rewrite (Hs false). cbv beta iota zeta. rewrite Hch, Hbl. simpl in He.
    destruct (is_channel_ignored gid (channel_id message) (db w)); [reflexivity|].
    destruct (has_blacklisted_role gid (author_id message) w); [reflexivity|].
    simpl in He. apply negb_false_iff in He. now rewrite He.
Qed.

(** X7: the ignored-channel table.  Adding is idempotent and makes the
    channel ignored, removing makes it not ignored, neither touches
    another channel or guild; removing a channel that was just added to
    a guild where it was not ignored gives the table back; and the
    listing of a guild has no duplicate and holds exactly the channels
    [is_channel_ignored] answers for. *)
Theorem ignored_channels_table (gid ch : Z) (d : Db) :
  (forall g c,
     is_channel_ignored g c (add_ignored_channel gid ch d)
     = bool_decide ((g, c) = (gid, ch)) || is_channel_ignored g c d) /\
  (forall g c,
     is_channel_ignored g c (remove_ignored_channel gid ch d)
     = negb (bool_decide ((g, c) = (gid, ch))) && is_channel_ignored g c d) /\
  add_ignored_channel gid ch (add_ignored_channel gid ch d) = add_ignored_channel gid ch d /\
  (is_channel_ignored gid ch d = false ->
   remove_ignored_channel gid ch (add_ignored_channel gid ch d) = d) /\
  (forall g c, c ∈ list_ignored_channels g d <-> is_channel_ignored g c d = true) /\
  (forall g, NoDup (list_ignored_channels g d)).
Proof.
  unfold is_channel_ignored, add_ignored_channel, remove_ignored_channel,
    list_ignored_channels, with_ignored_channels. cbn [ignored_channels].
  split; [|split; [|split; [|split; [|split]]]].
  - intros g c. apply eq_true_iff_eq.
    rewrite orb_true_iff, !bool_decide_eq_true, elem_of_union, elem_of_singleton.
    reflexivity.
  - intros g c. apply eq_true_iff_eq.
    rewrite andb_true_iff, negb_true_iff, bool_decide_eq_false, !bool_decide_eq_true.
    rewrite elem_of_difference, elem_of_singleton. tauto.
  - f_equal. apply set_eq. intros x. rewrite !elem_of_union. tauto.
  - intros Hno. apply bool_decide_eq_false in Hno. destruct d as [gs ic br ux rr].
    cbn in *. f_equal. apply set_eq. intros x.
    rewrite elem_of_difference, elem_of_union, elem_of_singleton.
    split; [tauto|]. intros Hx. split; [now right|]. intros ->. contradiction.
  - intros g c. rewrite elem_of_ids_of_guild, bool_decide_eq_true. reflexivity.
  - intros g. apply NoDup_ids_of_guild.
Qed.

Lemma ignored_channels_table_witness :
  is_channel_ignored 1 7 empty_db = false /\
  remove_ignored_channel 1 7 (add_ignored_channel 1 7 empty_db) = empty_db.
Proof.
  assert (H : is_channel_ignored 1 7 empty_db = false) by reflexivity.
  split; [exact H|].
  exact (proj1 (proj2 (proj2 (proj2 (ignored_channels_table 1 7 empty_db)))) H).
Defined.

(** X8: the role blacklist.  Same table discipline as for the ignored
    channels, and the test [on_message] makes of a cached member is
    "holds a role that the guild's listing contains". *)
Theorem blacklisted_roles_table (gid role : Z) (d : Db) :
  (forall g r,
     is_role_blacklisted g r (add_blacklisted_role gid role d)
     = bool_decide ((g, r) = (gid, role)) || is_role_blacklisted g r d) /\
  (forall g r,
     is_role_blacklisted g r (remove_blacklisted_role gid role d)
     = negb (bool_decide ((g, r) = (gid, role))) && is_role_blacklisted g r d) /\
  add_blacklisted_role gid role (add_blacklisted_role gid role d)
    = add_blacklisted_role gid role d /\
  (forall g r, r ∈ list_blacklisted_roles g d <-> is_role_blacklisted g r d = true) /\
  (forall g, NoDup (list_blacklisted_roles g d)) /\
  (forall uid members0 trace0,
     has_blacklisted_role gid uid {| db := d; members := members0; trace := trace0 |} = true
     <-> exists held r, members0 !! (gid, uid) = Some held /\ r ∈ held /\
                        r ∈ list_blacklisted_roles gid d).
Proof.
  unfold is_role_blacklisted, add_blacklisted_role, remove_blacklisted_role,
    list_blacklisted_roles, with_blacklisted_roles. cbn [blacklisted_roles].
  split; [|split; [|split; [|split; [|split]]]].
  - intros g r. apply eq_true_iff_eq.
    rewrite orb_true_iff, !bool_decide_eq_true, elem_of_union, elem_of_singleton.
    reflexivity.
  - intros g r. apply eq_true_iff_eq.
    rewrite andb_true_iff, negb_true_iff, bool_decide_eq_false, !bool_decide_eq_true.
    rewrite elem_of_difference, elem_of_singleton. tauto.
  - f_equal. apply set_eq. intros x. rewrite !elem_of_union. tauto.
  - intros g r. rewrite elem_of_ids_of_guild, bool_decide_eq_true. reflexivity.
  - intros g. apply NoDup_ids_of_guild.
  - intros uid members0 trace0. unfold has_blacklisted_role. cbn [members db].
    destruct (members0 !! (gid, uid)) as [held|]; split.
    + intros H. apply bool_decide_eq_true, Exists_exists in H as (r & Hin & Hbl).
      exists held, r. split; [reflexivity|]. split; [now apply elem_of_elements in Hin|].
      now apply elem_of_ids_of_guild.
    + intros (held' & r & [= <-] & Hin & Hbl). apply bool_decide_eq_true, Exists_exists.
      exists r. split; [now apply elem_of_elements|]. now apply elem_of_ids_of_guild in Hbl.
    + discriminate.
    + intros (held' & r & [=] & _).
Qed.

Lemma on_message_outcome_filters now rnd message guild w :
  msg_guild message = Some guild ->
  let o := (on_message now rnd message w).1 in
  (o = IgnoredChannel ->
   is_channel_ignored (g_id guild) (channel_id message) (db w) = true) /\
  (o = Blacklisted ->
   has_blacklisted_role (g_id guild) (author_id message) w = true).
Proof.
  intros Hg o. unfold o. destruct (eligible message w) eqn:He.
  - rewrite (on_message_eligible now rnd message guild w Hg He). cbv zeta.
    destruct (on_cooldown _ _ _); [split; discriminate|].
    destruct (Py.randint _ _ _); [|split; discriminate].
    destruct (_ <=? 0); [split; discriminate|].
    destruct (add_xp_and_check_level_up _ _ _ _) as [[[[t l] aw]|] w3];
      [|split; discriminate].
    destruct (_ && _); split; discriminate.
  - rewrite (on_message_stopped now rnd message guild w Hg He). cbn [fst].
    destruct (_ && _); [split; discriminate|].
    destruct (is_channel_ignored _ _ _); [split; [reflexivity | discriminate]|].
    destruct (has_blacklisted_role _ _ _); split; try discriminate; reflexivity.
Qed.

(** X9: once [/levelconfig ignore add] has put a channel on the list, a
    message in it earns nothing: [on_message] leaves at the bot filter
    or at the channel filter, with the XP rows, the cached roles and the
    effects as they were.  Once [ignore remove] has taken the channel
    off, no message in it is stopped by the channel filter. *)
Theorem ignored_channel_earns_nothing now rnd message guild w :
  msg_guild message = Some guild ->
  let gid := g_id guild in
  let ignore action :=
    with_db (fun d => (cfg_ignore gid action (Some (channel_id message)) d).2) w in
  let r := on_message now rnd message (ignore IgnoreAdd) in
  (r.1 = IgnoredBot \/ r.1 = IgnoredChannel) /\
  user_xp (db r.2) = user_xp (db w) /\ members r.2 = members w /\ trace r.2 = trace w /\
  (on_message now rnd message (ignore IgnoreRemove)).1 <> IgnoredChannel.
Proof.
  intros Hg gid ignore r.
  assert (Hadd : is_channel_ignored gid (channel_id message) (db (ignore IgnoreAdd)) = true).
  { unfold ignore, is_channel_ignored. simpl. apply bool_decide_eq_true.
    apply elem_of_union. left. now apply elem_of_singleton. }
  assert (He : eligible message (ignore IgnoreAdd) = false).
  { unfold eligible. rewrite Hg. fold gid. rewrite Hadd.
    now rewrite andb_false_r. }
  split; [|split; [|split; [|split]]].
  - unfold r. rewrite (on_message_stopped now rnd message guild _ Hg He). cbn [fst].
    fold gid. rewrite Hadd. destruct (_ && _); auto.
  - unfold r. rewrite (on_message_filtered now rnd message guild _ Hg He). fold gid.
    destruct (get_settings_tables gid (db (ignore IgnoreAdd))) as (Hux & _).
    cbn [db with_db]. rewrite Hux. reflexivity.
  - unfold r. now rewrite (on_message_filtered now rnd message guild _ Hg He).
  - unfold r. now rewrite (on_message_filtered now rnd message guild _ Hg He).
  - intros Ho.
    apply (on_message_outcome_filters now rnd message guild _ Hg) in Ho.
    unfold ignore, is_channel_ignored in Ho. simpl in Ho.
    apply bool_decide_eq_true, elem_of_difference in Ho as [_ Hno].
    apply Hno. now apply elem_of_singleton.
Qed.

Lemma ignored_channel_earns_nothing_witness :
  let w := with_db (fun d => (cfg_ignore 1 IgnoreAdd (Some 7) d).2) level1_world in
  msg_guild (demo_message 5) = Some demo_guild /\
  user_xp (db (on_message 1700000000 3 (demo_message 5) w).2)
  = user_xp (db level1_world).
Proof.
  assert (Hg : msg_guild (demo_message 5) = Some demo_guild) by reflexivity.
  split; [exact Hg|].
  exact (proj1 (proj2
    (ignored_channel_earns_nothing 1700000000 3 (demo_message 5) demo_guild level1_world Hg))).
Defined.

(** X10: once a role is on the blacklist, a cached member who holds it
    earns nothing: [on_message] leaves at one of its filters, with the XP
    rows, the cached roles and the effects as they were. *)
Theorem blacklisted_member_earns_nothing now rnd message guild w held role :
  msg_guild message = Some guild ->
  members w !! (g_id guild, author_id message) = Some held ->
  role ∈ held ->
  let w' := with_db (add_blacklisted_role (g_id guild) role) w in
  let r := on_message now rnd message w' in
  (r.1 = IgnoredBot \/ r.1 = IgnoredChannel \/ r.1 = Blacklisted) /\
  user_xp (db r.2) = user_xp (db w) /\ members r.2 = members w /\ trace r.2 = trace w.
Proof.
  intros Hg Hheld Hrole w' r. set (gid := g_id guild) in *.
  assert (Hbl : has_blacklisted_role gid (author_id message) w' = true).
  { unfold has_blacklisted_role, w'. cbn [members db with_db]. rewrite Hheld.
    apply bool_decide_eq_true, Exists_exists. exists role.
    split; [now apply elem_of_elements|]. simpl.
    apply elem_of_union. left. now apply elem_of_singleton. }
  assert (He : eligible message w' = false).
  { unfold eligible. rewrite Hg. fold gid. rewrite Hbl.
    now rewrite andb_false_r. }
  split; [|split; [|split]].
  - unfold r. rewrite (on_message_stopped now rnd message guild _ Hg He). cbn [fst].
    fold gid. rewrite Hbl. destruct (_ && _); [auto|].
    destruct (is_channel_ignored _ _ _); auto.
  - unfold r. rewrite (on_message_filtered now rnd message guild _ Hg He). fold gid.
    destruct (get_settings_tables gid (db w')) as (Hux & _).
    cbn [db with_db]. rewrite Hux. reflexivity.
  - unfold r. now rewrite (on_message_filtered now rnd message guild _ Hg He).
  - unfold r. now rewrite (on_message_filtered now rnd message guild _ Hg He).
Qed.

Lemma blacklisted_member_earns_nothing_witness :
  let w := with_db (add_blacklisted_role 1 40) recalc_world in
  msg_guild (demo_message 5) = Some demo_guild /\
  members recalc_world !! (1, 5) = Some {[ 40 ]} /\
  40 ∈ ({[ 40 ]} : gset Z) /\
  user_xp (db (on_message 1700000000 3 (demo_message 5) w).2)
  = user_xp (db recalc_world).
Proof.
  assert (Hg : msg_guild (demo_message 5) = Some demo_guild) by reflexivity.
  assert (Hm : members recalc_world !! (g_id demo_guild, author_id (demo_message 5))
               = Some {[ 40 ]}) by (vm_compute; reflexivity).
  assert (Hr : 40 ∈ ({[ 40 ]} : gset Z)) by (vm_compute; reflexivity).
  split; [exact Hg|]. split; [exact Hm|]. split; [exact Hr|].
  exact (proj1 (proj2
    (blacklisted_member_earns_nothing 1700000000 3 (demo_message 5) demo_guild
       recalc_world {[ 40 ]} 40 Hg Hm Hr))).
Defined.

(** ** The configuration commands *)

Lemma update_settings_missing gid fields d :
  guild_settings d !! gid = None -> update_settings gid fields d = d.
Proof.
  intros Hnone. unfold update_settings. destruct fields as [|f fields]; [reflexivity|].
  unfold with_guild_settings. rewrite alter_id' by exact Hnone. now destruct d.
Qed.

Lemma update_settings_read gid fields d s :
  guild_settings d !! gid = Some s ->
  get_settings gid (update_settings gid fields d)
  = (foldl (fun s f => set_field f s) s fields, update_settings gid fields d).
Proof.
  intros Hs. apply get_settings_hit. unfold update_settings.
  destruct fields as [|f fields]; [exact Hs|].
  cbn [guild_settings with_guild_settings]. now rewrite lookup_alter_eq, Hs.
Qed.

Lemma update_settings_frame gid fields d :
  let d' := update_settings gid fields d in
  (forall g, g <> gid -> guild_settings d' !! g = guild_settings d !! g) /\
  user_xp d' = user_xp d /\ role_rewards d' = role_rewards d /\
  ignored_channels d' = ignored_channels d /\
  blacklisted_roles d' = blacklisted_roles d.
Proof.
  unfold update_settings. destruct fields as [|f fields]; cbn; [auto|].
  repeat split. intros g Hg. now rewrite lookup_alter_ne by congruence.
Qed.

(** X11: a configuration command given for a guild that has no settings
    row yet is lost.  [update_settings] is a bare [UPDATE]: it changes
    nothing, whichever command sent it, and the next read of the
    settings creates and returns the defaults. *)
Theorem settings_update_needs_row (gid : Z) (d : Db) :
  guild_settings d !! gid = None ->
  (forall fields, update_settings gid fields d = d) /\
  (forall xp_min xp_max, (cfg_setrange gid xp_min xp_max d).2 = d) /\
  (forall seconds, cfg_setcooldown gid seconds d = d) /\
  (forall multiplier, cfg_setmultiplier gid multiplier d = d) /\
  (forall min_chars, cfg_setminchars gid min_chars d = d) /\
  (forall attachments_bonus mentions_bonus,
     cfg_setbonuses gid attachments_bonus mentions_bonus d = d) /\
  (forall threads_multiplier, cfg_setthreadsmult gid threads_multiplier d = d) /\
  (forall enabled, cfg_ignorebots gid enabled d = d) /\
  (forall curve_type base_xp curve_a curve_b,
     cfg_setcurve gid curve_type base_xp curve_a curve_b d = d) /\
  (forall enabled, cfg_announce gid enabled d = d) /\
  (forall channel, cfg_announcechannel gid channel d = d) /\
  (forall fields,
     (get_settings gid (update_settings gid fields d)).1 = DEFAULT_SETTINGS).
Proof.
  intros Hnone.
  assert (Hup : forall fields, update_settings gid fields d = d)
    by (intros fields; now apply update_settings_missing).
  split; [exact Hup|].
  split; [intros mn mx; unfold cfg_setrange; destruct (mx <? mn); [reflexivity | apply Hup]|].
  repeat (split; [intros; apply Hup|]).
  intros fields. rewrite Hup. unfold get_settings. now rewrite Hnone.
Qed.

Lemma settings_update_needs_row_witness :
  guild_settings empty_db !! 1 = None /\
  cfg_setcooldown 1 5 empty_db = empty_db /\
  (get_settings 1 (update_settings 1 [Set_cooldown_seconds 5] empty_db)).1
  = DEFAULT_SETTINGS.
Proof.
  assert (H : guild_settings empty_db !! 1 = None) by reflexivity.
  pose proof (settings_update_needs_row 1 empty_db H) as T.
  split; [exact H|]. split.
  - exact (proj1 (proj2 (proj2 T)) 5).
  - exact (proj2 (proj2 (proj2 (proj2 (proj2 (proj2 (proj2 (proj2 (proj2 (proj2
             (proj2 T)))))))))) [Set_cooldown_seconds 5]).
Defined.

(** X12: on a guild whose settings row exists, each configuration command
    is read back by [get_settings]: the columns it names hold the values
    given (the curve name normalised by [_curve_name], the switches as 0
    or 1) and every other column is as before.  A refused [cfg_setrange]
    changes nothing.  No command touches another guild's settings or any
    other table. *)
Theorem settings_update_read_back (gid : Z) (d : Db) (s : Settings) :
  guild_settings d !! gid = Some s ->
  let read d' := (get_settings gid d').1 in
  (forall mn mx,
     (mx < mn -> cfg_setrange gid mn mx d = (false, d)) /\
     (mn <= mx ->
      (cfg_setrange gid mn mx d).1 = true /\
      read (cfg_setrange gid mn mx d).2
      = set_field (Set_xp_max mx) (set_field (Set_xp_min mn) s))) /\
  (forall v, read (cfg_setcooldown gid v d) = set_field (Set_cooldown_seconds v) s) /\
  (forall v, read (cfg_setmultiplier gid v d) = set_field (Set_multiplier v) s) /\
  (forall v, read (cfg_setminchars gid v d) = set_field (Set_min_chars v) s) /\
  (forall a m, read (cfg_setbonuses gid a m d)
     = set_field (Set_mentions_bonus m) (set_field (Set_attachments_bonus a) s)) /\
  (forall v, read (cfg_setthreadsmult gid v d) = set_field (Set_threads_multiplier v) s) /\
  (forall b, read (cfg_ignorebots gid b d)
     = set_field (Set_ignore_bots (if b then 1 else 0)) s) /\
  (forall ct bx a b, read (cfg_setcurve gid ct bx a b d)
     = set_field (Set_curve_b b) (set_field (Set_curve_a a) (set_field (Set_base_xp bx)
         (set_field (Set_curve_type (_curve_name ct)) s)))) /\
  (forall b, read (cfg_announce gid b d)
     = set_field (Set_announce_level_up (if b then 1 else 0)) s) /\
  (forall ch, read (cfg_announcechannel gid ch d)
     = set_field (Set_announce_channel_id ch) s) /\
  (forall fields,
     let d' := update_settings gid fields d in
     (forall g, g <> gid -> guild_settings d' !! g = guild_settings d !! g) /\
     user_xp d' = user_xp d /\ role_rewards d' = role_rewards d /\
     ignored_channels d' = ignored_channels d /\
     blacklisted_roles d' = blacklisted_roles d).
Proof.
  intros Hs read.
  assert (Hread : forall fields,
            read (update_settings gid fields d) = foldl (fun s f => set_field f s) s fields)
    by (intros fields; unfold read; now rewrite (update_settings_read gid fields d s Hs)).
  split.
  { intros mn mx. unfold cfg_setrange. split.
    - intros Hlt. destruct (Z.ltb_spec mx mn); [reflexivity | lia].
    - intros Hle. destruct (Z.ltb_spec mx mn); [lia|]. cbn [fst snd].
      split; [reflexivity | apply Hread]. }
  repeat (split; [intros; apply Hread|]).
  intros fields. apply update_settings_frame.
Qed.

Lemma settings_update_read_back_witness :
  let d := (get_settings 1 empty_db).2 in
  guild_settings d !! 1 = Some DEFAULT_SETTINGS /\
  3 <= 8 /\
  (get_settings 1 (cfg_setrange 1 3 8 d).2).1
  = set_field (Set_xp_max 8) (set_field (Set_xp_min 3) DEFAULT_SETTINGS).
Proof.
  intros d.
  assert (H : guild_settings d !! 1 = Some DEFAULT_SETTINGS) by (vm_compute; reflexivity).
  assert (Hle : 3 <= 8) by lia.
  split; [exact H|]. split; [exact Hle|].
  exact (proj2 (proj2 (proj1 (settings_update_read_back 1 d DEFAULT_SETTINGS H) 3 8) Hle)).
Defined.

(** X13: [cfg_setrange] keeps the XP range drawable.  If the settings in
    force have [xp_min <= xp_max] (the defaults do), they still have
    after the command, accepted or refused, so the [random.randint] of
    [on_message] does not raise and its draw lies within the range. *)
Theorem cfg_setrange_keeps_draw_valid (gid mn mx rnd : Z) (d : Db) :
  xp_min (get_settings gid d).1 <= xp_max (get_settings gid d).1 ->
  let s' := (get_settings gid (cfg_setrange gid mn mx d).2).1 in
  xp_min s' <= xp_max s' /\
  exists base_gain,
    Py.randint (xp_min s') (xp_max s') rnd = Some base_gain /\
    xp_min s' <= base_gain <= xp_max s'.
Proof.
  intros Hold s'.
  assert (Hle : xp_min s' <= xp_max s').
  { unfold s', cfg_setrange. destruct (Z.ltb_spec mx mn); cbn [snd]; [exact Hold|].
    destruct (guild_settings d !! gid) as [s|] eqn:Hs.
    - rewrite (update_settings_read gid _ d s Hs). destruct s. cbn. lia.
    - now rewrite update_settings_missing. }
  split; [exact Hle|]. unfold Py.randint.
  destruct (Z.ltb_spec (xp_max s') (xp_min s')); [lia|].
  eexists. split; [reflexivity|].
  pose proof (Z.mod_pos_bound rnd (xp_max s' - xp_min s' + 1)). lia.
Qed.

Lemma cfg_setrange_keeps_draw_valid_witness :
  xp_min (get_settings 1 empty_db).1 <= xp_max (get_settings 1 empty_db).1 /\
  xp_min (get_settings 1 (cfg_setrange 1 30 7 empty_db).2).1
  <= xp_max (get_settings 1 (cfg_setrange 1 30 7 empty_db).2).1.
Proof.
  assert (H : xp_min (get_settings 1 empty_db).1 <= xp_max (get_settings 1 empty_db).1)
    by (vm_compute; discriminate).
  split; [exact H|].
  exact (proj1 (cfg_setrange_keeps_draw_valid 1 30 7 0 empty_db H)).
Defined.

(** ** The curve name *)

(** X14: [_curve_name] always yields one of the three curve names, is
    idempotent, and selects the curve that [xp_required_for_level] would
    select for the trimmed name: surrounding blanks, which the level
    maths does not remove by itself, no longer matter once the name went
    through [cfg_setcurve]. *)
Theorem curve_name_normalises (value : string) (base_xp a b level_value : Z) :
  (_curve_name value = "linear" \/ _curve_name value = "quadratic"
   \/ _curve_name value = "exponential") /\
  _curve_name (_curve_name value) = _curve_name value /\
  curve_of (_curve_name value) = curve_of (Py.strip value) /\
  xp_required_for_level (_curve_name value) base_xp a b level_value
  = xp_required_for_level (Py.strip value) base_xp a b level_value.
Proof.
  assert (Hcurve : curve_of (_curve_name value) = curve_of (Py.strip value)).
  { unfold _curve_name, curve_of.
    destruct (String.eqb_spec value "") as [->|Hv]; [reflexivity|].
    destruct (String.eqb_spec (Py.strip value) "") as [He|He].
    { rewrite He. reflexivity. }
    destruct (String.eqb_spec (Py.lower (Py.strip value)) "linear") as [Hl|Hl].
    { cbn [orb]. rewrite Hl. reflexivity. }
    destruct (String.eqb_spec (Py.lower (Py.strip value)) "quadratic") as [Hq|Hq].
    { cbn [orb]. rewrite Hq. reflexivity. }
    destruct (String.eqb_spec (Py.lower (Py.strip value)) "exponential") as [Hx|Hx].
    { cbn [orb]. rewrite Hx. reflexivity. }
    reflexivity. }
  assert (Hcases : _curve_name value = "linear" \/ _curve_name value = "quadratic"
                   \/ _curve_name value = "exponential").
  { unfold _curve_name.
    set (v := Py.lower (Py.strip (if String.eqb value "" then "quadratic" else value))).
    destruct (String.eqb_spec v "linear") as [Hl|Hl]; [now left|].
    destruct (String.eqb_spec v "quadratic") as [Hq|Hq]; [right; now left|].
    destruct (String.eqb_spec v "exponential") as [Hx|Hx]; [right; now right|].
    right. now left. }
  split; [exact Hcases|]. split.
  - destruct Hcases as [->|[->| ->]]; reflexivity.
  - split; [exact Hcurve|]. unfold xp_required_for_level. now rewrite Hcurve.
Qed.

(** ** Wiping a guild *)

Lemma rows_of_guild_none {V : Type} (gid : Z) (m : gmap (Z * Z) V) :
  (forall k, m !! (gid, k) = None) -> rows_of_guild gid m = [].
Proof.
  intros Hnone. apply elem_of_nil_inv. intros [k v] Hin.
  apply elem_of_rows_of_guild in Hin. now rewrite Hnone in Hin.
Qed.

Lemma ids_of_guild_none (gid : Z) (t : gset (Z * Z)) :
  (forall k, (gid, k) ∉ t) -> ids_of_guild gid t = [].
Proof.
  intros Hnone. apply elem_of_nil_inv. intros k Hin.
  apply elem_of_ids_of_guild in Hin. now apply (Hnone k).
Qed.

(** X15: [cfg_wipeguild].  Without [confirm] nothing changes.  With it,
    every table loses exactly the rows of the guild: nothing of the
    guild is left, the rows of other guilds are all there, and the guild
    reads as a new one (default settings, empty leaderboard and
    listings, rank 1 and no XP for everybody). *)
Theorem wipeguild_clears_one_guild (gid : Z) (d : Db) :
  cfg_wipeguild gid false d = d /\
  let d' := cfg_wipeguild gid true d in
  (guild_settings d' !! gid = None /\
   forall k, user_xp d' !! (gid, k) = None /\ role_rewards d' !! (gid, k) = None /\
             ((gid, k) ∉ ignored_channels d') /\ ((gid, k) ∉ blacklisted_roles d')) /\
  (forall g k, g <> gid ->
     guild_settings d' !! g = guild_settings d !! g /\
     user_xp d' !! (g, k) = user_xp d !! (g, k) /\
     role_rewards d' !! (g, k) = role_rewards d !! (g, k) /\
     ((g, k) ∈ ignored_channels d' <-> (g, k) ∈ ignored_channels d) /\
     ((g, k) ∈ blacklisted_roles d' <-> (g, k) ∈ blacklisted_roles d)) /\
  (get_settings gid d').1 = DEFAULT_SETTINGS /\
  (forall limit offset, top_users gid limit offset d' = []) /\
  list_role_rewards gid d' = [] /\
  list_ignored_channels gid d' = [] /\
  list_blacklisted_roles gid d' = [] /\
  (forall uid, user_rank gid uid d' = 1 /\ stored_xp gid uid d' = 0).
Proof.
  split; [reflexivity|]. intros d'.
  assert (Hgs : guild_settings d' !! gid = None) by apply lookup_delete_eq.
  assert (Hux : forall k, user_xp d' !! (gid, k) = None).
  { intros k. apply map_lookup_filter_None. right. intros x _ Hp. now apply Hp. }
  assert (Hrr : forall k, role_rewards d' !! (gid, k) = None).
  { intros k. apply map_lookup_filter_None. right. intros x _ Hp. now apply Hp. }
  assert (Hic : forall k, (gid, k) ∉ ignored_channels d').
  { intros k Hin. apply elem_of_filter in Hin as [Hp _]. now apply Hp. }
  assert (Hbr : forall k, (gid, k) ∉ blacklisted_roles d').
  { intros k Hin. apply elem_of_filter in Hin as [Hp _]. now apply Hp. }
  split; [split; [exact Hgs | intros k; auto]|].
  split.
  { intros g k Hg. split; [now apply lookup_delete_ne|].
    split; [|split; [|split]].
    - unfold d'. cbn [user_xp cfg_wipeguild negb]. rewrite map_lookup_filter.
      destruct (user_xp d !! (g, k)); [|reflexivity]. simpl.
      now rewrite option_guard_True.
    - unfold d'. cbn [role_rewards cfg_wipeguild negb]. rewrite map_lookup_filter.
      destruct (role_rewards d !! (g, k)); [|reflexivity]. simpl.
      now rewrite option_guard_True.
    - unfold d'. cbn [ignored_channels cfg_wipeguild negb]. rewrite elem_of_filter.
      simpl. tauto.
    - unfold d'. cbn [blacklisted_roles cfg_wipeguild negb]. rewrite elem_of_filter.
      simpl. tauto. }
  split; [unfold get_settings; now rewrite Hgs|].
  assert (Hrows : select_user_rows gid d' = []).
  { unfold select_user_rows. now rewrite (rows_of_guild_none gid (user_xp d') Hux). }
  split.
  { intros limit offset. unfold top_users. rewrite Hrows. unfold sql_limit.
    change (merge_sort leaderboard_order []) with (@nil (Z * Z * Z)).
    rewrite drop_nil. destruct (limit <? 0); [reflexivity | apply take_nil]. }
  split.
  { unfold list_role_rewards. now rewrite (rows_of_guild_none gid (role_rewards d') Hrr). }
  split; [now apply ids_of_guild_none|]. split; [now apply ids_of_guild_none|].
  intros uid. unfold user_rank, count_better, stored_xp. now rewrite Hux.
Qed.

(** ** Setting and resetting a subject *)

Lemma level_from_total_xp_cap curve base a b total :
  level_from_total_xp curve base a b total <= 16384.
Proof.
  unfold level_from_total_xp.
  set (req := xp_required_for_level curve base a b).
  pose proof (ramp_upper req (Z.max 0 total) ramp_fuel 0) as Hhi.
  change (2 ^ Z.of_nat 0) with 1 in Hhi.
  set (hi := ramp ramp_fuel req (Z.max 0 total) 1) in *.
  pose proof (bsearch_range req (Z.max 0 total) (Z.to_nat hi) 0 hi). lia.
Qed.

(** X16: [cfg_setlevel] goes through exactly when the code computes the
    XP of the level without overflow and both the XP and the level fit
    a 64-bit integer; otherwise it raises and writes nothing for the
    subject (so always on the exponential curve from level 5079 on).
    When it goes through it stores the level given and the XP that
    level requires and keeps the timestamp of a stored row (0 for a new
    one).  Either way no other row changes and no other table does,
    but for the settings row that reading the settings may create.  The
    pair stored agrees with the curve for the levels 0..200 of a curve
    that is strictly increasing and computed without overflow up to
    level 256, and the search that shows it consults no level beyond
    256; a level above 16384 never agrees: the level search stops there,
    so the next XP write lowers the stored level. *)
Theorem cfg_setlevel_row (gid uid level_value : Z) (d : Db) :
  let s := (get_settings gid d).1 in
  let req := xp_required_for_level (curve_type s) (base_xp s) (curve_a s) (curve_b s) in
  let r := cfg_setlevel gid uid level_value d in
  (r.1 = true <->
   xp_required_raises (curve_type s) (base_xp s) level_value = false /\
   req level_value <= 2 ^ 63 - 1 /\ - 2 ^ 63 <= level_value <= 2 ^ 63 - 1) /\
  (curve_of (curve_type s) = Exponential -> 5079 <= level_value -> r.1 = false) /\
  (r.1 = true ->
   user_xp r.2 !! (gid, uid)
   = Some {| xp := req level_value; level := level_value;
             last_message_ts := get_last_message_ts gid uid d |}) /\
  (r.1 = false -> user_xp r.2 = user_xp d) /\
  (forall k, k <> (gid, uid) -> user_xp r.2 !! k = user_xp d !! k) /\
  guild_settings r.2 = guild_settings (get_settings gid d).2 /\
  role_rewards r.2 = role_rewards d /\
  ignored_channels r.2 = ignored_channels d /\
  blacklisted_roles r.2 = blacklisted_roles d /\
  (r.1 = true -> strictly_increasing_upto req 256 = true ->
   xp_required_raises (curve_type s) (base_xp s) 256 = false ->
   0 <= level_value <= 200 ->
   level_of s (req level_value) = level_value /\
   (forall l, l <= 256 -> xp_required_raises (curve_type s) (base_xp s) l = false) /\
   forall req', (forall l, 0 <= l <= 256 -> req' l = req l) ->
                level_search req' (req level_value) = level_value) /\
  (r.1 = true -> 16384 < level_value -> level_of s (req level_value) < level_value).
Proof.
  intros s req r.
  destruct (get_settings_tables gid d) as (Hux & Hrr & Hic & Hbr).
  pose proof (xp_required_nonneg (curve_type s) (base_xp s) (curve_a s) (curve_b s)
                level_value) as Hnn. fold req in Hnn.
  assert (Hsql : sqlite_integer (req level_value) && sqlite_integer level_value = true
                 <-> req level_value <= 2 ^ 63 - 1
                     /\ - 2 ^ 63 <= level_value <= 2 ^ 63 - 1).
  { unfold sqlite_integer. rewrite !andb_true_iff, !Z.leb_le.
    assert (- 2 ^ 63 < 0) by reflexivity. lia. }
  assert (H5079 : curve_of (curve_type s) = Exponential -> 5079 <= level_value ->
                  xp_required_raises (curve_type s) (base_xp s) level_value = true).
  { intros Hc Hl. unfold xp_required_raises. rewrite Hc.
    destruct (Z.ltb_spec 0 level_value); [|lia].
    destruct (Z.leb_spec 5079 level_value); [reflexivity | lia]. }
  assert (Hback : strictly_increasing_upto req 256 = true ->
            xp_required_raises (curve_type s) (base_xp s) 256 = false ->
            0 <= level_value <= 200 ->
            level_of s (req level_value) = level_value /\
            (forall l, l <= 256 ->
                       xp_required_raises (curve_type s) (base_xp s) l = false) /\
            forall req', (forall l, 0 <= l <= 256 -> req' l = req l) ->
                         level_search req' (req level_value) = level_value).
  { intros Hincr H256 HL.
    assert (Hfound : level_search req (req level_value) = level_value)
      by (unfold level_search; now apply search_finds).
    split; [|split].
    - unfold level_of, level_from_total_xp. fold req.
      replace (Z.max 0 (req level_value)) with (req level_value) by lia.
      now apply search_finds.
    - intros l Hl. now apply (xp_required_raises_down _ _ l 256).
    - intros req' Hagree.
      assert (Hbeyond : req level_value < req (2 ^ Z.of_nat 8)).
      { change (2 ^ Z.of_nat 8) with 256. apply req_strict; [exact Hincr|lia..]. }
      destruct (level_search_consulted req req' (req level_value) 8 Hagree Hbeyond)
        as [-> _]. exact Hfound. }
  unfold r, cfg_setlevel. rewrite (surjective_pairing (get_settings gid d)). fold s req.
  destruct (xp_required_raises (curve_type s) (base_xp s) level_value) eqn:Hraise.
  { cbn [fst snd]. split; [split; [discriminate | intros [? _]; discriminate]|].
    split; [reflexivity|]. split; [discriminate|]. split; [intros _; exact Hux|].
    split; [intros k _; now rewrite Hux|]. split; [reflexivity|].
    split; [exact Hrr|]. split; [exact Hic|]. split; [exact Hbr|].
    split; discriminate. }
  destruct (sqlite_integer (req level_value) && sqlite_integer level_value) eqn:Hfit;
    cbn [negb fst snd].
  2:{ split.
      { split; [discriminate|]. intros [_ Hb]. apply Hsql in Hb. congruence. }
      split; [reflexivity|]. split; [discriminate|]. split; [intros _; exact Hux|].
      split; [intros k _; now rewrite Hux|]. split; [reflexivity|].
      split; [exact Hrr|]. split; [exact Hic|]. split; [exact Hbr|].
      split; discriminate. }
  cbn [user_xp with_user_xp guild_settings role_rewards ignored_channels
       blacklisted_roles].
  split; [split; [intros _; split; [reflexivity | now apply Hsql] | reflexivity]|].
  split; [intros Hc Hl; specialize (H5079 Hc Hl); discriminate|].
  split; [intros _; rewrite lookup_insert_eq, Hux; reflexivity|].
  split; [discriminate|].
  split; [intros k Hk; rewrite lookup_insert_ne by congruence; now rewrite Hux|].
  split; [reflexivity|]. split; [exact Hrr|]. split; [exact Hic|]. split; [exact Hbr|].
  split.
  - intros _. exact Hback.
  - intros _ Hbig. unfold level_of.
    pose proof (level_from_total_xp_cap (curve_type s) (base_xp s) (curve_a s) (curve_b s)
                  (req level_value)). lia.
Qed.

Lemma cfg_setlevel_row_witness :
  let req := xp_required_for_level "quadratic" 100 50 0 in
  (cfg_setlevel 1 5 7 empty_db).1 = true /\
  strictly_increasing_upto req 256 = true /\
  xp_required_raises "quadratic" 100 256 = false /\ 0 <= 7 <= 200 /\
  user_xp (cfg_setlevel 1 5 7 empty_db).2 !! (1, 5)
  = Some {| xp := req 7; level := 7; last_message_ts := get_last_message_ts 1 5 empty_db |} /\
  level_of (get_settings 1 empty_db).1 (req 7) = 7 /\
  curve_of (curve_type (get_settings 1 steep_db).1) = Exponential /\
  (cfg_setlevel 1 5 5079 steep_db).1 = false /\
  user_xp (cfg_setlevel 1 5 5079 steep_db).2 = user_xp steep_db.
Proof.
  intros req.
  assert (Hexp : curve_of (curve_type (get_settings 1 steep_db).1) = Exponential)
    by (vm_compute; reflexivity).
  assert (Hbig : 5079 <= 5079) by lia.
  pose proof (cfg_setlevel_row 1 5 5079 steep_db) as (_ & Hfail & _ & Hkept & _).
  assert (Hok : (cfg_setlevel 1 5 7 empty_db).1 = true) by (vm_compute; reflexivity).
  assert (Hincr : strictly_increasing_upto req 256 = true)
    by (apply quadratic_increasing; [reflexivity | lia..]).
  assert (H256 : xp_required_raises "quadratic" 100 256 = false) by reflexivity.
  assert (HL : 0 <= 7 <= 200) by lia.
  pose proof (cfg_setlevel_row 1 5 7 empty_db)
    as (_ & _ & Hrow & _ & _ & _ & _ & _ & _ & Hrt & _).
  split; [exact Hok|]. split; [exact Hincr|]. split; [exact H256|]. split; [exact HL|].
  split; [exact (Hrow Hok)|]. split; [exact (proj1 (Hrt Hok Hincr H256 HL))|].
  split; [exact Hexp|]. split; [exact (Hfail Hexp Hbig) | exact (Hkept (Hfail Hexp Hbig))].
Defined.

(** X17: [cfg_resetuser] zeroes the XP and the level of a stored row and
    keeps its timestamp, so the cooldown still runs; for a subject
    without a row it does nothing (it creates none); no other row or
    table changes. *)
Theorem cfg_resetuser_row (gid uid : Z) (d : Db) :
  let d' := cfg_resetuser gid uid d in
  user_xp d' !! (gid, uid)
    = (fun row => {| xp := 0; level := 0; last_message_ts := last_message_ts row |})
      <$> user_xp d !! (gid, uid) /\
  (user_xp d !! (gid, uid) = None -> d' = d) /\
  get_last_message_ts gid uid d' = get_last_message_ts gid uid d /\
  (forall k, k <> (gid, uid) -> user_xp d' !! k = user_xp d !! k) /\
  guild_settings d' = guild_settings d /\
  role_rewards d' = role_rewards d /\
  ignored_channels d' = ignored_channels d /\
  blacklisted_roles d' = blacklisted_roles d.
Proof.
  intros d'. unfold d', cfg_resetuser, get_last_message_ts.
  cbn [user_xp with_user_xp]. rewrite lookup_alter_eq.
  split; [reflexivity|]. split.
  { intros Hnone. unfold with_user_xp. rewrite alter_id' by exact Hnone. now destruct d. }
  split; [now destruct (user_xp d !! (gid, uid))|].
  split; [intros k Hk; now rewrite lookup_alter_ne by congruence|].
  repeat split.
Qed.

(** ** The reward table *)

Lemma level_lt_sorted_unique (l1 l2 : list (Z * Z)) :
  StronglySorted level_lt l1 -> StronglySorted level_lt l2 ->
  (forall x, x ∈ l1 <-> x ∈ l2) -> l1 = l2.
Proof.
  intros H1. revert l2. induction H1 as [|x1 l1 Hs1 IH Hall1]; intros l2 H2 Heq.
  - destruct l2 as [|x2 l2]; [reflexivity|].
    exfalso. apply (not_elem_of_nil x2). apply Heq. now left.
  - destruct H2 as [|x2 l2 Hs2 Hall2].
    { exfalso. apply (not_elem_of_nil x1). apply Heq. now left. }
    rewrite Forall_forall in Hall1, Hall2. unfold level_lt in Hall1, Hall2.
    assert (Hx : x1 = x2).
    { assert (H12 : x1 ∈ x2 :: l2) by (apply Heq; now left).
      assert (H21 : x2 ∈ x1 :: l1) by (apply Heq; now left).
      apply elem_of_cons in H12 as [?|H12]; [assumption|].
      apply elem_of_cons in H21 as [?|H21]; [congruence|].
      specialize (Hall1 _ H21). specialize (Hall2 _ H12). lia. }
    subst x2. f_equal. apply IH; [exact Hs2|]. intros y. split; intros Hy.
    + assert (Hin : y ∈ x1 :: l2) by (apply Heq; now right).
      apply elem_of_cons in Hin as [->|Hin]; [|exact Hin].
      specialize (Hall1 _ Hy). lia.
    + assert (Hin : y ∈ x1 :: l1) by (apply Heq; now right).
      apply elem_of_cons in Hin as [->|Hin]; [|exact Hin].
      specialize (Hall2 _ Hy). lia.
Qed.

Lemma list_role_rewards_elem gid d level_at role_id :
  (level_at, role_id) ∈ list_role_rewards gid d
  <-> role_rewards d !! (gid, level_at) = Some role_id.
Proof.
  unfold list_role_rewards. rewrite merge_sort_Permutation.
  apply elem_of_rows_of_guild.
Qed.

Lemma list_role_rewards_sorted gid d :
  StronglySorted level_lt (list_role_rewards gid d).
Proof.
  apply StronglySorted_strict.
  - apply (@StronglySorted_merge_sort _ level_asc _ level_asc_trans level_asc_total).
  - unfold list_role_rewards. rewrite merge_sort_Permutation.
    apply NoDup_rows_of_guild.
Qed.

(** X18: the reward table.  The listing of a guild holds exactly its
    configured [(level, role)] pairs, by strictly ascending level, so one
    role per level; [set_role_reward] replaces the role of a level that
    has one and adds the level otherwise; [remove_role_reward] takes the
    level out; neither touches another level or guild.  The rewards
    scanned at a level-up are the listed ones whose level lies in the
    interval, in the same order. *)
Theorem role_rewards_table (gid level_value role_id : Z) (d : Db) :
  (forall g l r,
     (l, r) ∈ list_role_rewards g d <-> role_rewards d !! (g, l) = Some r) /\
  (forall g, StronglySorted level_lt (list_role_rewards g d)) /\
  (forall g l r,
     (l, r) ∈ list_role_rewards g (set_role_reward gid level_value role_id d)
     <-> if decide ((g, l) = (gid, level_value)) then r = role_id
         else (l, r) ∈ list_role_rewards g d) /\
  (forall g l r,
     (l, r) ∈ list_role_rewards g (remove_role_reward gid level_value d)
     <-> (g, l) <> (gid, level_value) /\ (l, r) ∈ list_role_rewards g d) /\
  (forall g lo hi,
     select_role_rewards g lo hi d
     = filter (fun lr => lo <= lr.1 <= hi) (list_role_rewards g d)).
Proof.
  split; [intros g l r; apply list_role_rewards_elem|].
  split; [intros g; apply list_role_rewards_sorted|].
  split; [|split].
  - intros g l r. rewrite list_role_rewards_elem. unfold set_role_reward.
    cbn [role_rewards with_role_rewards].
    destruct (decide ((g, l) = (gid, level_value))) as [Heq|Hne].
    + rewrite Heq, lookup_insert_eq. split; congruence.
    + rewrite lookup_insert_ne by congruence. now rewrite list_role_rewards_elem.
  - intros g l r. rewrite !list_role_rewards_elem. unfold remove_role_reward.
    cbn [role_rewards with_role_rewards].
    destruct (decide ((g, l) = (gid, level_value))) as [Heq|Hne].
    + rewrite Heq, lookup_delete_eq. split; [discriminate | tauto].
    + rewrite lookup_delete_ne by congruence. tauto.
  - intros g lo hi. apply level_lt_sorted_unique.
    + apply select_role_rewards_sorted.
    + eapply StronglySorted_sublist; [apply sublist_filter|].
      apply list_role_rewards_sorted.
    + intros [l r]. rewrite select_role_rewards_elem, list_elem_of_filter.
      rewrite list_role_rewards_elem. simpl. tauto.
Qed.

(** ** The progress bar *)

(** The share of the bar that is full, as [format_progress_bar] computes
    it before rounding. *)
Lemma bar_ratio_bounds (progress goal : Z) :
  let ratio := Qmin 1 (inject_Z (Z.max 0 progress) / inject_Z (Z.max goal 1)) in
  (0 <= ratio)%Q /\ (ratio <= 1)%Q /\
  (progress <= 0 -> (ratio == 0)%Q) /\
  (Z.max goal 1 <= progress -> (ratio == 1)%Q).
Proof.
  intros ratio.
  assert (Hg : (0 < inject_Z (Z.max goal 1))%Q).
  { change 0%Q with (inject_Z 0). rewrite <- Zlt_Qlt. lia. }
  assert (Hp : (0 <= inject_Z (Z.max 0 progress))%Q).
  { change 0%Q with (inject_Z 0). rewrite <- Zle_Qle. lia. }
  assert (Hdiv : (0 <= inject_Z (Z.max 0 progress) / inject_Z (Z.max goal 1))%Q).
  { apply Qle_shift_div_l; [exact Hg|]. now rewrite Qmult_0_l. }
  split; [apply Q.min_glb; [discriminate | exact Hdiv]|].
  split; [apply Q.le_min_l|]. split.
  - intros Hle. unfold ratio. replace (Z.max 0 progress) with 0 by lia.
    rewrite Q.min_r.
    + unfold Qdiv. apply Qmult_0_l.
    + unfold Qdiv. rewrite Qmult_0_l. discriminate.
  - intros Hge. unfold ratio. apply Q.min_l.
    apply Qle_shift_div_l; [exact Hg|]. rewrite Qmult_1_l.
    rewrite <- Zle_Qle. lia.
Qed.

Lemma bar_ratio_mono (p1 p2 goal : Z) :
  p1 <= p2 ->
  (Qmin 1 (inject_Z (Z.max 0 p1) / inject_Z (Z.max goal 1))
   <= Qmin 1 (inject_Z (Z.max 0 p2) / inject_Z (Z.max goal 1)))%Q.
Proof.
  intros Hle. apply Q.min_le_compat_l. unfold Qdiv.
  apply Qmult_le_compat_r; [rewrite <- Zle_Qle; lia|].
  apply Qinv_le_0_compat. change 0%Q with (inject_Z 0). rewrite <- Zle_Qle. lia.
Qed.

Lemma filled_cells_bar (n m : nat) :
  filled_cells (replicate n Filled ++ replicate m Blank) = Z.of_nat n.
Proof.
  unfold filled_cells. rewrite filter_app, length_app.
  assert (H1 : forall k, length (filter (fun c => c = Filled) (replicate k Filled)) = k).
  { induction k as [|k IH]; [reflexivity|]. cbn [replicate].
    rewrite filter_cons_True by reflexivity. cbn [length]. now rewrite IH. }
  assert (H2 : forall k, length (filter (fun c => c = Filled) (replicate k Blank)) = 0%nat).
  { induction k as [|k IH]; [reflexivity|]. cbn [replicate].
    now rewrite filter_cons_False by discriminate. }
  rewrite H1, H2. lia.
Qed.

(** The count of full cells, from the source's arithmetic. *)
Lemma bar_filled (progress goal length : Z) :
  let raw := Py.round (Qmin 1 (inject_Z (Z.max 0 progress) / inject_Z (Z.max goal 1))
                       * inject_Z length) in
  format_progress_bar progress goal length
  = replicate (Z.to_nat (filled_cells (format_progress_bar progress goal length))) Filled
    ++ replicate
         (Z.to_nat (length - filled_cells (format_progress_bar progress goal length))) Blank /\
  filled_cells (format_progress_bar progress goal length)
  = (if length <? 0 then 0
     else if (0 <? progress) && (raw =? 0) then Z.min length 1 else raw) /\
  (0 <= length -> 0 <= raw <= length) /\
  (0 <= length -> progress <= 0 -> raw = 0) /\
  (0 <= length -> Z.max goal 1 <= progress -> raw = length).
Proof.
  intros raw.
  destruct (bar_ratio_bounds progress goal) as (H0 & H1 & Hz & Hf).
  set (ratio := Qmin 1 (inject_Z (Z.max 0 progress) / inject_Z (Z.max goal 1))) in *.
  assert (Hlen : 0 <= length -> (0 <= inject_Z length)%Q).
  { intros Hl. change 0%Q with (inject_Z 0). now rewrite <- Zle_Qle. }
  assert (Hraw : 0 <= length -> 0 <= raw <= length).
  { intros Hl. specialize (Hlen Hl). split.
    + transitivity (Py.round 0); [now rewrite round_0|].
      apply round_mono. now apply Qmult_le_0_compat.
    + transitivity (Py.round (inject_Z length)); [|rewrite round_inject_Z; lia].
      apply round_mono. apply (Qle_trans _ (1 * inject_Z length)).
      * now apply Qmult_le_compat_r.
      * rewrite Qmult_1_l. apply Qle_refl. }
  set (filled := if (0 <? Z.max 0 progress) && (raw =? 0) then 1 else raw).
  assert (Hcells : filled_cells (format_progress_bar progress goal length)
                   = Z.max 0 (Z.min length filled)).
  { unfold format_progress_bar. fold ratio. fold raw. fold filled.
    rewrite filled_cells_bar. lia. }
  split; [rewrite Hcells; reflexivity|].
  split.
  { rewrite Hcells. unfold filled. clearbody raw. clear - Hraw.
    replace (0 <? Z.max 0 progress) with (0 <? progress)
      by (destruct (Z.ltb_spec 0 progress), (Z.ltb_spec 0 (Z.max 0 progress)); lia).
    destruct (Z.ltb_spec length 0) as [Hl|Hl]; [lia|]. specialize (Hraw Hl).
    destruct ((0 <? progress) && (raw =? 0)); lia. }
  split; [exact Hraw|]. split.
  - intros Hl Hle. transitivity (Py.round 0); [|apply round_0].
    apply round_Qeq. rewrite (Hz Hle). apply Qmult_0_l.
  - intros Hl Hge. transitivity (Py.round (inject_Z length)); [|apply round_inject_Z].
    apply round_Qeq. rewrite (Hf Hge). apply Qmult_1_l.
Qed.

Lemma progress_bar_cells (progress goal length : Z) :
  Z.of_nat (List.length (format_progress_bar progress goal length)) = Z.max 0 length.
Proof.
  destruct (bar_filled progress goal length) as (Hbar & Hcells & Hraw & _).
  cbv zeta in *.
  set (raw := Py.round (Qmin 1 (inject_Z (Z.max 0 progress) / inject_Z (Z.max goal 1))
                        * inject_Z length)) in *.
  set (cells := filled_cells (format_progress_bar progress goal length)) in *.
  assert (Hrange : 0 <= cells <= Z.max 0 length).
  { rewrite Hcells. clear - Hraw. clearbody raw.
    destruct (Z.ltb_spec length 0) as [Hl|Hl]; [lia|]. specialize (Hraw Hl).
    destruct ((0 <? progress) && (raw =? 0)); lia. }
  rewrite Hbar, length_app, !length_replicate. clear - Hrange. lia.
Qed.

(** X19: [format_progress_bar].  The bar has [length] cells (none for a
    negative length), the full ones first.  Nothing is full without
    progress; any progress fills at least one cell; progress that reaches
    the goal fills them all; and more progress towards the same goal
    never fills fewer cells. *)
Theorem progress_bar_shape (progress goal length : Z) :
  let bar := format_progress_bar progress goal length in
  Z.of_nat (List.length bar) = Z.max 0 length /\
  bar = replicate (Z.to_nat (filled_cells bar)) Filled
        ++ replicate (Z.to_nat (length - filled_cells bar)) Blank /\
  0 <= filled_cells bar <= Z.max 0 length /\
  (progress <= 0 -> filled_cells bar = 0) /\
  (0 < progress -> 0 < length -> 1 <= filled_cells bar) /\
  (Z.max goal 1 <= progress -> filled_cells bar = Z.max 0 length) /\
  (forall more, progress <= more ->
     filled_cells bar <= filled_cells (format_progress_bar more goal length)).
Proof.
  intros bar. unfold bar.
  destruct (bar_filled progress goal length) as (Hbar & Hcells & Hraw & Hzero & Hfull).
  cbv zeta in *.
  set (raw := Py.round (Qmin 1 (inject_Z (Z.max 0 progress) / inject_Z (Z.max goal 1))
                        * inject_Z length)) in *.
  set (cells := filled_cells (format_progress_bar progress goal length)) in *.
  assert (Hrange : 0 <= cells <= Z.max 0 length).
  { rewrite Hcells. clear - Hraw. clearbody raw.
    destruct (Z.ltb_spec length 0) as [Hl|Hl]; [lia|]. specialize (Hraw Hl).
    destruct ((0 <? progress) && (raw =? 0)); lia. }
  split; [apply progress_bar_cells|].
  split; [exact Hbar|]. split; [exact Hrange|]. split.
  { intros Hle. rewrite Hcells. clear - Hzero Hle. clearbody raw.
    destruct (Z.ltb_spec length 0) as [Hl|Hl]; [reflexivity|].
    rewrite (Hzero Hl Hle). destruct (Z.ltb_spec 0 progress); [lia | reflexivity]. }
  split.
  { intros Hp Hl. rewrite Hcells. clear - Hraw Hp Hl. clearbody raw.
    destruct (Z.ltb_spec length 0); [lia|]. assert (Hr : 0 <= raw <= length) by (apply Hraw; lia).
    clear Hraw. destruct (Z.ltb_spec 0 progress); [|lia].
    destruct (Z.eqb_spec raw 0); cbn [andb]; lia. }
  split.
  { intros Hge. rewrite Hcells. clear - Hfull Hge. clearbody raw.
    destruct (Z.ltb_spec length 0) as [Hl|Hl]; [lia|].
    rewrite (Hfull Hl Hge). destruct (Z.eqb_spec length 0) as [->|Hne].
    - destruct (0 <? progress); reflexivity.
    - rewrite andb_false_r. lia. }
  intros more Hmore.
  destruct (bar_filled more goal length) as (_ & Hcells' & Hraw' & _).
  cbv zeta in *. rewrite Hcells, Hcells'.
  set (raw' := Py.round (Qmin 1 (inject_Z (Z.max 0 more) / inject_Z (Z.max goal 1))
                         * inject_Z length)) in *.
  destruct (Z.ltb_spec length 0) as [Hl|Hl]; [reflexivity|].
  assert (Hmono : raw <= raw').
  { unfold raw, raw'. apply round_mono. apply Qmult_le_compat_r.
    - now apply bar_ratio_mono.
    - change 0%Q with (inject_Z 0). now rewrite <- Zle_Qle. }
  assert (Hr : 0 <= raw <= length) by (now apply Hraw).
  assert (Hr' : 0 <= raw' <= length) by (now apply Hraw').
  assert (Hz : progress <= 0 -> raw = 0) by (intros; now apply Hzero).
  clear - Hmore Hmono Hr Hr' Hz Hl. clearbody raw raw'.
  destruct (Z.ltb_spec 0 progress); destruct (Z.ltb_spec 0 more);
    destruct (Z.eqb_spec raw 0); destruct (Z.eqb_spec raw' 0); cbn [andb]; lia.
Qed.

(** ** The profile *)

Lemma get_user_record_spec gid uid d :
  let r := get_user_record gid uid d in
  user_xp r.2 !! (gid, uid) = Some r.1 /\
  xp r.1 = stored_xp gid uid d /\ level r.1 = stored_level gid uid d /\
  last_message_ts r.1 = get_last_message_ts gid uid d /\
  (forall k, k <> (gid, uid) -> user_xp r.2 !! k = user_xp d !! k) /\
  (forall row, user_xp d !! (gid, uid) = Some row -> r = (row, d)) /\
  guild_settings r.2 = guild_settings d /\ role_rewards r.2 = role_rewards d /\
  ignored_channels r.2 = ignored_channels d /\
  blacklisted_roles r.2 = blacklisted_roles d.
Proof.
  unfold get_user_record, stored_xp, stored_level, get_last_message_ts.
  destruct (user_xp d !! (gid, uid)) as [row|] eqn:E; cbn.
  - repeat split; auto. congruence.
  - rewrite lookup_insert_eq. repeat split; auto.
    + intros k Hk. now rewrite lookup_insert_ne by congruence.
    + discriminate.
Qed.

Lemma user_rank_range gid uid d row :
  user_xp d !! (gid, uid) = Some row ->
  1 <= user_rank gid uid d <= Z.of_nat (length (select_user_rows gid d)).
Proof.
  intros Hrow. unfold user_rank, count_better. rewrite Hrow.
  assert (Hin : (uid, xp row, level row) ∈ select_user_rows gid d).
  { apply elem_of_select_user_rows. eauto. }
  pose proof (length_filter_lt (fun r : Z * Z * Z => xp row < r.1.2) _ _ Hin) as Hlt.
  simpl in Hlt. specialize (Hlt ltac:(lia)). lia.
Qed.

(** X20: the [/level profile] card.  The command answers "Failed to
    fetch profile." exactly when the code cannot compute the threshold
    of the level after the stored one (on the exponential curve, always
    for a stored level from 5078 on) or the progress is beyond the float
    range of the amount between the levels, which no stored XP within
    64 bits is.  Otherwise the card shows the stored XP and level of the
    subject (0 and 0 for a subject without a row), a rank between 1 and
    the number of subjects of the guild, never "Unranked", and an amount
    left to the next level, never "Max level reached"; the progress is
    not negative and the bar has 18 cells.  Either way the subject's row
    is created when missing, no other row changes, and no other table
    does but for the settings row that reading the settings may
    create. *)
Theorem profile_card (gid target : Z) (d : Db) :
  let s := (get_settings gid d).1 in
  let lvl := stored_level gid target d in
  let req := xp_required_for_level (curve_type s) (base_xp s) (curve_a s) (curve_b s) in
  let to_next := xp_between_levels (curve_type s) (base_xp s) (curve_a s) (curve_b s) lvl in
  let progress := Z.max 0 (stored_xp gid target d - req lvl) in
  let r := profile gid target d in
  (r.1 = None <-> xp_required_raises (curve_type s) (base_xp s) (lvl + 1) = true
                  \/ FLOAT_LIMIT * to_next <= progress) /\
  (sqlite_integer (stored_xp gid target d) = true ->
   (r.1 = None <-> xp_required_raises (curve_type s) (base_xp s) (lvl + 1) = true)) /\
  (curve_of (curve_type s) = Exponential -> 5078 <= lvl -> r.1 = None) /\
  (forall embed, r.1 = Some embed ->
     pe_total_xp embed = stored_xp gid target d /\
     pe_level embed = lvl /\
     (exists rank, pe_rank_label embed = Some rank /\
                   1 <= rank <= Z.of_nat (length (select_user_rows gid r.2))) /\
     (exists left, pe_next_level_in embed = Some left /\ 0 <= left <= to_next) /\
     pe_to_next embed = to_next /\ 1 <= to_next /\
     pe_progress embed = progress /\ 0 <= progress /\
     length (pe_bar embed) = 18%nat) /\
  user_xp r.2 !! (gid, target)
    = Some {| xp := stored_xp gid target d; level := lvl;
              last_message_ts := get_last_message_ts gid target d |} /\
  (forall k, k <> (gid, target) -> user_xp r.2 !! k = user_xp d !! k) /\
  guild_settings r.2 = guild_settings (get_settings gid d).2 /\
  role_rewards r.2 = role_rewards d /\
  ignored_channels r.2 = ignored_channels d /\
  blacklisted_roles r.2 = blacklisted_roles d.
Proof.
  intros s lvl req to_next progress r. unfold r, profile.
  destruct (get_user_record_spec gid target d)
    as (Hrow & Hxp & Hlvl & Hts & Hne & _ & Hgs & Hrr & Hic & Hbr).
  destruct (get_user_record gid target d) as [record d1]. cbn [fst snd] in *.
  assert (Hset : get_settings gid d1 = (s, (get_settings gid d1).2)
                 /\ guild_settings (get_settings gid d1).2
                    = guild_settings (get_settings gid d).2).
  { unfold s, get_settings. rewrite Hgs.
    destruct (guild_settings d !! gid); cbn; rewrite ?Hgs; auto. }
  destruct Hset as [Hs Hgs2].
  destruct (get_settings_tables gid d1) as (Hux2 & Hrr2 & Hic2 & Hbr2).
  rewrite Hs. set (d2 := (get_settings gid d1).2) in *.
  assert (Hrow2 : user_xp d2 !! (gid, target) = Some record) by now rewrite Hux2.
  fold lvl in Hlvl. rewrite Hlvl, Hxp. fold req to_next progress.
  assert (Hraise : xp_required_raises (curve_type s) (base_xp s) (lvl + 1)
                   || xp_required_raises (curve_type s) (base_xp s) lvl
                   = xp_required_raises (curve_type s) (base_xp s) (lvl + 1)).
  { destruct (xp_required_raises (curve_type s) (base_xp s) (lvl + 1)) eqn:E;
      [reflexivity|]. cbn [orb]. apply (xp_required_raises_down _ _ lvl (lvl + 1)); [lia|].
    exact E. }
  rewrite Hraise.
  assert (Hstore :
    user_xp d2 !! (gid, target)
      = Some {| xp := stored_xp gid target d; level := lvl;
                last_message_ts := get_last_message_ts gid target d |} /\
    (forall k, k <> (gid, target) -> user_xp d2 !! k = user_xp d !! k) /\
    guild_settings d2 = guild_settings (get_settings gid d).2 /\
    role_rewards d2 = role_rewards d /\
    ignored_channels d2 = ignored_channels d /\
    blacklisted_roles d2 = blacklisted_roles d).
  { split; [rewrite Hrow2; destruct record; simpl in *; congruence|].
    split; [intros k Hk; rewrite Hux2; now apply Hne|].
    split; [exact Hgs2|]. split; [now rewrite Hrr2|].
    split; [now rewrite Hic2 | now rewrite Hbr2]. }
  assert (H5078 : curve_of (curve_type s) = Exponential -> 5078 <= lvl ->
                  xp_required_raises (curve_type s) (base_xp s) (lvl + 1) = true).
  { intros Hc Hl. unfold xp_required_raises. rewrite Hc.
    destruct (Z.ltb_spec 0 (lvl + 1)); [|lia].
    destruct (Z.leb_spec 5079 (lvl + 1)); [reflexivity | lia]. }
  assert (Hnext : 1 <= to_next) by (unfold to_next, xp_between_levels; lia).
  assert (Hprog : 0 <= progress) by (unfold progress; lia).
  assert (Hlim : 2 ^ 63 <= FLOAT_LIMIT) by (apply Z.leb_le; vm_compute; reflexivity).
  assert (Hdiv : true_division_raises progress to_next = true
                 <-> FLOAT_LIMIT * to_next <= progress).
  { unfold true_division_raises. rewrite Z.leb_le, !Z.abs_eq by lia. reflexivity. }
  assert (Hsmall : sqlite_integer (stored_xp gid target d) = true ->
                   ~ FLOAT_LIMIT * to_next <= progress).
  { unfold sqlite_integer. rewrite andb_true_iff, !Z.leb_le. intros [_ Hhi].
    pose proof (xp_required_nonneg (curve_type s) (base_xp s) (curve_a s) (curve_b s) lvl)
      as Hreq. fold req in Hreq.
    assert (Hp : progress < 2 ^ 63) by (unfold progress; clear - Hhi Hreq; lia).
    assert (Hc0 : 0 < 2 ^ 63) by reflexivity.
    clearbody progress to_next. clear - Hp Hlim Hnext Hc0.
    set (c := 2 ^ 63) in *. clearbody c. set (F := FLOAT_LIMIT) in *. clearbody F.
    nia. }
  destruct (xp_required_raises (curve_type s) (base_xp s) (lvl + 1)) eqn:E; cbn [fst snd].
  { split; [split; auto|]. split; [intros _; split; auto|]. split; [reflexivity|].
    split; [discriminate | exact Hstore]. }
  destruct (true_division_raises progress to_next) eqn:Ediv; cbn [fst snd].
  { pose proof (proj1 Hdiv eq_refl) as Hover. split; [split; auto|].
    split; [intros Hsq; exfalso; now apply (Hsmall Hsq)|].
    split; [intros Hc Hl; specialize (H5078 Hc Hl); discriminate|].
    split; [discriminate | exact Hstore]. }
  assert (Hno : ~ FLOAT_LIMIT * to_next <= progress).
  { intros Hc. apply Hdiv in Hc. discriminate. }
  split; [split; [discriminate | intros [?|?]; [discriminate | contradiction]]|].
  split; [intros _; split; discriminate|].
  split; [intros Hc Hl; specialize (H5078 Hc Hl); discriminate|].
  split; [|exact Hstore].
  intros embed [= <-].
  pose proof (user_rank_range gid target d2 record Hrow2) as Hrank.
  unfold create_profile_embed. cbn [pe_total_xp pe_level pe_rank_label pe_next_level_in
    pe_to_next pe_progress pe_bar].
  destruct (Z.ltb_spec 0 (user_rank gid target d2)); [|lia].
  destruct (Z.ltb_spec 0 to_next); [|lia].
  split; [reflexivity|]. split; [reflexivity|].
  split; [eexists; split; [reflexivity | exact Hrank]|].
  split; [eexists; split; [reflexivity | clear - Hnext Hprog; lia]|].
  split; [reflexivity|]. split; [exact Hnext|].
  split; [reflexivity|]. split; [exact Hprog|].
  pose proof (progress_bar_cells progress to_next 18) as Hlen.
  apply Nat2Z.inj. rewrite Hlen. reflexivity.
Qed.

Lemma profile_card_witness :
  curve_of (curve_type (get_settings 1 steep_db).1) = Exponential /\
  5078 <= stored_level 1 5 steep_db /\
  (profile 1 5 steep_db).1 = None /\
  user_xp (profile 1 5 steep_db).2 !! (1, 5)
  = Some {| xp := 0; level := 5078; last_message_ts := 0 |} /\
  exists embed,
    (profile 1 9 empty_db).1 = Some embed /\
    pe_total_xp embed = 0 /\ pe_level embed = 0 /\ pe_rank_label embed = Some 1 /\
    pe_next_level_in embed = Some 150 /\ length (pe_bar embed) = 18%nat.
Proof.
  assert (Hexp : curve_of (curve_type (get_settings 1 steep_db).1) = Exponential)
    by (vm_compute; reflexivity).
  assert (Hlvl : 5078 <= stored_level 1 5 steep_db) by (vm_compute; discriminate).
  pose proof (profile_card 1 5 steep_db) as (_ & _ & Hfail & _ & Hrow & _).
  split; [exact Hexp|]. split; [exact Hlvl|]. split; [exact (Hfail Hexp Hlvl)|].
  split; [exact Hrow|].
  pose proof (profile_card 1 9 empty_db) as (_ & _ & _ & Hcard & _).
  assert (Hsome : exists embed, (profile 1 9 empty_db).1 = Some embed
                                /\ pe_rank_label embed = Some 1
                                /\ pe_next_level_in embed = Some 150)
    by (eexists; vm_compute; repeat split; reflexivity).
  destruct Hsome as (embed & Hembed & Hrank & Hleft).
  destruct (Hcard embed Hembed) as (Htotal & Hlevel & _ & _ & _ & _ & _ & _ & Hbar).
  exists embed. split; [exact Hembed|]. split; [exact Htotal|]. split; [exact Hlevel|].
  split; [exact Hrank|]. split; [exact Hleft | exact Hbar].
Defined.

(** ** The leaderboard view *)

Lemma board_entries_lookup rows start idx viewer (i : nat) :
  board_entries rows start idx viewer !! i
  = (fun r : Z * Z * Z =>
       let rank := start + (idx + Z.of_nat i) + 1 in
       mkBoardEntry
         (if (rank =? 1) || (rank =? 2) || (rank =? 3) then Medal rank else Numbered rank)
         (r.1.1) (r.2) (r.1.2)
         (match viewer with
          | Some v => negb (v =? 0) && (v =? r.1.1)
          | None => false
          end)) <$> rows !! i.
Proof.
  revert idx i. induction rows as [|[[uid x] l] rows IH]; intros idx i; [reflexivity|].
  destruct i as [|i].
  - cbn. now rewrite Z.add_0_r.
  - change (board_entries ((uid, x, l) :: rows) start idx viewer !! S i)
      with (board_entries rows start (idx + 1) viewer !! i).
    change (((uid, x, l) :: rows) !! S i) with (rows !! i).
    rewrite (IH (idx + 1) i). cbv zeta.
    now replace (idx + 1 + Z.of_nat i) with (idx + Z.of_nat (S i)) by lia.
Qed.

Lemma board_entries_length rows start idx viewer :
  length (board_entries rows start idx viewer) = length rows.
Proof.
  revert idx. induction rows as [|[[uid x] l] rows IH]; intros idx; [reflexivity|].
  cbn. now rewrite IH.
Qed.

Lemma build_leaderboard_embed_entries rows start page per_page viewer :
  bd_entries (build_leaderboard_embed rows start page per_page viewer)
  = board_entries rows start 0 viewer.
Proof. now destruct rows. Qed.

(** Line [i] of a rendered page: the row of the full ranking it shows and
    the place it gives it. *)
Lemma render_entry (v : LeaderboardView) (d : Db) (i : nat) (entry : BoardEntry) :
  0 <= lv_page v -> 0 < lv_per_page v ->
  bd_entries (render v d) !! i = Some entry ->
  let start := lv_page v * lv_per_page v in
  top_users (lv_guild v) (-1) 0 d !! (Z.to_nat start + i)%nat
    = Some (be_user entry, be_xp entry, be_level entry) /\
  label_place (be_label entry) = start + Z.of_nat i + 1.
Proof.
  intros Hpage Hper Hentry start.
  unfold render in Hentry. fold start in Hentry.
  rewrite build_leaderboard_embed_entries, board_entries_lookup in Hentry.
  destruct (top_users (lv_guild v) (lv_per_page v) start d !! i) as [[[uid x] l]|] eqn:Hi;
    [|discriminate].
  cbn in Hentry. injection Hentry as <-. cbn [be_user be_xp be_level be_label].
  split.
  - unfold top_users, sql_limit in Hi. destruct (Z.ltb_spec (lv_per_page v) 0); [lia|].
    rewrite lookup_take in Hi. destruct (decide (i < Z.to_nat (lv_per_page v))%nat);
      [|discriminate]. now rewrite lookup_drop in Hi.
  - destruct (_ || _); cbn [label_place]; lia.
Qed.

(** X21: the buttons of the leaderboard.  Whatever is pressed, in whatever
    order, the page never goes below 0 nor beyond the number of presses
    of Next, and the guild, the page size and the viewer stay those
    the view was opened with; Previous undoes Next; Previous on the first
    page stays there. *)
Theorem view_navigation (gid per_page : Z) (viewer : option Z) (buttons : list Button) :
  let v := foldl (fun v b => press b v) (new_view gid per_page viewer) buttons in
  0 <= lv_page v <= Z.of_nat (length (filter (fun b => b = Next) buttons)) /\
  lv_guild v = gid /\ lv_per_page v = per_page /\ lv_viewer v = viewer /\
  press Previous (press Next v) = v /\
  press Previous (new_view gid per_page viewer) = new_view gid per_page viewer.
Proof.
  intros v.
  assert (H : 0 <= lv_page v <= Z.of_nat (length (filter (fun b => b = Next) buttons)) /\
              lv_guild v = gid /\ lv_per_page v = per_page /\ lv_viewer v = viewer).
  { unfold v. induction buttons as [|b buttons IH] using rev_ind.
    - cbn. repeat split; lia.
    - rewrite foldl_app, filter_app, length_app. cbn [foldl].
      destruct IH as (Hp & Hg & Hpp & Hv).
      set (v0 := foldl (fun v b => press b v) (new_view gid per_page viewer) buttons) in *.
      destruct b; cbn [press].
      + rewrite filter_cons_False, filter_nil by discriminate. cbn [length].
        destruct (Z.ltb_spec 0 (lv_page v0)); cbn; repeat split; auto; lia.
      + rewrite filter_cons_True, filter_nil by reflexivity. cbn.
        repeat split; auto; lia. }
  destruct H as (Hp & Hg & Hpp & Hv).
  repeat split; auto; try lia.
  cbn [press lv_page lv_guild lv_per_page lv_viewer].
  destruct (Z.ltb_spec 0 (lv_page v + 1)); [|lia].
  destruct v. cbn. f_equal. lia.
Qed.

(** X22: what a page of the leaderboard shows.  With a positive page size
    and a page that is not negative, the page lists the positions
    [page * per_page] onwards of the full ranking, at most [per_page] of
    them, in order; line [i] shows the place [page * per_page + i + 1],
    as a medal exactly for the places 1 to 3, and is underlined exactly
    for the viewer; a page beyond the ranking has no line and no
    "Showing" field. *)
Theorem leaderboard_page (v : LeaderboardView) (d : Db) :
  0 <= lv_page v -> 0 < lv_per_page v ->
  let full := top_users (lv_guild v) (-1) 0 d in
  let start := lv_page v * lv_per_page v in
  let e := render v d in
  let n := Z.of_nat (length (bd_entries e)) in
  bd_page_shown e = lv_page v + 1 /\
  n = Z.max 0 (Z.min (lv_per_page v) (Z.of_nat (length full) - start)) /\
  (forall (i : nat) entry,
     bd_entries e !! i = Some entry ->
     full !! (Z.to_nat start + i)%nat = Some (be_user entry, be_xp entry, be_level entry) /\
     label_place (be_label entry) = start + Z.of_nat i + 1 /\
     (be_label entry = Medal (label_place (be_label entry))
      <-> label_place (be_label entry) <= 3) /\
     (be_underlined entry = true
      <-> lv_viewer v = Some (be_user entry) /\ be_user entry <> 0)) /\
  (if decide (n = 0) then bd_showing e = None /\ bd_count e = None
   else bd_showing e = Some (start + 1, start + n) /\
        bd_count e = Some (n, lv_per_page v)).
Proof.
  intros Hpage Hper full start e n.
  assert (Hstart : 0 <= start) by (unfold start; lia).
  set (rows := top_users (lv_guild v) (lv_per_page v) start d).
  assert (Hrows : rows = take (Z.to_nat (lv_per_page v)) (drop (Z.to_nat start) full)).
  { unfold rows, top_users, sql_limit. destruct (Z.ltb_spec (lv_per_page v) 0); [lia|].
    reflexivity. }
  assert (He : e = build_leaderboard_embed rows start (lv_page v) (lv_per_page v) (lv_viewer v))
    by reflexivity.
  assert (Hn : n = Z.of_nat (length rows)).
  { unfold n. now rewrite He, build_leaderboard_embed_entries, board_entries_length. }
  split; [rewrite He; now destruct rows|].
  split.
  { rewrite Hn, Hrows, length_take, length_drop. lia. }
  split.
  { intros i entry Hentry.
    destruct (render_entry v d i entry Hpage Hper Hentry) as [Hfull Hplace].
    fold full start in Hfull. fold start in Hplace.
    split; [exact Hfull|]. split; [exact Hplace|]. clear Hfull Hplace.
    rewrite He, build_leaderboard_embed_entries, board_entries_lookup in Hentry.
    destruct (rows !! i) as [[[uid x] l]|] eqn:Hi; [|discriminate].
    cbn in Hentry. injection Hentry as <-. cbn [be_user be_xp be_level be_label be_underlined].
    set (rank := start + (0 + Z.of_nat i) + 1).
    assert (Hrank : 1 <= rank) by (unfold rank; lia).
    split.
    - clearbody rank. destruct ((rank =? 1) || (rank =? 2) || (rank =? 3)) eqn:E;
        cbn [label_place].
      + apply orb_prop in E as [E|E]; [apply orb_prop in E as [E|E]|];
          apply Z.eqb_eq in E; (split; [lia | reflexivity]).
      + apply orb_false_elim in E as [E E3]. apply orb_false_elim in E as [E1 E2].
        apply Z.eqb_neq in E1, E2, E3. split; [discriminate | lia].
    - destruct (lv_viewer v) as [w|]; [|split; [discriminate | intros [[=] _]]].
      rewrite andb_true_iff, negb_true_iff, Z.eqb_neq, Z.eqb_eq. split.
      + intros [Hw ->]. auto.
      + intros [[= ->] Hw]. auto. }
  rewrite He. destruct (decide (n = 0)) as [H0|H0]; rewrite Hn in *.
  - destruct rows; [split; reflexivity | cbn in H0; lia].
  - destruct rows; [cbn in H0; lia | split; reflexivity].
Qed.

Lemma leaderboard_page_witness :
  let v := new_view 1 10 (Some 2) in
  0 <= lv_page v /\ 0 < lv_per_page v /\
  bd_page_shown (render v board_db) = lv_page v + 1.
Proof.
  intros v.
  assert (H1 : 0 <= lv_page v) by (vm_compute; discriminate).
  assert (H2 : 0 < lv_per_page v) by reflexivity.
  split; [exact H1|]. split; [exact H2|].
  exact (proj1 (leaderboard_page v board_db H1 H2)).
Defined.

Lemma length_filter_all {A} (P : A -> Prop) `{forall x, Decision (P x)} (l : list A) :
  length (filter P l) = length l <-> Forall P l.
Proof.
  induction l as [|a l IH]; [split; [constructor | reflexivity]|].
  destruct (decide (P a)) as [Ha|Ha].
  - rewrite filter_cons_True by exact Ha. cbn [length]. rewrite Forall_cons.
    split; [intros [= Hl]; split; [exact Ha | now apply IH] |
            intros [_ Hl]; f_equal; now apply IH].
  - rewrite filter_cons_False by exact Ha. cbn [length].
    pose proof (length_filter P l). split; [lia|].
    intros Hall. apply Forall_cons in Hall as [Hp _]. contradiction.
Qed.

(** The number of rows with more XP than the row at a position of the
    full ranking is the number of such rows above it. *)
Lemma better_above (gid : Z) (d : Db) (pos : nat) (uid x l : Z) :
  let full := top_users gid (-1) 0 d in
  full !! pos = Some (uid, x, l) ->
  user_rank gid uid d
  = Z.of_nat (length (filter (fun r : Z * Z * Z => x < r.1.2) (take pos full))) + 1.
Proof.
  intros full Hpos.
  assert (Hfull : full = merge_sort leaderboard_order (select_user_rows gid d))
    by reflexivity.
  assert (Hperm : full ≡ₚ select_user_rows gid d)
    by (rewrite Hfull; apply merge_sort_Permutation).
  assert (Hsorted : StronglySorted leaderboard_order full).
  { rewrite Hfull.
    apply (@StronglySorted_merge_sort _ leaderboard_order _
             leaderboard_order_trans leaderboard_order_total). }
  assert (Hin : (uid, x, l) ∈ select_user_rows gid d).
  { rewrite <- Hperm. eapply list_elem_of_lookup_2. exact Hpos. }
  apply elem_of_select_user_rows in Hin as (row & Hrow & Hx & _).
  unfold user_rank, count_better. rewrite Hrow, Hx. f_equal. f_equal.
  rewrite <- Hperm.
  rewrite <- (take_drop_middle full pos (uid, x, l) Hpos) at 1.
  rewrite <- (take_drop_middle full pos (uid, x, l) Hpos) in Hsorted.
  apply StronglySorted_app_1_r, StronglySorted_cons in Hsorted as [Hbelow _].
  rewrite filter_app, filter_cons_False by (simpl; lia).
  assert (Hnone : filter (fun r : Z * Z * Z => x < r.1.2) (drop (S pos) full) = []).
  { apply elem_of_nil_inv. intros y Hy. apply list_elem_of_filter in Hy as [Hlt Hy].
    rewrite Forall_forall in Hbelow. specialize (Hbelow y Hy).
    unfold leaderboard_order in Hbelow. simpl in Hbelow. lia. }
  rewrite Hnone, app_nil_r. reflexivity.
Qed.

(** X23: the place on the leaderboard against the rank on the profile.
    The rank [user_rank] gives a subject is never below 1 and never
    after the place their line shows; the two agree exactly when every
    subject listed above has strictly more XP, so subjects tied on XP
    share a rank but not a place. *)
Theorem shown_place_vs_rank (v : LeaderboardView) (d : Db) (i : nat) (entry : BoardEntry) :
  0 <= lv_page v -> 0 < lv_per_page v ->
  bd_entries (render v d) !! i = Some entry ->
  let full := top_users (lv_guild v) (-1) 0 d in
  let pos := (Z.to_nat (lv_page v * lv_per_page v) + i)%nat in
  let rank := user_rank (lv_guild v) (be_user entry) d in
  let place := label_place (be_label entry) in
  place = Z.of_nat pos + 1 /\
  1 <= rank <= place /\
  (rank = place <->
   forall (j : nat) other, (j < pos)%nat -> full !! j = Some other -> be_xp entry < other.1.2).
Proof.
  intros Hpage Hper Hentry full pos rank place.
  destruct (render_entry v d i entry Hpage Hper Hentry) as [Hpos Hplace].
  fold full pos in Hpos. fold place in Hplace.
  assert (Hpl : place = Z.of_nat pos + 1) by (unfold pos; lia).
  pose proof (better_above (lv_guild v) d pos _ _ _ Hpos) as Hrank.
  fold rank full in Hrank.
  set (P := fun r : Z * Z * Z => be_xp entry < r.1.2) in *.
  pose proof (length_filter P (take pos full)) as Hle.
  assert (Htake : length (take pos full) = pos).
  { apply length_take_le. apply lookup_lt_Some in Hpos. lia. }
  split; [exact Hpl|]. split; [lia|].
  rewrite Hpl, Hrank. split.
  - intros Heq j other Hj Hother.
    assert (Hall : Forall P (take pos full))
      by (apply (proj1 (length_filter_all P (take pos full))); lia).
    rewrite Forall_forall in Hall. apply Hall.
    eapply list_elem_of_lookup_2. rewrite lookup_take, decide_True by exact Hj. exact Hother.
  - intros Hall.
    assert (Hf : Forall P (take pos full)).
    { apply Forall_forall. intros y Hy. apply list_elem_of_lookup_1 in Hy as [j Hj].
      rewrite lookup_take in Hj. destruct (decide (j < pos)%nat); [|discriminate].
      now apply (Hall j y). }
    apply (proj2 (length_filter_all P (take pos full))) in Hf. lia.
Qed.

Lemma shown_place_vs_rank_witness :
  let v := new_view 1 10 (Some 2) in
  let entry := mkBoardEntry (Medal 2) 2 1 300 true in
  0 <= lv_page v /\ 0 < lv_per_page v /\
  bd_entries (render v board_db) !! 1%nat = Some entry /\
  1 <= user_rank 1 2 board_db <= 2.
Proof.
  intros v entry.
  assert (H1 : 0 <= lv_page v) by (vm_compute; discriminate).
  assert (H2 : 0 < lv_per_page v) by reflexivity.
  assert (H3 : bd_entries (render v board_db) !! 1%nat = Some entry)
    by (vm_compute; reflexivity).
  split; [exact H1|]. split; [exact H2|]. split; [exact H3|].
  exact (proj1 (proj2 (shown_place_vs_rank v board_db 1 entry H1 H2 H3))).
Defined.

(** ** The curve preview *)

Lemma len_append (s1 s2 : string) :
  Py.len (String.append s1 s2) = Py.len s1 + Py.len s2.
Proof.
  unfold Py.len. induction s1 as [|c s1 IH].
  - change (String.append EmptyString s2) with s2. cbn [String.length]. lia.
  - change (String.append (String c s1) s2) with (String c (String.append s1 s2)).
    cbn [String.length]. rewrite !Nat2Z.inj_succ. lia.
Qed.

Lemma len_nonneg (s : string) : 0 <= Py.len s.
Proof. unfold Py.len. lia. Qed.

(** The length of a chunk with one more line. *)
Lemma len_join_snoc (chunk : list string) (line : string) :
  Py.len (String.concat newline (chunk ++ [line]))
  = (match chunk with [] => 0 | _ => Py.len (String.concat newline chunk) + 1 end)
    + Py.len line.
Proof.
  induction chunk as [|x chunk IH]; [reflexivity|].
  destruct chunk as [|y chunk].
  - cbn [app String.concat]. rewrite !len_append.
    change (Py.len newline) with 1. lia.
  - change (String.concat newline ((x :: y :: chunk) ++ [line]))
      with (String.append x (String.append newline
              (String.concat newline ((y :: chunk) ++ [line])))).
    change (String.concat newline (x :: y :: chunk))
      with (String.append x (String.append newline (String.concat newline (y :: chunk)))).
    rewrite !len_append, IH. change (Py.len newline) with 1. lia.
Qed.

(** The packing loop, from any state it can be in: [total_len] is the
    length of the open chunk joined, plus 1, and 0 before the first
    line. *)
Lemma pack_lines_from (lines : list string) :
  Forall (fun line => Py.len line <= 1899) lines ->
  forall (done : list (list string)) (chunk : list string) (total_len : Z),
    total_len = match chunk with
                | [] => 0
                | _ => Py.len (String.concat newline chunk) + 1
                end ->
    total_len <= 1900 ->
    exists groups : list (list string),
      pack_lines lines (String.concat newline <$> done) chunk total_len
        = String.concat newline <$> (done ++ groups) /\
      concat groups = chunk ++ lines /\
      Forall (fun g => g <> [] /\ Py.len (String.concat newline g) <= 1899) groups.
Proof.
  induction 1 as [|line lines Hline Hlines IH]; intros done chunk total_len Htot Hle.
  - cbn [pack_lines]. destruct chunk as [|x chunk].
    + exists []. rewrite !app_nil_r. repeat split. constructor.
    + exists [x :: chunk]. split; [now rewrite fmap_app|].
      split; [cbn; now rewrite !app_nil_r|].
      constructor; [|constructor]. split; [discriminate | lia].
  - cbn [pack_lines]. pose proof (len_nonneg line) as Hnn.
    destruct (Z.gtb_spec (total_len + Py.len line + 1) 1900) as [Hover|Hfits].
    + destruct chunk as [|x chunk]; [lia|].
      destruct (IH (done ++ [x :: chunk]) [line] (Py.len line + 1))
        as (groups & Heq & Hcat & Hall); [reflexivity | lia |].
      exists ((x :: chunk) :: groups). split.
      { rewrite fmap_app in Heq. cbn [fmap list_fmap] in Heq. rewrite Heq.
        now rewrite <- app_assoc. }
      split; [cbn [concat]; rewrite Hcat; reflexivity|].
      constructor; [split; [discriminate | lia] | exact Hall].
    + destruct (IH done (chunk ++ [line]) (total_len + Py.len line + 1))
        as (groups & Heq & Hcat & Hall).
      { rewrite len_join_snoc, Htot. destruct chunk; cbn [app]; lia. }
      { lia. }
      exists groups. split; [exact Heq|]. split; [|exact Hall].
      rewrite Hcat, <- app_assoc. reflexivity.
Qed.

(** X24: the messages of [cfg_simulate].  There is one line per level from
    0 to [levels].  When no line is longer than 1899 characters, the
    messages are the lines, all of them and in order, cut into
    consecutive groups that are never empty and joined by newlines, and
    no message is longer than 1899 characters.  The command changes
    nothing but the settings row it may create. *)
Theorem cfg_simulate_messages (gid levels : Z) (d : Db) :
  let s := (get_settings gid d).1 in
  let lines := simulate_lines s levels in
  Forall (fun line => Py.len line <= 1899) lines ->
  Z.of_nat (length lines) = Z.max 0 (levels + 1) /\
  (exists groups : list (list string),
     (cfg_simulate gid levels d).1 = String.concat newline <$> groups /\
     concat groups = lines /\
     Forall (fun g => g <> [] /\ Py.len (String.concat newline g) <= 1899) groups) /\
  (cfg_simulate gid levels d).2 = (get_settings gid d).2.
Proof.
  intros s lines Hshort. split.
  { unfold lines, simulate_lines. rewrite !length_fmap, length_seq. lia. }
  unfold cfg_simulate. rewrite (surjective_pairing (get_settings gid d)). fold s lines.
  cbn [fst snd]. split; [|reflexivity].
  destruct (pack_lines_from lines Hshort [] [] 0) as (groups & Heq & Hcat & Hall);
    [reflexivity | lia |].
  exists groups. split; [exact Heq|]. split; [exact Hcat | exact Hall].
Qed.

Lemma cfg_simulate_messages_witness :
  Forall (fun line => Py.len line <= 1899)
    (simulate_lines (get_settings 1 empty_db).1 2) /\
  Z.of_nat (length (simulate_lines (get_settings 1 empty_db).1 2)) = Z.max 0 (2 + 1).
Proof.
  assert (H : Forall (fun line => Py.len line <= 1899)
                (simulate_lines (get_settings 1 empty_db).1 2))
    by (repeat constructor; vm_compute; discriminate).
  split; [exact H|].
  exact (proj1 (cfg_simulate_messages 1 2 empty_db H)).
Defined.

(** ** The gain of a message *)

(** X25: the XP a message is worth.  It is never negative; it is 0 when
    the global multiplier is 0; outside threads, or with a thread
    multiplier of 1, and with a global multiplier of 1 it is the draw
    plus the attachment and mention bonuses (0 if that is negative);
    and with multipliers that are not negative a higher draw never
    gives less. *)
Theorem gain_formula (s : Settings) (base_gain : Z) (message : Message) :
  let raw := base_gain + attachments_bonus s * Z.of_nat (attachments message)
             + mentions_bonus s * Z.of_nat (mentions message) in
  0 <= compute_gain s base_gain message /\
  ((multiplier s == 0)%Q -> compute_gain s base_gain message = 0) /\
  ((multiplier s == 1)%Q ->
   channel_is_thread message = false \/ (threads_multiplier s == 1)%Q ->
   compute_gain s base_gain message = Z.max 0 raw) /\
  ((0 <= multiplier s)%Q -> (0 <= threads_multiplier s)%Q ->
   forall more, base_gain <= more ->
     compute_gain s base_gain message <= compute_gain s more message).
Proof.
  intros raw. unfold compute_gain. fold raw.
  split; [lia|]. split; [|split].
  - intros Hm. rewrite (round_Qeq _ 0); [rewrite round_0; reflexivity|].
    rewrite Hm. apply Qmult_0_r.
  - intros Hm Hthread.
    assert (Hin : (if channel_is_thread message
                   then Py.round (inject_Z raw * threads_multiplier s) else raw) = raw).
    { destruct (channel_is_thread message); [|reflexivity].
      destruct Hthread as [|Ht]; [discriminate|].
      rewrite (round_Qeq _ (inject_Z raw)); [apply round_inject_Z|].
      rewrite Ht. apply Qmult_1_r. }
    rewrite Hin. rewrite (round_Qeq _ (inject_Z raw)); [now rewrite round_inject_Z|].
    rewrite Hm. apply Qmult_1_r.
  - intros Hm Ht more Hmore.
    set (raw' := more + attachments_bonus s * Z.of_nat (attachments message)
                 + mentions_bonus s * Z.of_nat (mentions message)).
    assert (Hraw : raw <= raw') by (unfold raw, raw'; lia).
    assert (Hin : (if channel_is_thread message
                   then Py.round (inject_Z raw * threads_multiplier s) else raw)
                  <= (if channel_is_thread message
                      then Py.round (inject_Z raw' * threads_multiplier s) else raw')).
    { destruct (channel_is_thread message); [|exact Hraw].
      apply round_mono. apply Qmult_le_compat_r; [now rewrite <- Zle_Qle | exact Ht]. }
    apply Z.max_le_compat_l. apply round_mono.
    apply Qmult_le_compat_r; [now rewrite <- Zle_Qle | exact Hm].
Qed.

Lemma gain_formula_witness :
  (multiplier DEFAULT_SETTINGS == 1)%Q /\
  (channel_is_thread (demo_message 5) = false
   \/ (threads_multiplier DEFAULT_SETTINGS == 1)%Q) /\
  compute_gain DEFAULT_SETTINGS 13 (demo_message 5)
  = Z.max 0 (13 + attachments_bonus DEFAULT_SETTINGS * Z.of_nat (attachments (demo_message 5))
             + mentions_bonus DEFAULT_SETTINGS * Z.of_nat (mentions (demo_message 5))).
Proof.
  assert (H1 : (multiplier DEFAULT_SETTINGS == 1)%Q) by reflexivity.
  assert (H2 : channel_is_thread (demo_message 5) = false
               \/ (threads_multiplier DEFAULT_SETTINGS == 1)%Q) by (left; reflexivity).
  split; [exact H1|]. split; [exact H2|].
  exact (proj1 (proj2 (proj2 (gain_formula DEFAULT_SETTINGS 13 (demo_message 5)))) H1 H2).
Defined.

(** ** The effects of a message *)

Lemma award_roles_trace guild member rows awarded w :
  exists visits,
    trace (award_roles guild member rows awarded w).2 = trace w ++ visits /\
    Forall (grant_for (g_id guild) member) visits.
Proof.
  revert awarded w. induction rows as [|[level_at role_id] rows IH]; intros awarded w.
  - exists []. now rewrite app_nil_r.
  - cbn [award_roles].
    assert (Hstep : forall o awarded' w0,
              trace w0 = trace w ->
              exists visits,
                trace (award_roles guild member rows awarded'
                         (emit (EvGrant (g_id guild) member level_at role_id o) w0)).2
                = trace w ++ visits /\
                Forall (grant_for (g_id guild) member) visits).
    { intros o awarded' w0 Htr.
      destruct (IH awarded' (emit (EvGrant (g_id guild) member level_at role_id o) w0))
        as (visits & Heq & Hall).
      exists (EvGrant (g_id guild) member level_at role_id o :: visits). split.
      - rewrite Heq. simpl. rewrite Htr, <- app_assoc. reflexivity.
      - constructor; [simpl; auto | exact Hall]. }
    destruct (negb (bool_decide (role_id ∈ g_roles guild))); [now apply Hstep|].
    destruct (members w !! (g_id guild, member)) as [held|];
      [|exists []; now rewrite app_nil_r].
    destruct (bool_decide (role_id ∈ held)); [now apply Hstep|].
    destruct (g_add_roles guild member role_id); now apply Hstep.
Qed.

Lemma add_xp_trace guild member gained w :
  exists visits,
    trace (add_xp_and_check_level_up guild member gained w).2 = trace w ++ visits /\
    Forall (grant_for (g_id guild) member) visits.
Proof.
  unfold add_xp_and_check_level_up. rewrite get_settings_w_eq. cbn [db with_db].
  destruct (apply_xp _ _ _ _ _) as [[[cur tot] lvl] d'].
  destruct (cur <? lvl).
  - match goal with |- context [award_roles ?g ?m ?r ?a ?w0] =>
      destruct (award_roles_trace g m r a w0) as (visits & Heq & Hall);
      destruct (award_roles g m r a w0) as [[aw|] w''] end;
      exists visits; split; [exact Heq | exact Hall | exact Heq | exact Hall].
  - exists []. simpl. now rewrite app_nil_r.
Qed.

(** X26: what a message does to the outside.  [on_message] adds to the
    effects, in this order, the role grants it tried, all for the author
    in the message's guild, and then at most one announcement.  The
    announcement is there exactly when the outcome says so; it is for
    the author, with the level in the outcome, and it needs the guild's
    [announce_level_up] to be 1.  A message that was filtered out, was on
    cooldown or had no gain has no effect at all. *)
Theorem on_message_effects now rnd message w :
  let r := on_message now rnd message w in
  exists visits ann,
    trace r.2 = trace w ++ visits ++ ann /\
    Forall (fun e => exists guild, msg_guild message = Some guild /\
                                   grant_for (g_id guild) (author_id message) e) visits /\
    (match r.1 with
     | Applied new_total new_level true =>
         exists guild channel progress need_to_next rewards,
           msg_guild message = Some guild /\
           announce_level_up (get_settings (g_id guild) (db w)).1 = 1 /\
           ann = [EvAnnounce (g_id guild) channel (author_id message) new_level
                    progress need_to_next rewards]
     | Applied _ _ false | Raised => ann = []
     | _ => ann = [] /\ visits = []
     end).
Proof.
  intros r. unfold r.
  destruct (msg_guild message) as [guild|] eqn:Hg.
  2:{ exists [], []. unfold on_message. rewrite Hg. cbn. rewrite app_nil_r. auto. }
  destruct (eligible message w) eqn:He.
  2:{ exists [], []. rewrite (on_message_stopped now rnd message guild w Hg He).
      cbn [fst snd trace with_db]. rewrite app_nil_r. split; [reflexivity|].
      split; [constructor|].
      destruct (_ && _); [auto|]. destruct (is_channel_ignored _ _ _); [auto|].
      destruct (has_blacklisted_role _ _ _); auto. }
  rewrite (on_message_eligible now rnd message guild w Hg He). cbv zeta.
  set (gid := g_id guild). set (uid := author_id message).
  set (s := (get_settings gid (db w)).1).
  set (w1 := with_db (fun d => (get_settings gid d).2) w).
  destruct (on_cooldown _ _ _).
  { exists [], []. cbn. rewrite app_nil_r. auto. }
  destruct (Py.randint _ _ _) as [base_gain|].
  2:{ exists [], []. cbn. rewrite app_nil_r. auto. }
  set (gain := compute_gain s base_gain message).
  destruct (gain <=? 0).
  { exists [], []. cbn. rewrite app_nil_r. auto. }
  set (w2 := with_db (set_last_message_ts gid uid now) w1).
  destruct (add_xp_trace guild uid gain w2) as (visits & Heq & Hall).
  assert (Hall' : Forall (fun e => exists guild0, Some guild = Some guild0 /\
                                     grant_for (g_id guild0) uid e) visits).
  { eapply Forall_impl; [exact Hall|]. intros e Hgrant. exists guild. auto. }
  destruct (add_xp_and_check_level_up guild uid gain w2) as [[[[t l] aw]|] w3];
    cbn [snd] in Heq.
  - destruct (negb (bool_decide (aw = [])) || (0 <? l)) eqn:Hcond; cbn [andb].
    + destruct (Z.eqb_spec (announce_level_up s) 1) as [Hon|Hoff].
      * eexists visits, [_]. split; [cbn; rewrite Heq, <- app_assoc; reflexivity|].
        split; [exact Hall'|]. cbn [fst].
        exists guild. do 4 eexists. split; [reflexivity|]. split; [exact Hon | reflexivity].
      * exists visits, []. cbn [fst snd]. rewrite app_nil_r. auto.
    + exists visits, []. cbn [fst snd]. rewrite app_nil_r. auto.
  - exists visits, []. cbn [fst snd]. rewrite app_nil_r. auto.
Qed.

(** ** Messages from bots *)

(** X27: a bot's message in a guild.  With [ignore_bots] at 1 it stops at
    the first filter and only the settings row may have been created;
    with any other value it is handled exactly as the same message from
    an author that is not a bot. *)
Theorem bot_messages now rnd message guild w :
  msg_guild message = Some guild ->
  author_bot message = true ->
  let gid := g_id guild in
  let s := (get_settings gid (db w)).1 in
  (ignore_bots s = 1 ->
   on_message now rnd message w
   = (IgnoredBot, with_db (fun d => (get_settings gid d).2) w)) /\
  (ignore_bots s <> 1 ->
   on_message now rnd message w = on_message now rnd (as_human message) w).
Proof.
  intros Hg Hbot gid s.
  set (w1 := with_db (fun d => (get_settings gid d).2) w).
  assert (Hs1 : get_settings_w gid w1 = (s, w1)).
  { replace w1 with (get_settings_w gid w).2 at 1 by now rewrite get_settings_w_eq.
    rewrite get_settings_w_again. apply get_settings_w_eq. }
  assert (Hs : get_settings_w gid w = (s, w1)) by apply get_settings_w_eq.
  unfold on_message. cbn [as_human msg_guild author_bot author_id channel_id
    channel_is_thread content attachments mentions].
  rewrite Hg, Hbot. fold gid. rewrite Hs. split.
  - intros Hon. now rewrite Hon.
  - intros Hoff. destruct (Z.eqb_spec (ignore_bots s) 1); [contradiction|].
    rewrite Hs1. reflexivity.
Qed.

Lemma bot_messages_witness :
  let message :=
    {| msg_guild := Some demo_guild; author_id := 5; author_bot := true;
       channel_id := 7; channel_is_thread := false; content := "hello world";
       attachments := 0; mentions := 0 |} in
  msg_guild message = Some demo_guild /\ author_bot message = true /\
  ignore_bots (get_settings 1 (db fresh_world)).1 = 1 /\
  on_message 1700000000 3 message fresh_world
  = (IgnoredBot, with_db (fun d => (get_settings 1 d).2) fresh_world).
Proof.
  intros message.
  assert (H1 : msg_guild message = Some demo_guild) by reflexivity.
  assert (H2 : author_bot message = true) by reflexivity.
  assert (H3 : ignore_bots (get_settings (g_id demo_guild) (db fresh_world)).1 = 1)
    by reflexivity.
  split; [exact H1|]. split; [exact H2|]. split; [exact H3|].
  exact (proj1 (bot_messages 1700000000 3 message demo_guild fresh_world H1 H2) H3).
Defined.
